(** * Chatbase conversations analyzer: a shallow embedding of [app.py]

    The development follows the source file function by function:
    [process_conversations] (the flattener), [get_daily_metrics],
    [get_country_metrics], [analyze_question_category],
    [analyze_batch_questions] and [get_category_metrics].

    Python values are an inductive type, exceptions are an error monad, and
    the data frames the aggregators read and write live in a store, so that
    an assignment [df['Date'] = ...] is visible as a change of the store.
    The floats of the percentages are binary64 numbers with their rounding.
    numpy's [argsort], which leaves equal keys in an order of its own, is a
    parameter of the functions that sort. *)

From Stdlib Require Import List ZArith Lia Bool Ascii String.
From Stdlib Require Import Permutation Sorted OrdersEx QArith Qminmax Lqa.
Import ListNotations.

Local Open Scope string_scope.
Local Open Scope Z_scope.
Local Open Scope list_scope.

(* ================================================================= *)
(** ** Python values and exceptions *)

(** What [json.load] can return, plus the [date] objects that
    [get_daily_metrics] stores in its [Date] column.  A float is carried as
    its IEEE-754 binary64 bit pattern: the program never computes with the
    floats of the document, it only moves them around.  A [dict] is an
    association list whose first binding of a key is the one that counts. *)
#[warnings="-register-all"]
Inductive pyval : Type :=
| PNone
| PBool (b : bool)
| PInt (n : Z)
| PFloat (bits : Z)
| PStr (s : string)
| PList (items : list pyval)
| PDict (entries : list (string * pyval))
| PDate (year month day : Z).

(** The exceptions the modelled code can raise.  [OutOfBoundsDatetime] is
    pandas' (a [ValueError] by its class).  [OutsideModel] is not a Python
    exception: it marks an input on which pandas is not modelled (group keys
    that are neither strings, dates nor missing values, cells of a column
    of timestamps that are not in the notation the flattener writes). *)
Inductive exn : Type :=
| KeyError (key : string)
| ValueError
| TypeError
| AttributeError
| RetryError
| OverflowError
| OutOfBoundsDatetime
| OutsideModel.

Inductive result (A : Type) : Type :=
| Ok (a : A)
| Raise (e : exn).
Arguments Ok {A} a.
Arguments Raise {A} e.

Definition bind {A B} (m : result A) (f : A -> result B) : result B :=
  match m with
  | Ok a => f a
  | Raise e => Raise e
  end.

Notation "x <- m ;; k" := (bind m (fun x => k))
  (at level 61, m at next level, right associativity).
Notation "' p <- m ;; k" := (bind m (fun x => match x with p => k end))
  (at level 61, p pattern, m at next level, right associativity).

Fixpoint lookup {V} (k : string) (d : list (string * V)) : option V :=
  match d with
  | [] => None
  | (k', v) :: rest => if String.eqb k k' then Some v else lookup k rest
  end.

(** [obj[key]] with a string key. *)
Definition getitem (obj : pyval) (key : string) : result pyval :=
  match obj with
  | PDict d =>
      match lookup key d with
      | Some v => Ok v
      | None => Raise (KeyError key)
      end
  | _ => Raise TypeError
  end.

(** [obj.get(key, default)]: only a dict has the method. *)
Definition method_get (obj : pyval) (key : string) (default : pyval)
  : result pyval :=
  match obj with
  | PDict d =>
      match lookup key d with
      | Some v => Ok v
      | None => Ok default
      end
  | _ => Raise AttributeError
  end.

Definition chars (s : string) : list pyval :=
  map (fun c => PStr (String c EmptyString)) (list_ascii_of_string s).

(** What a [for] loop iterates over. *)
Definition iterate (obj : pyval) : result (list pyval) :=
  match obj with
  | PList l => Ok l
  | PDict d => Ok (map (fun kv => PStr (fst kv)) d)
  | PStr s => Ok (chars s)
  | _ => Raise TypeError
  end.

(** [v == s] for a string literal [s]. *)
Definition eq_str (v : pyval) (s : string) : bool :=
  match v with
  | PStr s' => String.eqb s' s
  | _ => false
  end.

(* ================================================================= *)
(** ** Timestamps: [split('+')[0]], [strptime] and [strftime] *)

Fixpoint before_plus (s : string) : string :=
  match s with
  | EmptyString => EmptyString
  | String c rest =>
      if Ascii.eqb c "+" then EmptyString else String c (before_plus rest)
  end.

(** [obj.split('+')[0]]: only a string has the method. *)
Definition split_plus_first (obj : pyval) : result string :=
  match obj with
  | PStr s => Ok (before_plus s)
  | _ => Raise AttributeError
  end.

Record datetime : Type := mkDatetime {
  dt_year : Z; dt_month : Z; dt_day : Z;
  dt_hour : Z; dt_minute : Z; dt_second : Z; dt_microsecond : Z
}.

Definition digit (c : ascii) : option Z :=
  let n := Z.of_N (N_of_ascii c) in
  if (48 <=? n) && (n <=? 57) then Some (n - 48) else None.

Definition parser (A : Type) : Type := string -> option (A * string).

(** [%Y]: exactly four digits. *)
Definition directive_Y : parser Z := fun s =>
  match s with
  | String a (String b (String c (String d rest))) =>
      match digit a, digit b, digit c, digit d with
      | Some a, Some b, Some c, Some d =>
          Some (1000 * a + 100 * b + 10 * c + d, rest)
      | _, _, _, _ => None
      end
  | _ => None
  end.

(** A one-or-two digit directive: the two-character alternatives of its
    pattern are tried first, then the one-character one. *)
Definition directive2 (two : Z -> Z -> bool) (one : Z -> bool) : parser Z :=
  fun s =>
  let single :=
    match s with
    | String a rest =>
        match digit a with
        | Some a => if one a then Some (a, rest) else None
        | None => None
        end
    | EmptyString => None
    end in
  match s with
  | String a (String b rest) =>
      match digit a, digit b with
      | Some a, Some b => if two a b then Some (10 * a + b, rest) else single
      | _, _ => single
      end
  | _ => single
  end.

(** [%m]: [1[0-2]|0[1-9]|[1-9]]. *)
Definition directive_m : parser Z :=
  directive2 (fun a b => ((a =? 1) && (b <=? 2)) || ((a =? 0) && (1 <=? b)))
             (fun a => 1 <=? a).

(** [%d]: [3[0-1]|[1-2]\d|0[1-9]|[1-9]| [1-9]]. *)
Definition directive_d : parser Z := fun s =>
  match directive2
          (fun a b => ((a =? 3) && (b <=? 1)) || (a =? 1) || (a =? 2)
                      || ((a =? 0) && (1 <=? b)))
          (fun a => 1 <=? a) s with
  | Some r => Some r
  | None =>
      match s with
      | String " " (String b rest) =>
          match digit b with
          | Some b => if 1 <=? b then Some (b, rest) else None
          | None => None
          end
      | _ => None
      end
  end.

(** [%H]: [2[0-3]|[0-1]\d|\d]. *)
Definition directive_H : parser Z :=
  directive2 (fun a b => ((a =? 2) && (b <=? 3)) || (a <=? 1)) (fun _ => true).

(** [%M]: [[0-5]\d|\d]. *)
Definition directive_M : parser Z :=
  directive2 (fun a _ => a <=? 5) (fun _ => true).

(** [%S]: [6[0-1]|[0-5]\d|\d]. *)
Definition directive_S : parser Z :=
  directive2 (fun a b => ((a =? 6) && (b <=? 1)) || (a <=? 5)) (fun _ => true).

(** [%f]: one to six digits, read greedily and padded with zeros on the
    right to six. *)
Fixpoint fraction_digits (fuel : nat) (acc : Z) (s : string) : Z * string :=
  match fuel with
  | O => (acc, s)
  | S fuel' =>
      match s with
      | String a rest =>
          match digit a with
          | Some a => fraction_digits fuel' (acc + a * 10 ^ Z.of_nat fuel') rest
          | None => (acc, s)
          end
      | EmptyString => (acc, s)
      end
  end.

Definition directive_f : parser Z := fun s =>
  match s with
  | String a _ =>
      match digit a with
      | Some _ => Some (fraction_digits 6 0 s)
      | None => None
      end
  | EmptyString => None
  end.

(** A literal character of the format; the pattern is compiled with
    [re.IGNORECASE], which matters for the letter [T] only. *)
Definition literal (c : ascii) : parser unit := fun s =>
  match s with
  | String a rest => if Ascii.eqb a c then Some (tt, rest) else None
  | EmptyString => None
  end.

Definition literal_T : parser unit := fun s =>
  match s with
  | String a rest =>
      if Ascii.eqb a "T" || Ascii.eqb a "t" then Some (tt, rest) else None
  | EmptyString => None
  end.

Definition is_leap (y : Z) : bool :=
  ((y mod 4 =? 0) && negb (y mod 100 =? 0)) || (y mod 400 =? 0).

Definition days_in_month (y m : Z) : Z :=
  if m =? 2 then (if is_leap y then 29 else 28)
  else if (m =? 4) || (m =? 6) || (m =? 9) || (m =? 11) then 30
  else 31.

Definition valid_date (y m d : Z) : bool :=
  (1 <=? y) && (y <=? 9999) && (1 <=? m) && (m <=? 12)
  && (1 <=? d) && (d <=? days_in_month y m).

Definition valid_time (h mi s : Z) : bool :=
  (0 <=? h) && (h <=? 23) && (0 <=? mi) && (mi <=? 59)
  && (0 <=? s) && (s <=? 59).

Definition pthen {A B} (p : parser A) (k : A -> parser B) : parser B :=
  fun s => match p s with
           | Some (a, rest) => k a rest
           | None => None
           end.

Notation "x <~ p ;; k" := (pthen p (fun x => k))
  (at level 61, p at next level, right associativity).

(** [datetime.strptime(s, "%Y-%m-%dT%H:%M:%S.%f")] on ASCII text: the
    whole string has to match the pattern of the format, and the fields
    have to make a date and a time of day that exist ([ValueError]
    otherwise). *)
Definition strptime (s : string) : result datetime :=
  match (y <~ directive_Y ;; _ <~ literal "-" ;;
         m <~ directive_m ;; _ <~ literal "-" ;;
         d <~ directive_d ;; _ <~ literal_T ;;
         h <~ directive_H ;; _ <~ literal ":" ;;
         mi <~ directive_M ;; _ <~ literal ":" ;;
         sec <~ directive_S ;; _ <~ literal "." ;;
         us <~ directive_f ;;
         (fun rest => Some (mkDatetime y m d h mi sec us, rest))) s with
  | Some (dt, EmptyString) =>
      if valid_date (dt_year dt) (dt_month dt) (dt_day dt)
         && valid_time (dt_hour dt) (dt_minute dt) (dt_second dt)
      then Ok dt else Raise ValueError
  | _ => Raise ValueError
  end.

Definition digit_char (d : Z) : ascii := ascii_of_N (Z.to_N (48 + d mod 10)).

Definition pad2 (n : Z) : string :=
  String (digit_char (n / 10)) (String (digit_char n) EmptyString).

Fixpoint decimal_digits (fuel : nat) (n : Z) (acc : string) : string :=
  match fuel with
  | O => acc
  | S fuel' =>
      let acc := String (digit_char n) acc in
      if n <? 10 then acc else decimal_digits fuel' (n / 10) acc
  end.

(** [str(n)] for [0 <= n]: the decimal digits, none of them a leading
    zero. *)
Definition str_of_int (n : Z) : string :=
  decimal_digits (S (Z.to_nat (Z.log2 n))) n EmptyString.

Definition month_names : list string :=
  ["January"; "February"; "March"; "April"; "May"; "June"; "July";
   "August"; "September"; "October"; "November"; "December"].

Definition month_name (m : Z) : string :=
  nth (Z.to_nat (m - 1)) month_names "".

(** [dt.strftime("%B %d, %Y %H:%M:%S")] in the C locale.  CPython hands
    the format to the C library, and glibc writes the year of [%Y] as a
    plain decimal number: four digits from the year 1000 on, fewer before
    (the year 999 is written [999]). *)
Definition strftime (dt : datetime) : string :=
  (month_name (dt_month dt) ++ " " ++ pad2 (dt_day dt) ++ ", "
   ++ str_of_int (dt_year dt) ++ " " ++ pad2 (dt_hour dt) ++ ":"
   ++ pad2 (dt_minute dt) ++ ":" ++ pad2 (dt_second dt))%string.

(* ================================================================= *)
(** ** The flattener: [process_conversations] *)

(** One element of [conversation_details]: the dict appended for a user
    message, with its six keys. *)
Record QuestionRow : Type := mkRow {
  S_No : Z;
  Asked_at : string;
  Country : pyval;
  User_Question : pyval;
  Assistant_Response : pyval;
  Score : pyval
}.

(** A [pandas.DataFrame]: its columns in order, each with its cells.  The
    index and the conversions between column types are not modelled: a
    cell keeps the Python value it was built from. *)
Definition DataFrame : Type := list (string * list pyval).

(** [pd.DataFrame(records)] for records that all have the six keys: no
    record gives no column at all. *)
Definition DataFrame_of_records (records : list QuestionRow) : DataFrame :=
  match records with
  | [] => []
  | _ :: _ =>
      [("S.No", map (fun r => PInt (S_No r)) records);
       ("Asked at", map (fun r => PStr (Asked_at r)) records);
       ("Country", map Country records);
       ("User Question", map User_Question records);
       ("Assistant Response", map Assistant_Response records);
       ("Score", map Score records)]
  end.

(** The first loop over the messages of a conversation; [last] is the pair
    [(last_assistant_response, last_assistant_score)].  The [and] of the
    source does not look at the type of a message that is not from the
    assistant. *)
Fixpoint find_last_assistant (messages : list pyval) (last : pyval * pyval)
  : result (pyval * pyval) :=
  match messages with
  | [] => Ok last
  | message :: rest =>
      role <- method_get message "role" PNone ;;
      if eq_str role "assistant" then
        type <- method_get message "type" PNone ;;
        if eq_str type "text" then
          content <- method_get message "content" PNone ;;
          score <- method_get message "score" (PStr "N/A") ;;
          find_last_assistant rest (content, score)
        else find_last_assistant rest last
      else find_last_assistant rest last
  end.

(** The second loop: one dict appended per user message.  The dict display
    reads [conversation['country']] when it is built, so once per user
    message. *)
Fixpoint collect_user_questions (conversation : pyval) (formatted_date : string)
    (last_assistant_response last_assistant_score : pyval)
    (messages : list pyval) (conversation_details : list QuestionRow)
  : result (list QuestionRow) :=
  match messages with
  | [] => Ok conversation_details
  | message :: rest =>
      role <- method_get message "role" PNone ;;
      if eq_str role "user" then
        user_question <- method_get message "content" PNone ;;
        country <- getitem conversation "country" ;;
        collect_user_questions conversation formatted_date
          last_assistant_response last_assistant_score rest
          (conversation_details ++
             [mkRow (Z.of_nat (List.length conversation_details) + 1)
                    formatted_date country user_question
                    last_assistant_response last_assistant_score])
      else
        collect_user_questions conversation formatted_date
          last_assistant_response last_assistant_score rest
          conversation_details
  end.

(** The body of the loop over the conversations. *)
Definition process_conversation (conversation : pyval)
    (conversation_details : list QuestionRow) : result (list QuestionRow) :=
  created <- getitem conversation "created_at" ;;
  text <- split_plus_first created ;;
  created_at <- strptime text ;;
  let formatted_date := strftime created_at in
  messages <- getitem conversation "messages" ;;
  messages <- iterate messages ;;
  ' (last_assistant_response, last_assistant_score) <-
      find_last_assistant messages (PNone, PStr "N/A") ;;
  messages' <- getitem conversation "messages" ;;
  messages' <- iterate messages' ;;
  collect_user_questions conversation formatted_date
    last_assistant_response last_assistant_score messages'
    conversation_details.

Fixpoint process_loop (conversations : list pyval)
    (conversation_details : list QuestionRow) : result (list QuestionRow) :=
  match conversations with
  | [] => Ok conversation_details
  | conversation :: rest =>
      conversation_details <- process_conversation conversation
                                conversation_details ;;
      process_loop rest conversation_details
  end.

(** The list [conversation_details] when the function returns. *)
Definition flatten (data : pyval) : result (list QuestionRow) :=
  conversations <- getitem data "conversations" ;;
  conversations <- iterate conversations ;;
  process_loop conversations [].

Definition process_conversations (data : pyval) : result DataFrame :=
  conversation_details <- flatten data ;;
  Ok (DataFrame_of_records conversation_details).

(** *** The words of the specification, for the flattener *)

(** The messages of a conversation, and none where there is no such list. *)
Definition messages_of (conversation : pyval) : list pyval :=
  match getitem conversation "messages" with
  | Ok v => match iterate v with Ok l => l | Raise _ => [] end
  | Raise _ => []
  end.

Definition conversations_of (data : pyval) : list pyval :=
  match getitem data "conversations" with
  | Ok v => match iterate v with Ok l => l | Raise _ => [] end
  | Raise _ => []
  end.

Definition field (message : pyval) (key : string) (default : pyval) : pyval :=
  match method_get message key default with
  | Ok v => v
  | Raise _ => default
  end.

Definition is_user (message : pyval) : bool :=
  eq_str (field message "role" PNone) "user".

Definition is_assistant_text (message : pyval) : bool :=
  eq_str (field message "role" PNone) "assistant"
  && eq_str (field message "type" PNone) "text".

(** The last message of a list that satisfies [p], in document order. *)
Definition last_such (p : pyval -> bool) (messages : list pyval)
  : option pyval :=
  match rev (filter p messages) with
  | [] => None
  | m :: _ => Some m
  end.

(** The number of user messages of a conversation. *)
Definition user_messages (conversation : pyval) : nat :=
  List.length (filter is_user (messages_of conversation)).

(** The answer and the score the first loop ends with. *)
Definition answer_of (messages : list pyval) (otherwise : pyval * pyval)
  : pyval * pyval :=
  match last_such is_assistant_text messages with
  | Some m => (field m "content" PNone, field m "score" (PStr "N/A"))
  | None => otherwise
  end.

(** The timestamp of a conversation, when it has one that parses. *)
Definition created_at_of (conversation : pyval) : result datetime :=
  created <- getitem conversation "created_at" ;;
  text <- split_plus_first created ;;
  strptime text.

(** The sequence numbers [first, first + 1, ...] of [n] rows. *)
Definition numbers_from (first : nat) (n : nat) : list Z :=
  map Z.of_nat (seq first n).

(** The rows of one conversation, as the specification words them: as many
    as user messages, with their contents in document order, the
    conversation's country and formatted timestamp, and the answer and
    score of the last assistant text message. *)
Definition rows_of_conversation (conversation : pyval)
    (block : list QuestionRow) : Prop :=
  List.length block = user_messages conversation
  /\ map User_Question block
     = map (fun m => field m "content" PNone)
           (filter is_user (messages_of conversation))
  /\ exists created_at,
       created_at_of conversation = Ok created_at
       /\ Forall (fun r =>
            Asked_at r = strftime created_at
            /\ (Assistant_Response r, Score r)
               = answer_of (messages_of conversation) (PNone, PStr "N/A")
            /\ getitem conversation "country" = Ok (Country r)) block.

(** The exception a conversation raises when it is processed, if any.
    (It does not depend on the rows collected before, see
    [process_conversation_status].) *)
Definition status {A} (r : result A) : option exn :=
  match r with
  | Ok _ => None
  | Raise e => Some e
  end.

Definition conversation_error (conversation : pyval) : option exn :=
  status (process_conversation conversation []).

(** The exception of the first conversation, in document order, that
    raises one. *)
Fixpoint first_error (conversations : list pyval) : option exn :=
  match conversations with
  | [] => None
  | c :: rest =>
      match conversation_error c with
      | Some e => Some e
      | None => first_error rest
      end
  end.

Definition is_dict (v : pyval) : bool :=
  match v with
  | PDict _ => true
  | _ => false
  end.

(** A conversation of the shape the specification describes: a dict with a
    timestamp that parses, a country, and a list of dicts as messages. *)
Definition well_formed_conversation (conversation : pyval) : bool :=
  match conversation with
  | PDict entries =>
      match lookup "created_at" entries, lookup "messages" entries,
            lookup "country" entries with
      | Some (PStr s), Some (PList messages), Some _ =>
          match strptime (before_plus s) with
          | Ok _ => true
          | Raise _ => false
          end && forallb is_dict messages
      | _, _, _ => false
      end
  | _ => false
  end.

Definition well_formed_document (data : pyval) : bool :=
  match data with
  | PDict entries =>
      match lookup "conversations" entries with
      | Some (PList conversations) =>
          forallb well_formed_conversation conversations
      | _ => false
      end
  | _ => false
  end.

(* ================================================================= *)
(** ** Data frames: columns, missing values, groups, sorting *)

Definition column (df : DataFrame) (name : string) : result (list pyval) :=
  match lookup name df with
  | Some cells => Ok cells
  | None => Raise (KeyError name)
  end.

(** [df[name] = cells]: an existing column is replaced where it stands, a
    new one is added last. *)
Fixpoint set_column (df : DataFrame) (name : string) (cells : list pyval)
  : DataFrame :=
  match df with
  | [] => [(name, cells)]
  | (n, c) :: rest =>
      if String.eqb name n then (name, cells) :: rest
      else (n, c) :: set_column rest name cells
  end.

Definition column_names (df : DataFrame) : list string := map fst df.

Definition is_nan (bits : Z) : bool :=
  (Z.land (Z.shiftr bits 52) 2047 =? 2047)
  && negb (Z.land bits (2 ^ 52 - 1) =? 0).

(** [pd.isna]: [None] and the float NaN are missing values. *)
Definition isna (v : pyval) : bool :=
  match v with
  | PNone => true
  | PFloat bits => is_nan bits
  | _ => false
  end.

Definition is_str (v : pyval) : bool :=
  match v with
  | PStr _ => true
  | _ => false
  end.

Definition present (v : pyval) : bool := negb (isna v).

(** The aggregation ['count']: the cells that are not missing. *)
Definition count (cells : list pyval) : Z :=
  Z.of_nat (List.length (filter (fun v => negb (isna v)) cells)).

Fixpoint traverse {A B} (f : A -> result B) (l : list A) : result (list B) :=
  match l with
  | [] => Ok []
  | x :: rest =>
      y <- f x ;;
      ys <- traverse f rest ;;
      Ok (y :: ys)
  end.

(** A cell as a string key: a missing value is no key. *)
Definition str_key (v : pyval) : result (option string) :=
  match v with
  | PStr s => Ok (Some s)
  | _ => if isna v then Ok None else Raise OutsideModel
  end.

Definition date : Type := (Z * Z * Z)%type.

Definition date_key (v : pyval) : result (option date) :=
  match v with
  | PDate y m d => Ok (Some (y, m, d))
  | _ => if isna v then Ok None else Raise OutsideModel
  end.

Definition date_compare (a b : date) : comparison :=
  let '(y1, m1, d1) := a in
  let '(y2, m2, d2) := b in
  match y1 ?= y2 with
  | Eq => match m1 ?= m2 with
          | Eq => d1 ?= d2
          | c => c
          end
  | c => c
  end.

Section Groups.
Context {K : Type} (cmp : K -> K -> comparison).

Fixpoint insert_key (k : K) (ks : list K) : list K :=
  match ks with
  | [] => [k]
  | k' :: rest =>
      match cmp k k' with
      | Lt => k :: ks
      | Eq => ks
      | Gt => k' :: insert_key k rest
      end
  end.

(** The keys of [groupby] (with its defaults [sort=True], [dropna=True]):
    the distinct keys that are not missing, in ascending order. *)
Definition group_keys (keys : list (option K)) : list K :=
  fold_right (fun k acc => match k with
                           | Some k => insert_key k acc
                           | None => acc
                           end) [] keys.

Definition same_key (k : K) (k' : option K) : bool :=
  match k' with
  | Some k' => match cmp k k' with Eq => true | _ => false end
  | None => false
  end.

(** The cells of a column in the rows of the group of [k]. *)
Definition group_cells {V} (k : K) (keys : list (option K)) (cells : list V)
  : list V :=
  map snd (filter (fun kv => same_key k (fst kv)) (combine keys cells)).
End Groups.

(** The aggregation ['nunique'] on a column of strings: the distinct values
    that are not missing. *)
Definition nunique (cells : list pyval) : result Z :=
  keys <- traverse str_key cells ;;
  Ok (Z.of_nat (List.length (group_keys String_as_OT.compare keys))).

(** [rows.take(indexer)]: the rows at the positions of the indexer. *)
Definition take_rows {A} (indexer : list nat) (l : list A) : list A :=
  flat_map (fun i => match nth_error l i with
                     | Some x => [x]
                     | None => []
                     end) indexer.

(** [sort_values(by, ascending=False)] on a column of integers.  pandas
    reverses the column, asks numpy for the indexer that sorts it in
    ascending order, takes the positions by it and reverses the result.
    The default kind of sort, quicksort, is not stable, and the order it
    gives to equal keys changes with numpy's version and with the machine
    (an introsort, or a vectorised sort), so numpy's [argsort] is a
    parameter of every function that sorts. *)
Definition sort_values_desc {A} (argsort : list Z -> list nat)
    (key : A -> Z) (l : list A) : list A :=
  let reversed := rev l in
  rev (take_rows (argsort (map key reversed)) reversed).

(* ================================================================= *)
(** ** The store of data frames *)

(** The aggregators receive a reference to a data frame and may assign to
    its columns; the frames live in a store, a reference is a position. *)
Definition store : Type := list DataFrame.
Definition ref : Type := nat.

Definition read (h : store) (r : ref) : option DataFrame := nth_error h r.

Fixpoint write (h : store) (r : ref) (df : DataFrame) : store :=
  match h, r with
  | [], _ => []
  | _ :: rest, O => df :: rest
  | x :: rest, S r' => x :: write rest r' df
  end.

Definition alloc (h : store) (df : DataFrame) : ref * store :=
  (List.length h, h ++ [df]).

(* ================================================================= *)
(** ** The country aggregator: [get_country_metrics] *)

Record CountryMetric : Type := mkCountryMetric {
  cm_country : string;
  cm_questions : Z;
  cm_users : Z
}.

Definition country_frame (rows : list CountryMetric) : DataFrame :=
  [("Country", map (fun r => PStr (cm_country r)) rows);
   ("Questions", map (fun r => PInt (cm_questions r)) rows);
   ("Users", map (fun r => PInt (cm_users r)) rows)].

(** [groupby('Country').agg(...)], then [sort_values('Questions',
    ascending=False)].  A missing column is a [KeyError]. *)
Definition country_rows (argsort : list Z -> list nat) (df : DataFrame)
  : result (list CountryMetric) :=
  countries <- column df "Country" ;;
  questions <- column df "User Question" ;;
  asked <- column df "Asked at" ;;
  keys <- traverse str_key countries ;;
  grouped <- traverse
    (fun k =>
       users <- nunique (group_cells String_as_OT.compare k keys asked) ;;
       Ok (mkCountryMetric k
             (count (group_cells String_as_OT.compare k keys questions))
             users))
    (group_keys String_as_OT.compare keys) ;;
  Ok (sort_values_desc argsort cm_questions grouped).

(** The function reads [df] and returns a new frame. *)
Definition get_country_metrics (argsort : list Z -> list nat)
    (df : ref) (h : store) : result ref * store :=
  match read h df with
  | None => (Raise OutsideModel, h)
  | Some frame =>
      match country_rows argsort frame with
      | Ok rows =>
          let (country_metrics, h') := alloc h (country_frame rows) in
          (Ok country_metrics, h')
      | Raise e => (Raise e, h)
      end
  end.

(* ================================================================= *)
(** ** The daily aggregator: [get_daily_metrics] *)

Fixpoint strip_prefix (p s : string) : option string :=
  match p with
  | EmptyString => Some s
  | String a p' =>
      match s with
      | String b s' => if Ascii.eqb a b then strip_prefix p' s' else None
      | EmptyString => None
      end
  end.

Fixpoint directive_B_from (m : Z) (names : list string) : parser Z :=
  fun s =>
  match names with
  | [] => None
  | name :: rest =>
      match strip_prefix name s with
      | Some s' => Some (m, s')
      | None => directive_B_from (m + 1) rest s
      end
  end.

Definition two_digits : parser Z := fun s =>
  match s with
  | String a (String b rest) =>
      match digit a, digit b with
      | Some a, Some b => Some (10 * a + b, rest)
      | _, _ => None
      end
  | _ => None
  end.

(** A string in the notation of [strftime] above, read back to its
    timestamp, to the second. *)
Definition parse_display_datetime (s : string) : option datetime :=
  match (m <~ directive_B_from 1 month_names ;; _ <~ literal " " ;;
         d <~ two_digits ;; _ <~ literal "," ;; _ <~ literal " " ;;
         y <~ directive_Y ;; _ <~ literal " " ;;
         h <~ two_digits ;; _ <~ literal ":" ;;
         mi <~ two_digits ;; _ <~ literal ":" ;;
         sec <~ two_digits ;;
         (fun rest => Some (mkDatetime y m d h mi sec 0, rest))) s with
  | Some (dt, EmptyString) =>
      if valid_date (dt_year dt) (dt_month dt) (dt_day dt)
         && valid_time (dt_hour dt) (dt_minute dt) (dt_second dt)
      then Some dt else None
  | _ => None
  end.

(** A number that orders the timestamps of dates that exist as time does,
    to the second. *)
Definition timestamp_key (dt : datetime) : Z :=
  ((((dt_year dt * 12 + (dt_month dt - 1)) * 31 + (dt_day dt - 1)) * 24
    + dt_hour dt) * 60 + dt_minute dt) * 60 + dt_second dt.

(** The timestamps pandas holds count nanoseconds in 64 bits:
    [Timestamp.min] is 1677-09-21 00:12:43.145224193 and [Timestamp.max]
    is 2262-04-11 23:47:16.854775807.  These are the first and the last
    whole second in between. *)
Definition Timestamp_min : datetime := mkDatetime 1677 9 21 0 12 44 0.
Definition Timestamp_max : datetime := mkDatetime 2262 4 11 23 47 16 0.

Definition in_bounds (dt : datetime) : bool :=
  (timestamp_key Timestamp_min <=? timestamp_key dt)
  && (timestamp_key dt <=? timestamp_key Timestamp_max).

(** One cell of [pd.to_datetime(df['Asked at'])].  pandas reads many
    notations of a timestamp; the model reads the one the flattener writes
    and leaves the others outside.  A timestamp outside the bounds raises
    [OutOfBoundsDatetime]. *)
Definition to_datetime (v : pyval) : result datetime :=
  match v with
  | PStr s =>
      match parse_display_datetime s with
      | Some dt => if in_bounds dt then Ok dt else Raise OutOfBoundsDatetime
      | None => Raise OutsideModel
      end
  | _ => Raise OutsideModel
  end.

(** One cell of [pd.to_datetime(column).dt.date]: the date of the
    timestamp.  A missing value stays missing. *)
Definition to_date (v : pyval) : result pyval :=
  match v with
  | PStr _ =>
      dt <- to_datetime v ;;
      Ok (PDate (dt_year dt) (dt_month dt) (dt_day dt))
  | _ => if isna v then Ok PNone else Raise OutsideModel
  end.

Record DailyMetric : Type := mkDailyMetric {
  dm_date : date;
  dm_questions : Z;
  dm_users : Z
}.

Definition pdate (d : date) : pyval :=
  let '(y, m, dd) := d in PDate y m dd.

Definition daily_frame (rows : list DailyMetric) : DataFrame :=
  [("Date", map (fun r => pdate (dm_date r)) rows);
   ("Questions", map (fun r => PInt (dm_questions r)) rows);
   ("Users", map (fun r => PInt (dm_users r)) rows)].

(** [pd.merge(left, right, on='Date')]: the inner join, in the order of the
    left keys. *)
Definition merge_on_date (left right : list (date * Z)) : list DailyMetric :=
  flat_map
    (fun l =>
       map (fun r => mkDailyMetric (fst l) (snd l) (snd r))
           (filter (fun r => match date_compare (fst l) (fst r) with
                             | Eq => true
                             | _ => false
                             end) right))
    left.

(** The two [groupby('Date')] tables and their merge, on the frame that
    already has its [Date] column. *)
Definition daily_rows (df : DataFrame) : result (list DailyMetric) :=
  dates <- column df "Date" ;;
  questions <- column df "User Question" ;;
  keys <- traverse date_key dates ;;
  let daily_questions :=
    map (fun k => (k, count (group_cells date_compare k keys questions)))
        (group_keys date_compare keys) in
  countries <- column df "Country" ;;
  daily_users <- traverse
    (fun k =>
       users <- nunique (group_cells date_compare k keys countries) ;;
       Ok (k, users))
    (group_keys date_compare keys) ;;
  Ok (merge_on_date daily_questions daily_users).

(** The function assigns the [Date] column of [df] itself, then builds the
    metrics in a new frame.  An exception raised after the assignment
    leaves the new column in place. *)
Definition get_daily_metrics (df : ref) (h : store) : result ref * store :=
  match read h df with
  | None => (Raise OutsideModel, h)
  | Some frame =>
      match (asked <- column frame "Asked at" ;; traverse to_date asked) with
      | Raise e => (Raise e, h)
      | Ok dates =>
          let frame' := set_column frame "Date" dates in
          let h1 := write h df frame' in
          match daily_rows frame' with
          | Ok rows =>
              let (daily_metrics, h2) := alloc h1 (daily_frame rows) in
              (Ok daily_metrics, h2)
          | Raise e => (Raise e, h1)
          end
      end
  end.

(* ================================================================= *)
(** ** The classifier: [analyze_question_category] *)

(** [str.lower()] on ASCII letters.  Strings are sequences of bytes; the
    bytes of a character outside ASCII are left as they are, and no keyword
    of the classifier can come out of lowering such a character. *)
Definition lower_char (c : ascii) : ascii :=
  let n := N_of_ascii c in
  if ((65 <=? n) && (n <=? 90))%N then ascii_of_N (n + 32) else c.

Fixpoint lower (s : string) : string :=
  match s with
  | EmptyString => EmptyString
  | String c rest => String (lower_char c) (lower rest)
  end.

(** [word in question]. *)
Fixpoint contains (word question : string) : bool :=
  String.prefix word question
  || match question with
     | EmptyString => false
     | String _ rest => contains word rest
     end.

Definition define_words : list string :=
  ["what is"; "what's"; "define"; "explain"; "describe"].

Definition howto_words : list string :=
  ["how to"; "how do"; "guide"; "steps"; "process"].

Definition any_word_in (words : list string) (question : string) : bool :=
  existsb (fun word => contains word question) words.

Definition analyze_question_category (question : string) : string :=
  let question := lower question in
  if contains "atlan" question then
    if any_word_in define_words question then "What is / Define (Branded)"
    else if any_word_in howto_words question then "FAQ / How to (Branded)"
    else "Branded"
  else if any_word_in define_words question
  then "What is / Define (Non branded)"
  else if any_word_in howto_words question
  then "FAQ / How to Type (Non branded)"
  else "Others".

Definition category_labels : list string :=
  ["What is / Define (Branded)"; "FAQ / How to (Branded)"; "Branded";
   "What is / Define (Non branded)"; "FAQ / How to Type (Non branded)";
   "Others"].

(** The call on a cell of the question column.  A value that is not a
    string has no [lower]; the [retry] decorator calls again, three times
    in all, and then raises its own [RetryError]. *)
Definition classify (question : pyval) : result string :=
  match question with
  | PStr s => Ok (analyze_question_category s)
  | _ => Raise RetryError
  end.

(* ================================================================= *)
(** ** The batch driver: [analyze_batch_questions] *)

(** [range(0, stop, step)] for a step of at least one. *)
Definition py_range (stop step : nat) : list nat :=
  map (fun k => (k * step)%nat) (seq 0 ((stop + step - 1) / step)).

(** [questions[i:j]] for [0 <= i <= j]. *)
Definition slice {A} (l : list A) (i j : nat) : list A :=
  firstn (j - i) (skipn i l).

(** The division [a / b] of two ints gives the float nearest to the
    quotient and raises [OverflowError] when that float would be beyond the
    largest one, [2^1024 - 2^971]: a quotient from [2^1024 - 2^970] on
    rounds past it. *)
Definition float_overflow : Z := 2 ^ 1024 - 2 ^ 970.

Definition true_divide_overflows (a b : Z) : bool := float_overflow * b <=? a.
Arguments true_divide_overflows : simpl never.

(** What one [yield] hands to the caller.  The fraction is the exact
    quotient; the float division of the source rounds it, and rounding
    keeps a quotient on its side of one, so [min(..., 1.0)] is [1.0]
    exactly when the quotient here is at least one.  The third component is
    the content of [all_categories] at the time of the yield: the source
    yields the one list object every time and extends it between yields,
    and never after the last one.  (A list has fewer than [2^63] elements,
    so the quotient is never small enough to round to zero.) *)
Record Progress : Type := mkProgress {
  fraction_complete : Q;
  items_processed : Z;
  all_categories_so_far : list string
}.

(** How the generator ends: its loop is over, or an exception leaves it. *)
Inductive ending : Type :=
| Exhausted
| Raised (e : exn).

(** The loop of the generator over the values of [i].  The body runs
    when there is a question, so the divisor is never zero; the batch is
    classified and added to the list before the division is made. *)
Fixpoint batch_loop (questions : list pyval) (batch_size : nat)
    (starts : list nat) (all_categories : list string)
  : list Progress * ending :=
  match starts with
  | [] => ([], Exhausted)
  | i :: rest =>
      let batch := slice questions i (i + batch_size) in
      match traverse classify batch with
      | Raise e => ([], Raised e)
      | Ok batch_categories =>
          let all_categories := all_categories ++ batch_categories in
          let n := List.length questions in
          if true_divide_overflows (Z.of_nat (i + batch_size)) (Z.of_nat n)
          then ([], Raised OverflowError)
          else
            let progress :=
              Qmin (Z.of_nat (i + batch_size) # Pos.of_nat n) 1 in
            let processed := Z.of_nat (i + Nat.min batch_size (n - i)) in
            let (yields, e) := batch_loop questions batch_size rest
                                 all_categories in
            (mkProgress progress processed all_categories :: yields, e)
      end
  end.

(** The generator, run to its end: the tuples it yields, in order, and how
    it ends.  A step of zero makes [range] raise; a negative step makes it
    empty. *)
Definition analyze_batch_questions (questions : list pyval) (batch_size : Z)
  : list Progress * ending :=
  if batch_size =? 0 then ([], Raised ValueError)
  else if batch_size <? 0 then ([], Exhausted)
  else batch_loop questions (Z.to_nat batch_size)
         (py_range (List.length questions) (Z.to_nat batch_size)) [].

(** The loop of the caller: [final_categories] starts as [None] and is
    bound to the list of every tuple in turn. *)
Definition final_categories (yields : list Progress) : option (list string) :=
  last (map (fun y => Some (all_categories_so_far y)) yields) None.

(** Classifying the whole sequence in one pass. *)
Definition classify_all (questions : list pyval) : result (list string) :=
  traverse classify questions.

(* ================================================================= *)
(** ** The category aggregator: [get_category_metrics] *)

(** [n / d] rounded to the nearest integer, a tie to the even one. *)
Definition round_half_even (n d : Z) : Z :=
  let q := n / d in
  let r := n mod d in
  if 2 * r <? d then q
  else if d <? 2 * r then q + 1
  else if Z.even q then q else q + 1.

(** The floats of the computation [(Count / total * 100).round(2)] are
    IEEE-754 binary64 numbers.  A positive one is [mantissa * 2^exponent]
    with a mantissa of 53 bits; every operation gives the float nearest to
    its exact result, a tie to the even mantissa.  The numbers met here are
    between [1 / total] and a little more than 10000, far from the smallest
    and the largest float, so the exponent is not bounded. *)
Record float : Type := mkFloat {
  mantissa : Z;
  exponent : Z
}.

(** Numerator and denominator of [n / d / 2^e]. *)
Definition scaled (n d e : Z) : Z * Z :=
  if 0 <=? e then (n, d * 2 ^ e) else (n * 2 ^ (- e), d).

(** The float nearest to [n / d], for [0 <= n] and [0 < d]: the exponent
    that brings the quotient between [2^52] and [2^53], where it is
    rounded to an integer. *)
Definition nearest_float (n d : Z) : float :=
  if n <=? 0 then mkFloat 0 0
  else
    let e0 := Z.log2 n - Z.log2 d - 52 in
    let e := if fst (scaled n d e0) / snd (scaled n d e0) <? 2 ^ 52
             then e0 - 1 else e0 in
    mkFloat (round_half_even (fst (scaled n d e)) (snd (scaled n d e))) e.

(** Numerator and denominator of the number a float stands for. *)
Definition float_fraction (x : float) : Z * Z :=
  if 0 <=? exponent x then (mantissa x * 2 ^ exponent x, 1)
  else (mantissa x, 2 ^ (- exponent x)).

(** [a / b] for two counts (below [2^53], so that they are floats as they
    are), [x * k] for a float and a small integer, and [np.rint]. *)
Definition float_div (a b : Z) : float := nearest_float a b.

Definition float_mul (x : float) (k : Z) : float :=
  nearest_float (fst (float_fraction x) * k) (snd (float_fraction x)).

Definition float_rint (x : float) : Z :=
  round_half_even (fst (float_fraction x)) (snd (float_fraction x)).

(** [(count / total * 100).round(2)], in hundredths: numpy rounds to two
    decimals by multiplying by 100, rounding to an integer and dividing by
    100 again. *)
Definition percentage_hundredths (count total : Z) : Z :=
  float_rint (float_mul (float_mul (float_div count total) 100) 100).

(** [str(x)] for the float nearest to [h / 100], [0 <= h]: the shortest
    decimal that reads back as the float, so a final zero of the two
    decimals is dropped, and one decimal is always written. *)
Definition str_of_hundredths (h : Z) : string :=
  let decimals :=
    if h mod 10 =? 0
    then String (digit_char (h / 10)) EmptyString
    else String (digit_char (h / 10)) (String (digit_char h) EmptyString) in
  (str_of_int (h / 100) ++ "." ++ decimals)%string.

Definition percentage (count total : Z) : string :=
  (str_of_hundredths (percentage_hundredths count total) ++ "%")%string.

Record CategoryMetric : Type := mkCategoryMetric {
  cat_category : string;
  cat_count : Z;
  cat_percentage : string
}.

Definition category_frame (rows : list CategoryMetric) : DataFrame :=
  [("Category", map (fun r => PStr (cat_category r)) rows);
   ("Count", map (fun r => PInt (cat_count r)) rows);
   ("Percentage", map (fun r => PStr (cat_percentage r)) rows)].

Definition sum (l : list Z) : Z := fold_right Z.add 0 l.

(** The last four statements of the function, on the frame that already
    has its [Category] column. *)
Definition category_rows (argsort : list Z -> list nat) (df : DataFrame)
  : result (list CategoryMetric) :=
  categories <- column df "Category" ;;
  questions <- column df "User Question" ;;
  keys <- traverse str_key categories ;;
  let counts :=
    map (fun k => (k, count (group_cells String_as_OT.compare k keys
                               questions)))
        (group_keys String_as_OT.compare keys) in
  let total := sum (map snd counts) in
  let with_percentage :=
    map (fun kc => mkCategoryMetric (fst kc) (snd kc)
                     (percentage (snd kc) total)) counts in
  Ok (sort_values_desc argsort cat_count with_percentage).

(** The function assigns the [Category] column of [df] itself and returns
    two frames: the new metrics, and [df]. *)
Definition get_category_metrics (argsort : list Z -> list nat)
    (df : ref) (h : store) : result (ref * ref) * store :=
  match read h df with
  | None => (Raise OutsideModel, h)
  | Some frame =>
      match column frame "User Question" with
      | Raise e => (Raise e, h)
      | Ok questions =>
          match analyze_batch_questions questions 250 with
          | (_, Raised e) => (Raise e, h)
          | (yields, Exhausted) =>
              let cells :=
                match final_categories yields with
                | Some categories => map PStr categories
                | None => repeat PNone (List.length questions)
                end in
              let frame' := set_column frame "Category" cells in
              let h1 := write h df frame' in
              match category_rows argsort frame' with
              | Ok rows =>
                  let (category_metrics, h2) :=
                    alloc h1 (category_frame rows) in
                  (Ok (category_metrics, df), h2)
              | Raise e => (Raise e, h1)
              end
          end
      end
  end.

(** Reading a percentage back as a number, in hundredths: the digits
    before the point, the point, one or two decimals, the percent sign. *)
Fixpoint read_digits (s : string) (acc : Z) : Z * string :=
  match s with
  | String a rest =>
      match digit a with
      | Some a => read_digits rest (10 * acc + a)
      | None => (acc, s)
      end
  | EmptyString => (acc, s)
  end.

Definition parse_percentage (s : string) : option Z :=
  match s with
  | String a _ =>
      match digit a with
      | None => None
      | Some _ =>
          match read_digits s 0 with
          | (i, String "." (String a (String "%" EmptyString))) =>
              match digit a with
              | Some a => Some (100 * i + 10 * a)
              | None => None
              end
          | (i, String "." (String a (String b (String "%" EmptyString)))) =>
              match digit a, digit b with
              | Some a, Some b => Some (100 * i + 10 * a + b)
              | _, _ => None
              end
          | _ => None
          end
      end
  | EmptyString => None
  end.

(** The shape "NN.NN%": digits, a point, exactly two digits, a percent
    sign. *)
Definition two_decimals (s : string) : bool :=
  match s with
  | String a _ =>
      match digit a with
      | None => false
      | Some _ =>
          match snd (read_digits s 0) with
          | String "." (String a (String b (String "%" EmptyString))) =>
              match digit a, digit b with
              | Some _, Some _ => true
              | _, _ => false
              end
          | _ => false
          end
      end
  | EmptyString => false
  end.

(* ================================================================= *)
(** ** The table of the first tab of [main] *)

(** [column.take(indexer)]: the cells at the positions of the indexer. *)
Definition take (indexer : list nat) (cells : list pyval) : list pyval :=
  map (fun i => nth i cells PNone) indexer.

(** The four statements of the first tab that rebuild [df] before it is
    shown and handed to the aggregators:
    [df['Asked at'] = pd.to_datetime(df['Asked at'])],
    [df = df.sort_values('Asked at', ascending=False)],
    [df['Asked at'] = df['Asked at'].dt.strftime(...)] and
    [df['S.No'] = range(1, len(df) + 1)].
    The column of timestamps exists between the first and the third
    statement only; the model keeps it beside the frame, each timestamp
    with the position of its row.  [sort_values] computes the indexer of
    the sorted order and takes every column by it; the keys it sorts are
    pandas' counts of nanoseconds, which [timestamp_key] orders the same
    way. *)
Definition full_data_view (argsort : list Z -> list nat) (df : DataFrame)
  : result DataFrame :=
  asked <- column df "Asked at" ;;
  stamps <- traverse to_datetime asked ;;
  let order :=
    sort_values_desc argsort
      (fun p : nat * datetime => timestamp_key (snd p))
      (combine (seq 0 (List.length stamps)) stamps) in
  let indexer := map fst order in
  let sorted := map (fun nc => (fst nc, take indexer (snd nc))) df in
  let formatted := map (fun p => PStr (strftime (snd p))) order in
  Ok (set_column (set_column sorted "Asked at" formatted) "S.No"
        (map PInt (numbers_from 1 (List.length indexer)))).

(** The numbers that make a numeric column: floats, and integers of 64
    bits. *)
Definition is_number (v : pyval) : bool :=
  match v with
  | PInt n => (- 2 ^ 63 <=? n) && (n <? 2 ^ 63)
  | PFloat _ => true
  | _ => false
  end.

(** A value that can be a key of a hash table. *)
Definition hashable (v : pyval) : bool :=
  match v with
  | PList _ | PDict _ => false
  | _ => true
  end.

(** The two computations of the quick statistics that can raise, as far as
    they raise or not.  [df['Country'].unique()] hashes the cells.
    [df['Score'].mean()] is the mean of a column of numbers; a column that
    holds a string, such as the "N/A" of a conversation without an answer,
    makes it raise [TypeError]; columns with other cells are left
    outside. *)
Definition unique_countries (df : DataFrame) : result unit :=
  countries <- column df "Country" ;;
  if forallb hashable countries then Ok tt else Raise TypeError.

Definition score_mean (df : DataFrame) : result unit :=
  scores <- column df "Score" ;;
  if forallb is_number scores then Ok tt
  else if existsb is_str scores then Raise TypeError
  else Raise OutsideModel.

(** The first tab, up to the point where [main] goes on to the next tabs
    with the table it has built: the four statements above, then the
    quick statistics.  The calls that show the table and the numbers are
    Streamlit's and are not modelled. *)
Definition first_tab (argsort : list Z -> list nat) (df : DataFrame)
  : result DataFrame :=
  view <- full_data_view argsort df ;;
  _ <- unique_countries view ;;
  _ <- score_mean view ;;
  Ok view.

(* ================================================================= *)
(** ** Documents and tables used as concrete inputs *)

Module Examples.

Definition user (content : string) : pyval :=
  PDict [("role", PStr "user"); ("type", PStr "text");
         ("content", PStr content)].

Definition assistant (content : string) (score : Z) : pyval :=
  PDict [("role", PStr "assistant"); ("type", PStr "text");
         ("content", PStr content); ("score", PInt score)].

Definition conversation (created_at country : string)
    (messages : list pyval) : pyval :=
  PDict [("created_at", PStr created_at); ("country", PStr country);
         ("messages", PList messages)].

(** Two conversations: one with two questions and two answers, one with
    a question and no answer. *)
Definition document : pyval :=
  PDict [("conversations", PList
    [conversation "2024-01-05T10:20:30.123456+00:00" "US"
       [user "What is Atlan?"; assistant "A catalog." 1;
        user "How to use Atlan connectors"; assistant "Read the guide." 4];
     conversation "2024-01-06T08:00:00.000001+00:00" "IN"
       [user "hello"]])].

(** Two conversations, each with an answer that has a score. *)
Definition answered_document : pyval :=
  PDict [("conversations", PList
    [conversation "2024-01-05T10:20:30.123456+00:00" "US"
       [user "What is Atlan?"; assistant "A catalog." 1;
        user "How to use Atlan connectors"; assistant "Read the guide." 4];
     conversation "2024-01-06T08:00:00.000001+00:00" "IN"
       [user "hello"; assistant "Hello." 5]])].

Definition table_of_answered_document : DataFrame :=
  [("S.No", [PInt 1; PInt 2; PInt 3]);
   ("Asked at", [PStr "January 05, 2024 10:20:30";
                 PStr "January 05, 2024 10:20:30";
                 PStr "January 06, 2024 08:00:00"]);
   ("Country", [PStr "US"; PStr "US"; PStr "IN"]);
   ("User Question", [PStr "What is Atlan?";
                      PStr "How to use Atlan connectors"; PStr "hello"]);
   ("Assistant Response", [PStr "Read the guide."; PStr "Read the guide.";
                           PStr "Hello."]);
   ("Score", [PInt 4; PInt 4; PInt 5])].

Definition empty_document : pyval := PDict [("conversations", PList [])].

(** A conversation without a country and without a user message. *)
Definition document_without_country : pyval :=
  PDict [("conversations", PList
    [PDict [("created_at", PStr "2024-01-05T10:20:30.123456+00:00");
            ("messages", PList [assistant "Hello." 3])]])].

(** A conversation without messages, then one with a bad timestamp. *)
Definition document_two_failures : pyval :=
  PDict [("conversations", PList
    [PDict [("created_at", PStr "2024-01-05T10:20:30.123456+00:00");
            ("country", PStr "US")];
     conversation "yesterday" "IN" [user "hello"]])].

(** A conversation of the year 999. *)
Definition document_of_the_year_999 : pyval :=
  PDict [("conversations", PList
    [conversation "0999-01-05T10:20:30.123456+00:00" "US" [user "hello"]])].

Definition document_bad_timestamp : pyval :=
  PDict [("conversations", PList
    [conversation "2024-01-05T10:20:30.123456+00:00" "US" [user "hello"];
     conversation "2024-01-05 10:20:30" "IN" [user "hello"]])].

(** Three rows: two countries with one question each, named against the
    alphabet, and a third whose user message had no content. *)
Definition conversations_with_tie : pyval :=
  PDict [("conversations", PList
    [conversation "2024-01-05T10:20:30.123456+00:00" "US" [user "hello"];
     conversation "2024-01-06T10:20:30.123456+00:00" "IN" [user "hello"];
     conversation "2024-01-07T10:20:30.123456+00:00" "FR"
       [PDict [("role", PStr "user")]]])].

Definition table_with_tie : DataFrame :=
  [("S.No", [PInt 1; PInt 2; PInt 3]);
   ("Asked at", [PStr "January 05, 2024 10:20:30";
                 PStr "January 06, 2024 10:20:30";
                 PStr "January 07, 2024 10:20:30"]);
   ("Country", [PStr "US"; PStr "IN"; PStr "FR"]);
   ("User Question", [PStr "hello"; PStr "hello"; PNone]);
   ("Assistant Response", [PNone; PNone; PNone]);
   ("Score", [PStr "N/A"; PStr "N/A"; PStr "N/A"])].

Definition table_of_document : DataFrame :=
  [("S.No", [PInt 1; PInt 2; PInt 3]);
   ("Asked at", [PStr "January 05, 2024 10:20:30";
                 PStr "January 05, 2024 10:20:30";
                 PStr "January 06, 2024 08:00:00"]);
   ("Country", [PStr "US"; PStr "US"; PStr "IN"]);
   ("User Question", [PStr "What is Atlan?";
                      PStr "How to use Atlan connectors"; PStr "hello"]);
   ("Assistant Response", [PStr "Read the guide."; PStr "Read the guide.";
                           PNone]);
   ("Score", [PInt 4; PInt 4; PStr "N/A"])].

Definition one_row_table : DataFrame :=
  [("S.No", [PInt 1]);
   ("Asked at", [PStr "January 06, 2024 08:00:00"]);
   ("Country", [PStr "IN"]);
   ("User Question", [PStr "hello"]);
   ("Assistant Response", [PNone]);
   ("Score", [PStr "N/A"])].

(** One question from US and one from IN, asked at the same time, in the
    one order and in the other. *)
Definition table_us_then_in : DataFrame :=
  [("S.No", [PInt 1; PInt 2]);
   ("Asked at", [PStr "January 05, 2024 10:20:30";
                 PStr "January 05, 2024 10:20:30"]);
   ("Country", [PStr "US"; PStr "IN"]);
   ("User Question", [PStr "hello"; PStr "hello"]);
   ("Assistant Response", [PNone; PNone]);
   ("Score", [PStr "N/A"; PStr "N/A"])].

Definition table_in_then_us : DataFrame :=
  [("S.No", [PInt 1; PInt 2]);
   ("Asked at", [PStr "January 05, 2024 10:20:30";
                 PStr "January 05, 2024 10:20:30"]);
   ("Country", [PStr "IN"; PStr "US"]);
   ("User Question", [PStr "hello"; PStr "hello"]);
   ("Assistant Response", [PNone; PNone]);
   ("Score", [PStr "N/A"; PStr "N/A"])].

(** A frame with its question column and no row. *)
Definition table_without_rows : DataFrame := [("User Question", [])].

(** One [argsort]: an insertion sort that leaves equal keys in the order
    of their positions. *)
Fixpoint insert_position (keys : list Z) (i : nat) (l : list nat)
  : list nat :=
  match l with
  | [] => [i]
  | j :: rest =>
      if nth i keys 0 <=? nth j keys 0 then i :: l
      else j :: insert_position keys i rest
  end.

Definition stable_argsort (keys : list Z) : list nat :=
  fold_right (insert_position keys) [] (seq 0 (List.length keys)).

End Examples.

(* ================================================================= *)
(** ** Notions used in the statements *)

(** What numpy documents of [argsort]: the indexer is a permutation of the
    positions, along which the keys do not decrease. *)
Definition sorts (argsort : list Z -> list nat) : Prop :=
  forall keys,
    Permutation (argsort keys) (seq 0 (List.length keys))
    /\ StronglySorted (fun i j => nth i keys 0 <= nth j keys 0)
         (argsort keys).

(** The format "Month DD, YYYY HH:MM:SS" of a timestamp written
    "YYYY-MM-DDTHH:MM:SS.ffffff", read off the characters of the timestamp:
    the English name of the month of characters 6 and 7, the two characters
    of the day, a comma, the four characters of the year, and the time of
    day up to the seconds.  Nothing is said of a timestamp whose fields are
    not digits at these places. *)
Definition is_decimal_digit (c : ascii) : bool :=
  ((48 <=? N_of_ascii c) && (N_of_ascii c <=? 57))%N.

Definition english_months : list (string * string) :=
  [("01", "January"); ("02", "February"); ("03", "March"); ("04", "April");
   ("05", "May"); ("06", "June"); ("07", "July"); ("08", "August");
   ("09", "September"); ("10", "October"); ("11", "November");
   ("12", "December")].

Definition display_of_iso (s : string) : option string :=
  match s with
  | String y1 (String y2 (String y3 (String y4 (String _
    (String m1 (String m2 (String _
    (String d1 (String d2 (String _
    (String h1 (String h2 (String _
    (String i1 (String i2 (String _
    (String s1 (String s2 _)))))))))))))))))) =>
      if forallb is_decimal_digit
           [y1; y2; y3; y4; m1; m2; d1; d2; h1; h2; i1; i2; s1; s2]
      then
        match lookup (String m1 (String m2 EmptyString)) english_months with
        | Some month =>
            Some (month ++ " " ++ String d1 (String d2 EmptyString) ++ ", "
                  ++ String y1 (String y2 (String y3 (String y4 EmptyString)))
                  ++ " " ++ String h1 (String h2 EmptyString) ++ ":"
                  ++ String i1 (String i2 EmptyString) ++ ":"
                  ++ String s1 (String s2 EmptyString))%string
        | None => None
        end
      else None
  | _ => None
  end.

(** The tuple yielded for the chunk number [k] (from zero) of [questions]. *)
Definition nth_progress (questions : list string) (batch_size k : nat)
  : Progress :=
  let n := List.length questions in
  mkProgress
    (Qmin (Z.of_nat (k * batch_size + batch_size) # Pos.of_nat n) 1)
    (Z.of_nat (k * batch_size + Nat.min batch_size (n - k * batch_size)))
    (map analyze_question_category (firstn (S k * batch_size) questions)).

(** The position of the first cell of a column that holds the string. *)
Fixpoint first_position (s : string) (cells : list pyval) : nat :=
  match cells with
  | [] => O
  | v :: rest => if eq_str v s then O else S (first_position s rest)
  end.

(** Ties broken by the order of first appearance in the input: of two rows
    with the same number of questions, the one that comes first is the one
    whose country appears first in the input column. *)
Definition ties_by_first_appearance (countries : list pyval)
    (rows : list CountryMetric) : Prop :=
  StronglySorted
    (fun a b =>
       cm_questions a = cm_questions b ->
       (first_position (cm_country a) countries
        < first_position (cm_country b) countries)%nat)
    rows.

Definition reads_back (h : Z) : bool :=
  match parse_percentage (str_of_hundredths h ++ "%")%string with
  | Some h' => h' =? h
  | None => false
  end.

(** The table of [get_category_metrics] before it is sorted, for a
    [Category] column of labels [categories]. *)
Definition category_counts (categories : list string) (questions : list pyval)
  : list (string * Z) :=
  map (fun k => (k, count (group_cells String_as_OT.compare k
                             (map Some categories) questions)))
      (group_keys String_as_OT.compare (map Some categories)).

(** The rows of the category metrics for the questions [questions], before
    they are sorted. *)
Definition unsorted_category_rows (questions : list string)
  : list CategoryMetric :=
  map (fun kc =>
         mkCategoryMetric (fst kc) (snd kc)
           (percentage (snd kc) (Z.of_nat (List.length questions))))
      (category_counts (map analyze_question_category questions)
         (map PStr questions)).

(** [str.upper()] on ASCII letters, and the strings made of ASCII
    characters only, on which [lower] and [upper] are what Python
    computes. *)
Definition upper_char (c : ascii) : ascii :=
  let n := N_of_ascii c in
  if ((97 <=? n) && (n <=? 122))%N then ascii_of_N (n - 32) else c.

Fixpoint upper (s : string) : string :=
  match s with
  | EmptyString => EmptyString
  | String c rest => String (upper_char c) (upper rest)
  end.

Fixpoint is_ascii (s : string) : bool :=
  match s with
  | EmptyString => true
  | String c rest => (N_of_ascii c <? 128)%N && is_ascii rest
  end.

(** Three properties of the parsers of a format, used to follow
    [strptime] on a string with something added at its end.  A parser
    [extends] when text added after a remainder that is not empty changes
    nothing but the remainder; it [needs_input] when it fails on the empty
    string; a chain of parsers [stops_at_suffix] when, having consumed a
    whole string, it leaves an added suffix that starts with a character
    that is not a digit. *)
Definition extends {A} (p : parser A) : Prop :=
  forall s v r t,
    p s = Some (v, r) -> r <> EmptyString ->
    p (s ++ t)%string = Some (v, (r ++ t)%string).

Definition needs_input {A} (p : parser A) : Prop := p EmptyString = None.

Definition stops_at_suffix (k : parser datetime) : Prop :=
  forall s dt c rest,
    k s = Some (dt, EmptyString) -> digit c = None ->
    k (s ++ String c rest)%string = Some (dt, String c rest).

(** The order of the keys of [groupby('Date')]. *)
Definition date_lt (a b : date) : Prop := date_compare a b = Lt.

(** What the rows of a flattened table hold, row by row. *)
Definition flattened_row (data : pyval) (r : QuestionRow) : Prop :=
  exists conversation dt message,
    In conversation (conversations_of data)
    /\ created_at_of conversation = Ok dt
    /\ Asked_at r = strftime dt
    /\ getitem conversation "country" = Ok (Country r)
    /\ In message (messages_of conversation)
    /\ is_user message = true
    /\ User_Question r = field message "content" PNone.

(** The documents whose conversations all have a [created_at] that pandas
    can hold. *)
Definition timestamps_in_bounds (data : pyval) : Prop :=
  forall conversation dt,
    In conversation (conversations_of data) ->
    created_at_of conversation = Ok dt ->
    in_bounds dt = true.

(** The ranks of the rows of the first tab: the indexer is sorted when the
    timestamps at its positions do not increase. *)
Definition newest_first (stamps : list datetime) (i j : nat) : Prop :=
  timestamp_key (nth j stamps (mkDatetime 0 0 0 0 0 0 0))
  <= timestamp_key (nth i stamps (mkDatetime 0 0 0 0 0 0 0)).

(** The table of the first tab for the rows [rows] and the indexer
    [indexer]. *)
Definition viewed_frame (rows : list QuestionRow) (indexer : list nat)
  : DataFrame :=
  [("S.No", map PInt (numbers_from 1 (List.length rows)));
   ("Asked at", take indexer (map (fun r => PStr (Asked_at r)) rows));
   ("Country", take indexer (map Country rows));
   ("User Question", take indexer (map User_Question rows));
   ("Assistant Response", take indexer (map Assistant_Response rows));
   ("Score", take indexer (map Score rows))].

(** The messages the flattener consults: those of a user, and the text
    messages of the assistant. *)
Definition consulted (message : pyval) : bool :=
  is_user message || is_assistant_text message.

(** The number of cells of a column that hold the string [s]. *)
Definition occurrences (s : string) (cells : list pyval) : Z :=
  Z.of_nat (List.length (filter (fun v => eq_str v s) cells)).

(* ================================================================= *)
(** * Properties *)

(** ** The error monad *)

Lemma bind_Ok {A B} (m : result A) (f : A -> result B) (b : B) :
  bind m f = Ok b -> exists a, m = Ok a /\ f a = Ok b.
Proof.
  destruct m as [a|e]; simpl; intros H; [eauto | discriminate].
Qed.

Lemma bind_Raise {A B} (m : result A) (f : A -> result B) (e : exn) :
  bind m f = Raise e ->
  m = Raise e \/ exists a, m = Ok a /\ f a = Raise e.
Proof.
  destruct m as [a|e']; simpl; intros H; [right; eauto | left; congruence].
Qed.

(** Take a successful sequence of binds apart, first step first. *)
Ltac bind_inv H :=
  let a := fresh "a" in
  let E := fresh "E" in
  apply bind_Ok in H; destruct H as (a & E & H).

Lemma method_get_field (m : pyval) (k : string) (d v : pyval) :
  method_get m k d = Ok v -> field m k d = v.
Proof. unfold field. intros ->. reflexivity. Qed.

(** ** The flattener *)

Lemma last_such_cons (p : pyval -> bool) (m : pyval) (l : list pyval) :
  last_such p (m :: l) =
  match last_such p l with
  | Some x => Some x
  | None => if p m then Some m else None
  end.
Proof.
  unfold last_such. simpl. destruct (p m); simpl.
  - destruct (rev (filter p l)); reflexivity.
  - destruct (rev (filter p l)); reflexivity.
Qed.

Lemma find_last_assistant_spec (messages : list pyval) :
  forall last found,
    find_last_assistant messages last = Ok found ->
    found = answer_of messages last.
Proof.
  unfold answer_of.
  induction messages as [|m rest IH]; intros last found H.
  - simpl in H. inversion H. reflexivity.
  - rewrite last_such_cons. simpl in H. bind_inv H.
    unfold is_assistant_text. rewrite (method_get_field _ _ _ _ E).
    destruct (eq_str a "assistant"); simpl.
    + bind_inv H. rewrite (method_get_field _ _ _ _ E0).
      destruct (eq_str a0 "text").
      * bind_inv H. bind_inv H.
        apply IH in H. rewrite H.
        apply method_get_field in E1, E2. subst a1 a2.
        destruct (last_such _ rest); reflexivity.
      * apply IH in H. rewrite H. destruct (last_such _ rest); reflexivity.
    + apply IH in H. rewrite H. destruct (last_such _ rest); reflexivity.
Qed.

Lemma numbers_from_S (first n : nat) :
  numbers_from first (S n) = Z.of_nat first :: numbers_from (S first) n.
Proof. reflexivity. Qed.

(** What the second loop appends to [conversation_details]. *)
Lemma collect_user_questions_spec (conversation : pyval) (fd : string)
    (resp score : pyval) (messages : list pyval) :
  forall details out,
    collect_user_questions conversation fd resp score messages details
      = Ok out ->
    exists new,
      out = details ++ new
      /\ map S_No new = numbers_from (List.length details + 1) (List.length new)
      /\ map User_Question new
         = map (fun m => field m "content" PNone) (filter is_user messages)
      /\ Forall (fun r => Asked_at r = fd /\ Assistant_Response r = resp
                          /\ Score r = score
                          /\ getitem conversation "country" = Ok (Country r))
                new.
Proof.
  induction messages as [|m rest IH]; intros details out H.
  - simpl in H. inversion H. exists []. rewrite app_nil_r. simpl.
    repeat split; constructor.
  - simpl in H. bind_inv H. simpl filter.
    change (is_user m) with (eq_str (field m "role" PNone) "user").
    rewrite (method_get_field _ _ _ _ E).
    destruct (eq_str a "user").
    + bind_inv H. bind_inv H. apply IH in H.
      destruct H as (new & -> & Hn & Hq & Hall).
      eexists (_ :: new). rewrite <- app_assoc. simpl. split; [reflexivity|].
      rewrite length_app in Hn. simpl in Hn.
      split; [|split].
      * rewrite numbers_from_S. f_equal; [simpl; lia|].
        rewrite Hn. f_equal. lia.
      * rewrite (method_get_field _ _ _ _ E0). f_equal. exact Hq.
      * constructor; [simpl; auto | exact Hall].
    + apply IH in H. exact H.
Qed.

Lemma process_conversation_spec (conversation : pyval) :
  forall details out,
    process_conversation conversation details = Ok out ->
    exists block,
      out = details ++ block
      /\ map S_No block
         = numbers_from (List.length details + 1) (List.length block)
      /\ rows_of_conversation conversation block.
Proof.
  intros details out H. unfold process_conversation in H.
  bind_inv H. bind_inv H. bind_inv H. bind_inv H. bind_inv H. bind_inv H.
  destruct a4 as (resp, score). bind_inv H. bind_inv H.
  rewrite E2 in E5. inversion E5; subst a4.
  rewrite E3 in E6. inversion E6; subst a5.
  apply find_last_assistant_spec in E4.
  apply collect_user_questions_spec in H.
  destruct H as (block & -> & Hn & Hq & Hall).
  assert (Hm : messages_of conversation = a3).
  { unfold messages_of. rewrite E2, E3. reflexivity. }
  exists block. split; [reflexivity|]. split; [exact Hn|].
  unfold rows_of_conversation, user_messages. rewrite Hm.
  split; [|split].
  - rewrite <- (length_map User_Question), Hq, length_map. reflexivity.
  - exact Hq.
  - exists a1. split.
    + unfold created_at_of. rewrite E. simpl. rewrite E0. simpl. exact E1.
    + eapply Forall_impl; [|exact Hall]. simpl.
      intros r (Ha & Hr & Hs & Hc). rewrite Hr, Hs, <- E4. auto.
Qed.

Lemma numbers_from_app (first n m : nat) :
  numbers_from first (n + m)
  = numbers_from first n ++ numbers_from (first + n) m.
Proof.
  unfold numbers_from. rewrite seq_app, map_app. reflexivity.
Qed.

Lemma process_loop_spec (conversations : list pyval) :
  forall details out,
    process_loop conversations details = Ok out ->
    exists blocks,
      out = details ++ List.concat blocks
      /\ map S_No (List.concat blocks)
         = numbers_from (List.length details + 1)
             (List.length (List.concat blocks))
      /\ Forall2 rows_of_conversation conversations blocks.
Proof.
  induction conversations as [|c rest IH]; intros details out H.
  - simpl in H. inversion H. exists []. simpl. rewrite app_nil_r.
    repeat split; constructor.
  - simpl in H. bind_inv H.
    apply process_conversation_spec in E.
    destruct E as (block & -> & Hn & Hrows).
    apply IH in H. destruct H as (blocks & -> & Hns & Hall).
    exists (block :: blocks). simpl. rewrite app_assoc.
    split; [reflexivity|]. split; [|constructor; assumption].
    rewrite map_app, length_app, numbers_from_app, Hn, Hns.
    rewrite length_app. do 2 f_equal. lia.
Qed.

(** The shape of every successful run of the flattener. *)
Lemma process_conversations_spec (data : pyval) (df : DataFrame) :
  process_conversations data = Ok df ->
  exists blocks,
    df = DataFrame_of_records (List.concat blocks)
    /\ map S_No (List.concat blocks)
       = numbers_from 1 (List.length (List.concat blocks))
    /\ Forall2 rows_of_conversation (conversations_of data) blocks.
Proof.
  unfold process_conversations, flatten. intros H.
  bind_inv H. inversion H; subst df. clear H.
  bind_inv E. bind_inv E.
  apply process_loop_spec in E. destruct E as (blocks & -> & Hn & Hall).
  exists blocks. simpl in *. split; [reflexivity|]. split; [exact Hn|].
  unfold conversations_of. rewrite E0, E1. exact Hall.
Qed.

Lemma last_such_filter (p : pyval -> bool) (l before : list pyval) (m : pyval) :
  filter p l = before ++ [m] -> last_such p l = Some m.
Proof.
  unfold last_such. intros ->. rewrite rev_app_distr. reflexivity.
Qed.

Lemma last_such_none (p : pyval -> bool) (l : list pyval) :
  filter p l = [] -> last_such p l = None.
Proof. unfold last_such. intros ->. reflexivity. Qed.

Lemma blocks_length (conversations : list pyval)
    (blocks : list (list QuestionRow)) :
  Forall2 rows_of_conversation conversations blocks ->
  List.length (List.concat blocks) = list_sum (map user_messages conversations).
Proof.
  induction 1 as [|c b cs bs (Hl & _) _ IH]; simpl; [reflexivity|].
  rewrite length_app, Hl, IH. reflexivity.
Qed.

(** C1. Whenever the flattener returns a table, its rows are the blocks of
    the conversations, in order, the block of a conversation having one row
    per user message; in the block of a conversation whose assistant text
    messages are [before ++ [m]], every row has the content of [m] as its
    answer and the score of [m] ("N/A" when [m] has none) as its score; in
    the block of a conversation without an assistant text message, every
    row has the answer [None] and the score "N/A". *)
Theorem rows_carry_last_assistant_answer (data : pyval) (df : DataFrame) :
  process_conversations data = Ok df ->
  exists blocks,
    df = DataFrame_of_records (List.concat blocks)
    /\ Forall2
         (fun conversation block =>
            List.length block = user_messages conversation
            /\ forall r, In r block ->
                 (forall before m,
                     filter is_assistant_text (messages_of conversation)
                       = before ++ [m] ->
                     Assistant_Response r = field m "content" PNone
                     /\ Score r = field m "score" (PStr "N/A"))
                 /\ (filter is_assistant_text (messages_of conversation) = []
                     -> Assistant_Response r = PNone
                        /\ Score r = PStr "N/A"))
         (conversations_of data) blocks.
Proof.
  intros H. apply process_conversations_spec in H.
  destruct H as (blocks & -> & _ & Hall).
  exists blocks. split; [reflexivity|].
  eapply Forall2_impl; [|exact Hall].
  intros c b (Hl & _ & dt & _ & Hrows). split; [exact Hl|].
  intros r Hr. rewrite Forall_forall in Hrows.
  destruct (Hrows r Hr) as (_ & Hanswer & _). unfold answer_of in Hanswer.
  split.
  - intros before m Hm. rewrite (last_such_filter _ _ _ _ Hm) in Hanswer.
    inversion Hanswer. auto.
  - intros Hm. rewrite (last_such_none _ _ Hm) in Hanswer.
    inversion Hanswer. auto.
Qed.

Lemma rows_carry_last_assistant_answer_witness :
  exists blocks,
    Examples.table_of_document = DataFrame_of_records (List.concat blocks)
    /\ Forall2
         (fun conversation block =>
            List.length block = user_messages conversation
            /\ forall r, In r block ->
                 (forall before m,
                     filter is_assistant_text (messages_of conversation)
                       = before ++ [m] ->
                     Assistant_Response r = field m "content" PNone
                     /\ Score r = field m "score" (PStr "N/A"))
                 /\ (filter is_assistant_text (messages_of conversation) = []
                     -> Assistant_Response r = PNone
                        /\ Score r = PStr "N/A"))
         (conversations_of Examples.document) blocks.
Proof.
  apply (rows_carry_last_assistant_answer Examples.document).
  vm_compute. reflexivity.
Defined.

(** C2. Whenever the flattener returns a table, the number of its rows is
    the sum, over the conversations of the document, of their numbers of
    user messages, and its sequence numbers are 1, 2, ... up to that
    number, in the order of the rows. *)
Theorem one_numbered_row_per_user_message (data : pyval) (df : DataFrame) :
  process_conversations data = Ok df ->
  exists rows,
    df = DataFrame_of_records rows
    /\ List.length rows
       = list_sum (map user_messages (conversations_of data))
    /\ map S_No rows = numbers_from 1 (List.length rows)
    /\ (rows <> [] ->
        column df "S.No"
        = Ok (map PInt (numbers_from 1
                (list_sum (map user_messages (conversations_of data)))))).
Proof.
  intros H. apply process_conversations_spec in H.
  destruct H as (blocks & -> & Hn & Hall).
  exists (List.concat blocks). split; [reflexivity|].
  pose proof (blocks_length _ _ Hall) as Hl.
  split; [exact Hl|]. split; [exact Hn|].
  intros Hne. rewrite <- Hl, <- Hn, map_map.
  destruct (List.concat blocks); [congruence | reflexivity].
Qed.

Lemma one_numbered_row_per_user_message_witness :
  exists rows,
    Examples.table_of_document = DataFrame_of_records rows
    /\ List.length rows
       = list_sum (map user_messages (conversations_of Examples.document))
    /\ map S_No rows = numbers_from 1 (List.length rows)
    /\ (rows <> [] ->
        column Examples.table_of_document "S.No"
        = Ok (map PInt (numbers_from 1
                (list_sum (map user_messages
                             (conversations_of Examples.document)))))).
Proof.
  apply (one_numbered_row_per_user_message Examples.document).
  vm_compute. reflexivity.
Defined.

(** ** The display of a timestamp *)

Lemma digit_inv (c : ascii) (v : Z) :
  digit c = Some v -> 0 <= v <= 9 /\ c = digit_char v.
Proof.
  unfold digit, digit_char. intros H.
  destruct ((48 <=? Z.of_N (N_of_ascii c)) && (Z.of_N (N_of_ascii c) <=? 57))
    eqn:E; [|discriminate].
  inversion H; subst v. apply andb_prop in E. destruct E as [E1 E2].
  apply Z.leb_le in E1, E2. split; [lia|].
  rewrite Z.mod_small by lia.
  replace (48 + (Z.of_N (N_of_ascii c) - 48)) with (Z.of_N (N_of_ascii c))
    by lia.
  rewrite N2Z.id, ascii_N_embedding. reflexivity.
Qed.

Lemma is_decimal_digit_digit (c : ascii) :
  is_decimal_digit c = true -> exists v, digit c = Some v.
Proof.
  unfold is_decimal_digit, digit. intros H.
  apply andb_prop in H. destruct H as [H1 H2].
  apply N.leb_le in H1, H2.
  assert (E : (48 <=? Z.of_N (N_of_ascii c))
              && (Z.of_N (N_of_ascii c) <=? 57) = true).
  { apply andb_true_intro. split; apply Z.leb_le; lia. }
  rewrite E. eexists. reflexivity.
Qed.

Lemma ten_cases (v : Z) :
  0 <= v <= 9 ->
  v = 0 \/ v = 1 \/ v = 2 \/ v = 3 \/ v = 4 \/ v = 5 \/ v = 6 \/ v = 7
  \/ v = 8 \/ v = 9.
Proof. lia. Qed.

Ltac ten_cases v H :=
  destruct (ten_cases v H) as [->|[->|[->|[->|[->|[->|[->|[->|[->| ->]]]]]]]]].

Lemma digit_is_no_separator (c : ascii) (v : Z) (rest : string) :
  digit c = Some v ->
  literal "-" (String c rest) = None
  /\ literal_T (String c rest) = None
  /\ literal ":" (String c rest) = None
  /\ literal "." (String c rest) = None.
Proof.
  intros H. apply digit_inv in H. destruct H as [Hv ->].
  ten_cases v Hv; repeat split; reflexivity.
Qed.

Lemma directive2_then {B} (two : Z -> Z -> bool) (one : Z -> bool)
    (lit : parser unit) (k : Z -> parser B) (a b : ascii) (va vb : Z)
    (rest : string) (r : B * string) :
  digit a = Some va -> digit b = Some vb ->
  lit (String b rest) = None ->
  (x <~ directive2 two one ;; _ <~ lit ;; k x) (String a (String b rest))
  = Some r ->
  (_ <~ lit ;; k (10 * va + vb)) rest = Some r.
Proof.
  intros Ha Hb Hlit. unfold pthen at 1. unfold directive2. rewrite Ha, Hb.
  destruct (two va vb); [auto|].
  destruct (one va); [|discriminate].
  unfold pthen. rewrite Hlit. discriminate.
Qed.


Lemma directive_d_digits (s : string) (a : ascii) (va : Z) :
  digit a = Some va ->
  directive_d (String a s)
  = directive2
      (fun a b => ((a =? 3) && (b <=? 1)) || (a =? 1) || (a =? 2)
                  || ((a =? 0) && (1 <=? b)))
      (fun a => 1 <=? a) (String a s).
Proof.
  intros Ha. unfold directive_d.
  destruct (directive2 _ _ (String a s)) as [r|]; [reflexivity|].
  apply digit_inv in Ha. destruct Ha as [Hv ->].
  ten_cases va Hv; reflexivity.
Qed.

Lemma pad2_digits (a b : ascii) (va vb : Z) :
  digit a = Some va -> digit b = Some vb ->
  pad2 (10 * va + vb) = String a (String b EmptyString).
Proof.
  intros Ha Hb. apply digit_inv in Ha, Hb.
  destruct Ha as [Ha ->], Hb as [Hb ->].
  ten_cases va Ha; ten_cases vb Hb; reflexivity.
Qed.

Lemma str_of_int_four (y : Z) :
  1000 <= y <= 9999 ->
  str_of_int y
  = String (digit_char (y / 1000)) (String (digit_char (y / 100))
      (String (digit_char (y / 10)) (String (digit_char y) EmptyString))).
Proof.
  intros Hy. unfold str_of_int.
  assert (Hlog : 9 <= Z.log2 y).
  { apply Z.log2_le_pow2; lia. }
  destruct (Z.to_nat (Z.log2 y)) as [|[|[|f]]] eqn:E; try lia.
  cbn [decimal_digits].
  assert (H1 : (y <? 10) = false) by (apply Z.ltb_ge; lia).
  assert (H2 : (y / 10 <? 10) = false).
  { apply Z.ltb_ge. apply Z.div_le_lower_bound; lia. }
  assert (H3 : (y / 10 / 10 <? 10) = false).
  { apply Z.ltb_ge. rewrite Z.div_div by lia.
    apply Z.div_le_lower_bound; lia. }
  assert (H4 : (y / 10 / 10 / 10 <? 10) = true).
  { apply Z.ltb_lt. rewrite !Z.div_div by lia.
    apply Z.div_lt_upper_bound; lia. }
  rewrite H1, H2, H3, H4. rewrite !Z.div_div by lia. reflexivity.
Qed.

Lemma year_digits (a b c d : ascii) (va vb vc vd : Z) :
  digit a = Some va -> digit b = Some vb -> digit c = Some vc ->
  digit d = Some vd ->
  1000 <= 1000 * va + 100 * vb + 10 * vc + vd ->
  str_of_int (1000 * va + 100 * vb + 10 * vc + vd)
  = String a (String b (String c (String d EmptyString))).
Proof.
  intros Ha Hb Hc Hd Hy. apply digit_inv in Ha, Hb, Hc, Hd.
  destruct Ha as [Ha ->], Hb as [Hb ->], Hc as [Hc ->], Hd as [Hd ->].
  rewrite str_of_int_four by lia.
  assert (digit_char_mod : forall x y, x mod 10 = y mod 10 ->
                                       digit_char x = digit_char y).
  { intros x y E. unfold digit_char. rewrite E. reflexivity. }
  f_equal; [|f_equal; [|f_equal; [|f_equal]]].
  - f_equal. symmetry. apply Z.div_unique with (100 * vb + 10 * vc + vd); lia.
  - apply digit_char_mod.
    replace ((1000 * va + 100 * vb + 10 * vc + vd) / 100)
      with (10 * va + vb)
      by (apply Z.div_unique with (10 * vc + vd); lia).
    rewrite Z.add_comm, Z.mul_comm, Z.mod_add by lia. reflexivity.
  - apply digit_char_mod.
    replace ((1000 * va + 100 * vb + 10 * vc + vd) / 10)
      with (100 * va + 10 * vb + vc)
      by (apply Z.div_unique with vd; lia).
    replace (100 * va + 10 * vb + vc) with (vc + (10 * va + vb) * 10) by lia.
    rewrite Z.mod_add by lia. reflexivity.
  - apply digit_char_mod.
    replace (1000 * va + 100 * vb + 10 * vc + vd)
      with (vd + (100 * va + 10 * vb + vc) * 10) by lia.
    rewrite Z.mod_add by lia. reflexivity.
Qed.

Lemma month_digits (a b : ascii) (va vb : Z) (month : string) :
  digit a = Some va -> digit b = Some vb ->
  lookup (String a (String b EmptyString)) english_months = Some month ->
  month_name (10 * va + vb) = month.
Proof.
  intros Ha Hb. apply digit_inv in Ha, Hb.
  destruct Ha as [Ha ->], Hb as [Hb ->].
  ten_cases va Ha; ten_cases vb Hb; vm_compute; congruence.
Qed.

Lemma directive_d_then {B} (lit : parser unit) (k : Z -> parser B)
    (a b : ascii) (va vb : Z) (rest : string) (r : B * string) :
  digit a = Some va -> digit b = Some vb ->
  lit (String b rest) = None ->
  (x <~ directive_d ;; _ <~ lit ;; k x) (String a (String b rest)) = Some r ->
  (_ <~ lit ;; k (10 * va + vb)) rest = Some r.
Proof.
  intros Ha Hb Hlit H.
  unfold pthen at 1 in H. rewrite (directive_d_digits _ _ _ Ha) in H.
  eapply directive2_then; [exact Ha|exact Hb|exact Hlit|exact H].
Qed.

Ltac digit_of H c v :=
  let E := fresh "E" in
  apply andb_prop in H; destruct H as [E H];
  apply is_decimal_digit_digit in E; destruct E as [v E].

(** The flattener's [Asked at] of a timestamp in the usual layout, from
    the year 1000 on, is the display read off its characters. *)
Lemma strftime_strptime_iso (s : string) (dt : datetime) (display : string) :
  strptime s = Ok dt ->
  display_of_iso s = Some display ->
  1000 <= dt_year dt ->
  strftime dt = display.
Proof.
  intros Hp Hd Hy.
  destruct s as [|y1 s]; [discriminate|].
  destruct s as [|y2 s]; [discriminate|].
  destruct s as [|y3 s]; [discriminate|].
  destruct s as [|y4 s]; [discriminate|].
  destruct s as [|c1 s]; [discriminate|].
  destruct s as [|m1 s]; [discriminate|].
  destruct s as [|m2 s]; [discriminate|].
  destruct s as [|c2 s]; [discriminate|].
  destruct s as [|d1 s]; [discriminate|].
  destruct s as [|d2 s]; [discriminate|].
  destruct s as [|c3 s]; [discriminate|].
  destruct s as [|h1 s]; [discriminate|].
  destruct s as [|h2 s]; [discriminate|].
  destruct s as [|c4 s]; [discriminate|].
  destruct s as [|i1 s]; [discriminate|].
  destruct s as [|i2 s]; [discriminate|].
  destruct s as [|c5 s]; [discriminate|].
  destruct s as [|s1 s]; [discriminate|].
  destruct s as [|s2 s]; [discriminate|].
  cbn [display_of_iso] in Hd.
  destruct (forallb _ _) eqn:Hdig in Hd; [|discriminate].
  cbn [forallb] in Hdig.
  apply andb_prop in Hdig; destruct Hdig as [Ey1 Hdig].
  apply andb_prop in Hdig; destruct Hdig as [Ey2 Hdig].
  apply andb_prop in Hdig; destruct Hdig as [Ey3 Hdig].
  apply andb_prop in Hdig; destruct Hdig as [Ey4 Hdig].
  apply andb_prop in Hdig; destruct Hdig as [Em1 Hdig].
  apply andb_prop in Hdig; destruct Hdig as [Em2 Hdig].
  apply andb_prop in Hdig; destruct Hdig as [Ed1 Hdig].
  apply andb_prop in Hdig; destruct Hdig as [Ed2 Hdig].
  apply andb_prop in Hdig; destruct Hdig as [Eh1 Hdig].
  apply andb_prop in Hdig; destruct Hdig as [Eh2 Hdig].
  apply andb_prop in Hdig; destruct Hdig as [Ei1 Hdig].
  apply andb_prop in Hdig; destruct Hdig as [Ei2 Hdig].
  apply andb_prop in Hdig; destruct Hdig as [Es1 Hdig].
  apply andb_prop in Hdig; destruct Hdig as [Es2 _].
  apply is_decimal_digit_digit in Ey1, Ey2, Ey3, Ey4, Em1, Em2, Ed1, Ed2,
    Eh1, Eh2, Ei1, Ei2, Es1, Es2.
  destruct Ey1 as [vy1 Ey1], Ey2 as [vy2 Ey2], Ey3 as [vy3 Ey3],
    Ey4 as [vy4 Ey4], Em1 as [vm1 Em1], Em2 as [vm2 Em2],
    Ed1 as [vd1 Ed1], Ed2 as [vd2 Ed2], Eh1 as [vh1 Eh1],
    Eh2 as [vh2 Eh2], Ei1 as [vi1 Ei1], Ei2 as [vi2 Ei2],
    Es1 as [vs1 Es1], Es2 as [vs2 Es2].
  destruct (lookup _ english_months) as [month|] eqn:Hmonth; [|discriminate].
  inversion Hd; subst display; clear Hd.
  unfold strptime in Hp.
  match type of Hp with
  | match ?chain with _ => _ end = _ =>
      destruct chain as [[dt' [|]]|] eqn:Hchain; try discriminate
  end.
  destruct (valid_date _ _ _ && valid_time _ _ _); [|discriminate].
  inversion Hp; subst dt'; clear Hp.
  unfold pthen at 1 in Hchain. unfold directive_Y in Hchain.
  rewrite Ey1, Ey2, Ey3, Ey4 in Hchain.
  unfold pthen at 1 in Hchain. unfold literal at 1 in Hchain.
  destruct (Ascii.eqb c1 "-"); [|discriminate].
  unfold directive_m in Hchain.
  eapply directive2_then in Hchain;
    [|exact Em1|exact Em2|eapply digit_is_no_separator; exact Em2].
  unfold pthen at 1 in Hchain. unfold literal at 1 in Hchain.
  destruct (Ascii.eqb c2 "-"); [|discriminate].
  eapply directive_d_then in Hchain;
    [|exact Ed1|exact Ed2|eapply digit_is_no_separator; exact Ed2].
  unfold pthen at 1 in Hchain. unfold literal_T at 1 in Hchain.
  destruct (Ascii.eqb c3 "T" || Ascii.eqb c3 "t"); [|discriminate].
  unfold directive_H in Hchain.
  eapply directive2_then in Hchain;
    [|exact Eh1|exact Eh2|eapply digit_is_no_separator; exact Eh2].
  unfold pthen at 1 in Hchain. unfold literal at 1 in Hchain.
  destruct (Ascii.eqb c4 ":"); [|discriminate].
  unfold directive_M in Hchain.
  eapply directive2_then in Hchain;
    [|exact Ei1|exact Ei2|eapply digit_is_no_separator; exact Ei2].
  unfold pthen at 1 in Hchain. unfold literal at 1 in Hchain.
  destruct (Ascii.eqb c5 ":"); [|discriminate].
  unfold directive_S in Hchain.
  eapply directive2_then in Hchain;
    [|exact Es1|exact Es2|eapply digit_is_no_separator; exact Es2].
  unfold pthen at 1 in Hchain.
  destruct (literal "." s) as [[[] s']|]; [|discriminate].
  unfold pthen in Hchain.
  destruct (directive_f s') as [[us r]|]; [|discriminate].
  assert (Hdt : dt = mkDatetime (1000 * vy1 + 100 * vy2 + 10 * vy3 + vy4)
                        (10 * vm1 + vm2) (10 * vd1 + vd2) (10 * vh1 + vh2)
                        (10 * vi1 + vi2) (10 * vs1 + vs2) us)
    by congruence.
  subst dt. clear Hchain.
  cbn [dt_year] in Hy.
  unfold strftime.
  cbn [dt_year dt_month dt_day dt_hour dt_minute dt_second].
  rewrite (month_digits _ _ _ _ _ Em1 Em2 Hmonth).
  rewrite (pad2_digits _ _ _ _ Ed1 Ed2), (pad2_digits _ _ _ _ Eh1 Eh2),
    (pad2_digits _ _ _ _ Ei1 Ei2), (pad2_digits _ _ _ _ Es1 Es2).
  rewrite (year_digits _ _ _ _ _ _ _ _ Ey1 Ey2 Ey3 Ey4 Hy).
  reflexivity.
Qed.

Lemma strftime_drops_microseconds (y m d h mi sec us us' : Z) :
  strftime (mkDatetime y m d h mi sec us)
  = strftime (mkDatetime y m d h mi sec us').
Proof. reflexivity. Qed.

(** C9. Whenever the flattener returns a table, all the rows of the block
    of one conversation have the same [Asked at].  When the [created_at] of
    the conversation, cut at its first [+], is written in the layout
    "YYYY-MM-DDTHH:MM:SS.ffffff" and its year is 1000 or later, that
    [Asked at] is the display read off the characters of [created_at]: the
    English name of the month, the two digits of the day, a comma, the four
    digits of the year and the time of day up to the seconds; the
    microseconds are not part of it. *)
Theorem asked_at_is_per_conversation (data : pyval) (df : DataFrame) :
  process_conversations data = Ok df ->
  exists blocks,
    df = DataFrame_of_records (List.concat blocks)
    /\ Forall2
         (fun conversation block =>
            List.length block = user_messages conversation
            /\ (forall r r',
                   In r block -> In r' block -> Asked_at r = Asked_at r')
            /\ exists s dt,
                 getitem conversation "created_at" = Ok (PStr s)
                 /\ strptime (before_plus s) = Ok dt
                 /\ forall display,
                      display_of_iso (before_plus s) = Some display ->
                      1000 <= dt_year dt ->
                      forall r, In r block -> Asked_at r = display)
         (conversations_of data) blocks.
Proof.
  intros H. apply process_conversations_spec in H.
  destruct H as (blocks & -> & _ & Hall).
  exists blocks. split; [reflexivity|].
  eapply Forall2_impl; [|exact Hall].
  intros c b (Hl & _ & dt & Hdt & Hrows). split; [exact Hl|].
  rewrite Forall_forall in Hrows.
  split.
  - intros r r' Hr Hr'.
    destruct (Hrows r Hr) as (-> & _). destruct (Hrows r' Hr') as (-> & _).
    reflexivity.
  - unfold created_at_of in Hdt. bind_inv Hdt. bind_inv Hdt.
    destruct a; try discriminate. inversion E0; subst a0.
    exists s, dt. split; [exact E|]. split; [exact Hdt|].
    intros display Hdisplay Hyear r Hr.
    destruct (Hrows r Hr) as (-> & _).
    exact (strftime_strptime_iso _ _ _ Hdt Hdisplay Hyear).
Qed.

Lemma asked_at_is_per_conversation_witness :
  exists blocks,
    Examples.table_of_document = DataFrame_of_records (List.concat blocks)
    /\ Forall2
         (fun conversation block =>
            List.length block = user_messages conversation
            /\ (forall r r',
                   In r block -> In r' block -> Asked_at r = Asked_at r')
            /\ exists s dt,
                 getitem conversation "created_at" = Ok (PStr s)
                 /\ strptime (before_plus s) = Ok dt
                 /\ forall display,
                      display_of_iso (before_plus s) = Some display ->
                      1000 <= dt_year dt ->
                      forall r, In r block -> Asked_at r = display)
         (conversations_of Examples.document) blocks.
Proof.
  apply (asked_at_is_per_conversation Examples.document).
  vm_compute. reflexivity.
Defined.

(** A conversation of the year 999, written [0999] in its [created_at]:
    the [Asked at] of its row has a year of three digits, where the format
    "Month DD, YYYY HH:MM:SS" has four. *)
Lemma year_below_1000_is_not_padded :
  exists r,
    process_conversations Examples.document_of_the_year_999
    = Ok (DataFrame_of_records [r])
    /\ Asked_at r = "January 05, 999 10:20:30"
    /\ display_of_iso (before_plus "0999-01-05T10:20:30.123456+00:00")
       = Some "January 05, 0999 10:20:30"
    /\ Asked_at r <> "January 05, 0999 10:20:30".
Proof.
  exists (mkRow 1 "January 05, 999 10:20:30" (PStr "US") (PStr "hello")
            PNone (PStr "N/A")).
  split; [vm_compute; reflexivity|].
  split; [reflexivity|]. split; [reflexivity|]. discriminate.
Qed.

(** C10. A document whose [conversations] is the empty list gives the table
    with no column at all, and on that table the daily aggregator raises
    [KeyError('Asked at')] and the country aggregator raises
    [KeyError('Country')]; neither returns a table, neither changes the
    store. *)
Theorem empty_document_gives_no_columns (entries : list (string * pyval)) :
  lookup "conversations" entries = Some (PList []) ->
  exists df,
    process_conversations (PDict entries) = Ok df
    /\ column_names df = []
    /\ forall (argsort : list Z -> list nat) (h : store) (r : ref),
         read h r = Some df ->
         get_daily_metrics r h = (Raise (KeyError "Asked at"), h)
         /\ get_country_metrics argsort r h
            = (Raise (KeyError "Country"), h).
Proof.
  intros H. exists []. split; [|split].
  - unfold process_conversations, flatten, getitem. rewrite H. reflexivity.
  - reflexivity.
  - intros argsort h r Hr. unfold get_daily_metrics, get_country_metrics.
    rewrite Hr. split; reflexivity.
Qed.

Lemma empty_document_gives_no_columns_witness :
  exists df,
    process_conversations Examples.empty_document = Ok df
    /\ column_names df = []
    /\ forall (argsort : list Z -> list nat) (h : store) (r : ref),
         read h r = Some df ->
         get_daily_metrics r h = (Raise (KeyError "Asked at"), h)
         /\ get_country_metrics argsort r h
            = (Raise (KeyError "Country"), h).
Proof.
  apply (empty_document_gives_no_columns
           [("conversations", PList [])]).
  reflexivity.
Defined.

(** ** Failures of the flattener *)

Lemma collect_user_questions_status (conversation : pyval) (fd : string)
    (resp score : pyval) (messages : list pyval) :
  forall details details',
    status (collect_user_questions conversation fd resp score messages details)
    = status (collect_user_questions conversation fd resp score messages
                details').
Proof.
  induction messages as [|m rest IH]; intros d d'; simpl; [reflexivity|].
  destruct (method_get m "role" PNone) as [role|e]; simpl; [|reflexivity].
  destruct (eq_str role "user"); [|apply IH].
  destruct (method_get m "content" PNone) as [q|e]; simpl; [|reflexivity].
  destruct (getitem conversation "country") as [c|e]; simpl; [|reflexivity].
  apply IH.
Qed.

Lemma process_conversation_status (conversation : pyval)
    (details : list QuestionRow) :
  status (process_conversation conversation details)
  = conversation_error conversation.
Proof.
  unfold conversation_error, process_conversation.
  destruct (getitem conversation "created_at") as [c|e]; simpl; [|reflexivity].
  destruct (split_plus_first c) as [t|e]; simpl; [|reflexivity].
  destruct (strptime t) as [dt|e]; simpl; [|reflexivity].
  destruct (getitem conversation "messages") as [ms|e]; simpl; [|reflexivity].
  destruct (iterate ms) as [l|e]; simpl; [|reflexivity].
  destruct (find_last_assistant l (PNone, PStr "N/A")) as [[a b]|e]; simpl;
    [|reflexivity].
  apply collect_user_questions_status.
Qed.

Lemma process_loop_status (conversations : list pyval) :
  forall details,
    status (process_loop conversations details) = first_error conversations.
Proof.
  induction conversations as [|c rest IH]; intros d; simpl; [reflexivity|].
  rewrite <- (process_conversation_status c d).
  destruct (process_conversation c d) as [d'|e]; simpl; [apply IH|reflexivity].
Qed.

Lemma first_error_In (conversations : list pyval) (c : pyval) :
  In c conversations -> conversation_error c <> None ->
  exists e, first_error conversations = Some e.
Proof.
  induction conversations as [|c' rest IH]; simpl; [tauto|].
  intros [->|Hin] Hc.
  - destruct (conversation_error c); [eauto | congruence].
  - destruct (conversation_error c'); [eauto | auto].
Qed.

Lemma find_last_assistant_dicts (messages : list pyval) :
  forallb is_dict messages = true ->
  forall last, exists found, find_last_assistant messages last = Ok found.
Proof.
  induction messages as [|m rest IH]; simpl; intros H last; [eauto|].
  apply andb_true_iff in H. destruct H as (Hm & Hrest).
  destruct m; try discriminate. simpl.
  repeat match goal with
         | |- context [lookup ?k entries] =>
             destruct (lookup k entries); simpl
         | |- context [eq_str ?a ?b] => destruct (eq_str a b); simpl
         end; auto.
Qed.

Lemma collect_without_country (conversation : pyval) (fd : string)
    (resp score : pyval) (messages : list pyval) :
  getitem conversation "country" = Raise (KeyError "country") ->
  forallb is_dict messages = true ->
  existsb is_user messages = true ->
  forall details,
    collect_user_questions conversation fd resp score messages details
    = Raise (KeyError "country").
Proof.
  intros Hc. induction messages as [|m rest IH]; simpl; [discriminate|].
  intros Hd Hu details.
  apply andb_true_iff in Hd. destruct Hd as (Hm & Hrest).
  destruct m; try discriminate.
  unfold is_user, field in Hu. simpl in *.
  destruct (lookup "role" entries) as [role|]; simpl in *.
  - destruct (eq_str role "user"); simpl in *.
    + destruct (lookup "content" entries); simpl; rewrite Hc; reflexivity.
    + apply IH; assumption.
  - apply IH; assumption.
Qed.

Lemma collect_without_user (conversation : pyval) (fd : string)
    (resp score : pyval) (messages : list pyval) :
  forallb is_dict messages = true ->
  existsb is_user messages = false ->
  forall details,
    collect_user_questions conversation fd resp score messages details
    = Ok details.
Proof.
  induction messages as [|m rest IH]; simpl; [reflexivity|].
  intros Hd Hu details.
  apply andb_true_iff in Hd. destruct Hd as (Hm & Hrest).
  apply orb_false_iff in Hu. destruct Hu as (Hu & Hurest).
  destruct m; try discriminate.
  unfold is_user, field in Hu. simpl in *.
  destruct (lookup "role" entries) as [role|]; simpl in *.
  - rewrite Hu. apply IH; assumption.
  - apply IH; assumption.
Qed.

(** C8, as the code has it.  (1) A document without the [conversations]
    key raises [KeyError('conversations')].  (2) When some conversation of
    the document raises an exception on its own, the flattener raises the
    exception of the first such conversation in document order, and so
    returns no row.  (3) A conversation whose [created_at] is a string that
    [strptime] rejects once cut at its first [+] raises [ValueError].
    (4) A conversation with a good timestamp and no [messages] key raises
    [KeyError('messages')].  (5) A conversation with a good timestamp, a
    list of dicts as messages and a user message among them, and no
    [country] key raises [KeyError('country')].  (6) The same conversation
    without a user message raises nothing, with or without a [country]. *)
Theorem flattener_raises_first_error :
  (forall data,
      getitem data "conversations" = Raise (KeyError "conversations") ->
      process_conversations data = Raise (KeyError "conversations"))
  /\ (forall data conversation,
         In conversation (conversations_of data) ->
         conversation_error conversation <> None ->
         exists e,
           first_error (conversations_of data) = Some e
           /\ process_conversations data = Raise e)
  /\ (forall entries s,
         lookup "created_at" entries = Some (PStr s) ->
         strptime (before_plus s) = Raise ValueError ->
         conversation_error (PDict entries) = Some ValueError)
  /\ (forall entries dt,
         created_at_of (PDict entries) = Ok dt ->
         lookup "messages" entries = None ->
         conversation_error (PDict entries) = Some (KeyError "messages"))
  /\ (forall entries dt messages,
         created_at_of (PDict entries) = Ok dt ->
         lookup "messages" entries = Some (PList messages) ->
         forallb is_dict messages = true ->
         existsb is_user messages = true ->
         lookup "country" entries = None ->
         conversation_error (PDict entries) = Some (KeyError "country"))
  /\ (forall entries dt messages,
         created_at_of (PDict entries) = Ok dt ->
         lookup "messages" entries = Some (PList messages) ->
         forallb is_dict messages = true ->
         existsb is_user messages = false ->
         conversation_error (PDict entries) = None).
Proof.
  repeat split.
  - intros data H. unfold process_conversations, flatten. rewrite H.
    reflexivity.
  - intros data c Hin Hc.
    destruct (first_error_In _ _ Hin Hc) as (e & He). exists e.
    split; [exact He|].
    unfold conversations_of in Hin, He.
    unfold process_conversations, flatten.
    destruct (getitem data "conversations") as [v|]; [|destruct Hin].
    simpl. destruct (iterate v) as [l|]; [|destruct Hin]. simpl.
    pose proof (process_loop_status l []) as Hs. rewrite He in Hs.
    destruct (process_loop l []); simpl in Hs |- *; [discriminate|].
    inversion Hs. reflexivity.
  - intros entries s Hs Hp.
    unfold conversation_error, process_conversation, getitem.
    rewrite Hs. simpl. rewrite Hp. reflexivity.
  - intros entries dt Hdt Hm. unfold created_at_of in Hdt.
    unfold conversation_error, process_conversation.
    destruct (getitem (PDict entries) "created_at"); [|discriminate].
    simpl in *. destruct (split_plus_first a); [|discriminate].
    simpl in *. rewrite Hdt. simpl. rewrite Hm. reflexivity.
  - intros entries dt messages Hdt Hm Hd Hu Hc. unfold created_at_of in Hdt.
    unfold conversation_error, process_conversation.
    destruct (getitem (PDict entries) "created_at"); [|discriminate].
    simpl in Hdt |- *. destruct (split_plus_first a); [|discriminate].
    simpl in Hdt |- *. rewrite Hdt. simpl. rewrite Hm. simpl.
    destruct (find_last_assistant_dicts _ Hd (PNone, PStr "N/A"))
      as ((resp, score) & ->). simpl.
    rewrite collect_without_country; auto.
    simpl. rewrite Hc. reflexivity.
  - intros entries dt messages Hdt Hm Hd Hu. unfold created_at_of in Hdt.
    unfold conversation_error, process_conversation.
    destruct (getitem (PDict entries) "created_at"); [|discriminate].
    simpl in Hdt |- *. destruct (split_plus_first a); [|discriminate].
    simpl in Hdt |- *. rewrite Hdt. simpl. rewrite Hm. simpl.
    destruct (find_last_assistant_dicts _ Hd (PNone, PStr "N/A"))
      as ((resp, score) & ->). simpl.
    rewrite collect_without_user; auto.
Qed.

Lemma flattener_raises_first_error_witness :
  (exists e,
      first_error (conversations_of Examples.document_bad_timestamp) = Some e
      /\ process_conversations Examples.document_bad_timestamp = Raise e)
  /\ conversation_error
       (PDict [("created_at", PStr "2024-01-05T10:20:30.123456");
               ("messages", PList [Examples.user "hello"])])
     = Some (KeyError "country").
Proof.
  destruct flattener_raises_first_error as (_ & H2 & _ & _ & H5 & _).
  split.
  - apply (H2 Examples.document_bad_timestamp
              (Examples.conversation "2024-01-05 10:20:30" "IN"
                 [Examples.user "hello"])).
    + simpl. auto.
    + vm_compute. discriminate.
  - apply (H5 _ (mkDatetime 2024 1 5 10 20 30 123456)
              [Examples.user "hello"]); reflexivity.
Defined.

(** C8 as stated fails.  A conversation without the [country] key and
    without a user message raises nothing: the flattener returns its (empty)
    table.  And a document with a conversation whose timestamp does not
    parse can raise another exception than the parse error, when an earlier
    conversation fails first. *)
Lemma missing_country_need_not_fail :
  ((exists c,
       In c (conversations_of Examples.document_without_country)
       /\ getitem c "country" = Raise (KeyError "country"))
   /\ process_conversations Examples.document_without_country = Ok [])
  /\ ((exists c s,
          In c (conversations_of Examples.document_two_failures)
          /\ getitem c "created_at" = Ok (PStr s)
          /\ strptime (before_plus s) = Raise ValueError)
      /\ process_conversations Examples.document_two_failures
         = Raise (KeyError "messages")).
Proof.
  split; split.
  - eexists. split; [left; reflexivity | reflexivity].
  - reflexivity.
  - eexists. eexists. split; [right; left; reflexivity|].
    split; reflexivity.
  - reflexivity.
Qed.

(** ** The classifier *)

(** C3. The six examples of the specification. *)
Theorem classifier_examples :
  analyze_question_category "What is Atlan?" = "What is / Define (Branded)"
  /\ analyze_question_category "How to use Atlan connectors"
     = "FAQ / How to (Branded)"
  /\ analyze_question_category "Atlan pricing" = "Branded"
  /\ analyze_question_category "What is data lineage?"
     = "What is / Define (Non branded)"
  /\ analyze_question_category "How do I set up a guide"
     = "FAQ / How to Type (Non branded)"
  /\ analyze_question_category "hello" = "Others".
Proof. repeat split; vm_compute; reflexivity. Qed.

Lemma analyze_question_category_label (question : string) :
  In (analyze_question_category question) category_labels.
Proof.
  unfold analyze_question_category, category_labels.
  repeat match goal with
         | |- context [if ?b then _ else _] => destruct b
         end; simpl; tauto.
Qed.

(** ** The batch driver *)

Lemma traverse_classify (questions : list string) :
  traverse classify (map PStr questions)
  = Ok (map analyze_question_category questions).
Proof.
  induction questions as [|q rest IH]; simpl; [reflexivity|].
  rewrite IH. reflexivity.
Qed.

Lemma firstn_add {A} (i n : nat) (l : list A) :
  firstn (i + n) l = firstn i l ++ firstn n (skipn i l).
Proof.
  revert l. induction i as [|i IH]; intros l; simpl; [reflexivity|].
  destruct l as [|x l]; simpl.
  - rewrite firstn_nil. reflexivity.
  - rewrite IH. reflexivity.
Qed.

Lemma float_overflow_large : 1000 <= float_overflow.
Proof. vm_compute. discriminate. Qed.

Lemma chunk_starts_inside (n b k : nat) :
  (0 < b)%nat -> (k < (n + b - 1) / b)%nat -> (k * b < n)%nat.
Proof.
  intros Hb Hk.
  pose proof (Nat.Div0.mul_div_le (n + b - 1) b). nia.
Qed.

(** The division overflows at the first chunk or never: a later chunk
    starts inside the list, and ends less than a length after its end. *)
Lemma no_overflow_inside (n b k : nat) :
  Z.of_nat b < float_overflow * Z.of_nat n ->
  (k * b < n)%nat ->
  true_divide_overflows (Z.of_nat (k * b + b)) (Z.of_nat n) = false.
Proof.
  intros Hb Hk. unfold true_divide_overflows. apply Z.leb_gt.
  pose proof float_overflow_large as HT.
  destruct k as [|k]; [lia | nia].
Qed.

Lemma batch_loop_closed_form (questions : list string) (batch_size : nat) :
  forall chunks first,
    (forall k, (first <= k < first + chunks)%nat ->
               true_divide_overflows (Z.of_nat (k * batch_size + batch_size))
                 (Z.of_nat (List.length questions)) = false) ->
    batch_loop (map PStr questions) batch_size
      (map (fun k => (k * batch_size)%nat) (seq first chunks))
      (map analyze_question_category (firstn (first * batch_size) questions))
    = (map (nth_progress questions batch_size) (seq first chunks), Exhausted).
Proof.
  induction chunks as [|chunks IH]; intros first Hno;
    cbn [seq map batch_loop]; [reflexivity|].
  unfold slice.
  replace (first * batch_size + batch_size - first * batch_size)%nat
    with batch_size by lia.
  rewrite skipn_map, firstn_map, traverse_classify.
  rewrite length_map, (Hno first) by lia.
  rewrite <- map_app, <- firstn_add.
  replace (first * batch_size + batch_size)%nat
    with (S first * batch_size)%nat by (simpl; lia).
  rewrite IH by (intros k Hk; apply Hno; lia).
  unfold nth_progress at 2.
  replace (S first * batch_size)%nat
    with (first * batch_size + batch_size)%nat by (simpl; lia).
  reflexivity.
Qed.

Lemma analyze_batch_questions_closed_form (questions : list string)
    (batch_size : Z) :
  1 <= batch_size ->
  (questions <> [] ->
   batch_size < float_overflow * Z.of_nat (List.length questions)) ->
  analyze_batch_questions (map PStr questions) batch_size
  = (map (nth_progress questions (Z.to_nat batch_size))
         (seq 0 ((List.length questions + Z.to_nat batch_size - 1)
                 / Z.to_nat batch_size)),
     Exhausted).
Proof.
  intros H Hfloat. unfold analyze_batch_questions.
  destruct (Z.eqb_spec batch_size 0); [lia|].
  destruct (Z.ltb_spec batch_size 0); [lia|].
  unfold py_range. rewrite length_map.
  apply (batch_loop_closed_form questions (Z.to_nat batch_size) _ 0%nat).
  intros k Hk.
  assert (Hin : (k * Z.to_nat batch_size < List.length questions)%nat)
    by (apply chunk_starts_inside; lia).
  apply no_overflow_inside; [|exact Hin].
  rewrite Z2Nat.id by lia. apply Hfloat. intros ->. simpl in Hin. lia.
Qed.

Lemma chunks_cover (n b : nat) :
  (0 < b)%nat -> (n <= (n + b - 1) / b * b)%nat.
Proof.
  intros Hb.
  pose proof (Nat.mul_succ_div_gt (n + b - 1) b ltac:(lia)). nia.
Qed.

Lemma chunks_positive (n b : nat) :
  (0 < b)%nat -> (0 < n)%nat -> (0 < (n + b - 1) / b)%nat.
Proof.
  intros Hb Hn. apply Nat.div_str_pos. lia.
Qed.

(** A batch size so large that its quotient by the length of the list is
    beyond the floats: the first chunk holds the whole list, it is
    classified, and the division raises before anything is yielded. *)
Lemma analyze_batch_questions_overflows (questions : list string)
    (batch_size : Z) :
  questions <> [] ->
  float_overflow * Z.of_nat (List.length questions) <= batch_size ->
  analyze_batch_questions (map PStr questions) batch_size
  = ([], Raised OverflowError).
Proof.
  intros Hq Hfloat. pose proof float_overflow_large as HT.
  assert (Hn : (0 < List.length questions)%nat).
  { destruct questions; [congruence | simpl; lia]. }
  unfold analyze_batch_questions.
  destruct (Z.eqb_spec batch_size 0); [nia|].
  destruct (Z.ltb_spec batch_size 0); [nia|].
  unfold py_range. rewrite length_map.
  pose proof (chunks_positive (List.length questions) (Z.to_nat batch_size)
                ltac:(lia) Hn) as Hpos.
  destruct ((List.length questions + Z.to_nat batch_size - 1)
            / Z.to_nat batch_size)%nat as [|chunks]; [lia|].
  cbn [seq map batch_loop]. unfold slice.
  rewrite skipn_map, firstn_map, traverse_classify, length_map.
  assert (E : true_divide_overflows
                (Z.of_nat (0 * Z.to_nat batch_size + Z.to_nat batch_size))
                (Z.of_nat (List.length questions)) = true).
  { unfold true_divide_overflows. apply Z.leb_le. lia. }
  rewrite E. reflexivity.
Qed.

Lemma fraction_in_range (a n : nat) :
  (0 < a)%nat ->
  (0 < Qmin (Z.of_nat a # Pos.of_nat n) 1)%Q
  /\ (Qmin (Z.of_nat a # Pos.of_nat n) 1 <= 1)%Q.
Proof.
  intros Ha. split.
  - apply Q.min_glb_lt; [|reflexivity].
    unfold Qlt. simpl. lia.
  - apply Q.le_min_r.
Qed.

Lemma fraction_complete_one (a n : nat) :
  (0 < n)%nat -> (n <= a)%nat ->
  (Qmin (Z.of_nat a # Pos.of_nat n) 1 == 1)%Q.
Proof.
  intros Hn Ha. apply Q.min_r. unfold Qle. simpl.
  rewrite <- (Nat2Pos.id n) in Ha by lia. lia.
Qed.

Lemma final_categories_last (earlier : list Progress) (y : Progress) :
  final_categories (earlier ++ [y]) = Some (all_categories_so_far y).
Proof.
  unfold final_categories. rewrite map_app. simpl. apply last_last.
Qed.

(** The driver on a list of strings that is not empty: what it yields
    last. *)
Lemma analyze_batch_questions_last (questions : list string)
    (batch_size : Z) :
  1 <= batch_size -> questions <> [] ->
  batch_size < float_overflow * Z.of_nat (List.length questions) ->
  exists earlier y,
    analyze_batch_questions (map PStr questions) batch_size
      = (earlier ++ [y], Exhausted)
    /\ all_categories_so_far y = map analyze_question_category questions
    /\ (fraction_complete y == 1)%Q
    /\ items_processed y = Z.of_nat (List.length questions).
Proof.
  intros Hb Hq Hfloat.
  rewrite analyze_batch_questions_closed_form by auto.
  set (b := Z.to_nat batch_size). set (n := List.length questions).
  assert (Hb' : (0 < b)%nat) by (unfold b; lia).
  assert (Hn : (0 < n)%nat).
  { unfold n. destruct questions; [congruence | simpl; lia]. }
  pose proof (chunks_positive n b Hb' Hn) as Hpos.
  pose proof (chunks_cover n b Hb') as Hcover.
  destruct ((n + b - 1) / b)%nat as [|c] eqn:Hc; [lia|].
  rewrite seq_S, map_app. simpl.
  eexists. eexists. split; [reflexivity|].
  unfold nth_progress. simpl fraction_complete.
  simpl all_categories_so_far. simpl items_processed. fold n.
  split; [|split].
  - rewrite firstn_all2; [reflexivity | fold n; lia].
  - apply fraction_complete_one; [exact Hn | lia].
  - assert (c * b <= n)%nat.
    { pose proof (Nat.Div0.mul_div_le (n + b - 1) b). rewrite Hc in H.
      simpl in H. nia. }
    f_equal. lia.
Qed.

(** C4, as the code has it.  The fraction is the float of a division of
    two ints, which exists when the quotient is below [float_overflow].
    For every list of question strings and every batch size of at least
    one whose quotient by the length of the list is below that bound, the
    generator ends without an exception after one tuple per chunk, each
    with a fraction above zero and at most one.  When the list is empty
    there is no chunk and nothing is yielded: the caller's
    [final_categories] stays [None].  When the list is not empty, the last
    tuple carries the classification of the whole list, element for
    element as one pass over it gives it, the fraction one and the length
    of the list as the number processed.  For a batch size from the bound
    on and a list that is not empty, the division of the first chunk
    raises [OverflowError] and nothing is yielded. *)
Theorem batch_driver_refines_one_pass (questions : list string)
    (batch_size : Z) :
  1 <= batch_size ->
  ((questions <> [] ->
    batch_size < float_overflow * Z.of_nat (List.length questions)) ->
   exists yields,
     analyze_batch_questions (map PStr questions) batch_size
       = (yields, Exhausted)
     /\ List.length yields
        = ((List.length questions + Z.to_nat batch_size - 1)
           / Z.to_nat batch_size)%nat
     /\ Forall (fun y => (0 < fraction_complete y)%Q
                         /\ (fraction_complete y <= 1)%Q) yields
     /\ (questions = [] -> yields = [] /\ final_categories yields = None)
     /\ (questions <> [] ->
         exists earlier y,
           yields = earlier ++ [y]
           /\ final_categories yields
              = Some (map analyze_question_category questions)
           /\ classify_all (map PStr questions)
              = Ok (all_categories_so_far y)
           /\ (fraction_complete y == 1)%Q
           /\ items_processed y = Z.of_nat (List.length questions)))
  /\ (questions <> [] ->
      float_overflow * Z.of_nat (List.length questions) <= batch_size ->
      analyze_batch_questions (map PStr questions) batch_size
      = ([], Raised OverflowError)).
Proof.
  intros Hb. split; [|apply analyze_batch_questions_overflows].
  intros Hfloat. eexists. split.
  - apply analyze_batch_questions_closed_form; assumption.
  - split; [rewrite length_map, length_seq; reflexivity|].
    split; [|split].
    + apply Forall_forall. intros y Hy. apply in_map_iff in Hy.
      destruct Hy as (k & <- & _). unfold nth_progress. simpl.
      apply fraction_in_range. lia.
    + intros ->. simpl. rewrite Nat.div_small by lia. split; reflexivity.
    + intros Hq.
      destruct (analyze_batch_questions_last questions batch_size Hb Hq
                  (Hfloat Hq))
        as (earlier & y & Hrun & Hall & Hf & Hp).
      rewrite analyze_batch_questions_closed_form in Hrun by assumption.
      inversion Hrun as [Hyields]. exists earlier, y.
      split; [exact Hyields|]. rewrite Hyields, final_categories_last, Hall.
      unfold classify_all. rewrite traverse_classify. auto.
Qed.

Lemma batch_driver_refines_one_pass_witness :
  ((["What is Atlan?"; "hello"; "Atlan pricing"] <> [] ->
    2 < float_overflow * Z.of_nat 3) ->
   exists yields,
     analyze_batch_questions
       (map PStr ["What is Atlan?"; "hello"; "Atlan pricing"]) 2
       = (yields, Exhausted)
     /\ List.length yields = ((3 + Z.to_nat 2 - 1) / Z.to_nat 2)%nat
     /\ Forall (fun y => (0 < fraction_complete y)%Q
                         /\ (fraction_complete y <= 1)%Q) yields
     /\ (["What is Atlan?"; "hello"; "Atlan pricing"] = [] ->
         yields = [] /\ final_categories yields = None)
     /\ (["What is Atlan?"; "hello"; "Atlan pricing"] <> [] ->
         exists earlier y,
           yields = earlier ++ [y]
           /\ final_categories yields
              = Some (map analyze_question_category
                        ["What is Atlan?"; "hello"; "Atlan pricing"])
           /\ classify_all
                (map PStr ["What is Atlan?"; "hello"; "Atlan pricing"])
              = Ok (all_categories_so_far y)
           /\ (fraction_complete y == 1)%Q
           /\ items_processed y = Z.of_nat 3))
  /\ (["What is Atlan?"; "hello"; "Atlan pricing"] <> [] ->
      float_overflow * Z.of_nat 3 <= 2 ->
      analyze_batch_questions
        (map PStr ["What is Atlan?"; "hello"; "Atlan pricing"]) 2
      = ([], Raised OverflowError)).
Proof.
  apply (batch_driver_refines_one_pass
           ["What is Atlan?"; "hello"; "Atlan pricing"] 2).
  lia.
Defined.

(** C4 as stated fails at length zero: the driver yields no tuple, so there
    is no final [all_categories_so_far] to equal the (empty) result of one
    pass, and no tuple with fraction one. *)
Lemma empty_input_yields_nothing :
  analyze_batch_questions [] 1 = ([], Exhausted)
  /\ final_categories (fst (analyze_batch_questions [] 1)) = None
  /\ classify_all [] = Ok [].
Proof. repeat split. Qed.

(** ** The store: what the aggregators write *)

Lemma read_alloc (h : store) (df : DataFrame) (r : ref) (frame : DataFrame) :
  read h r = Some frame -> read (h ++ [df]) r = Some frame.
Proof.
  unfold read. intros H. rewrite nth_error_app1; [exact H|].
  apply nth_error_Some. congruence.
Qed.

Lemma read_write (h : store) (r : ref) (df frame : DataFrame) :
  read h r = Some frame -> read (write h r df) r = Some df.
Proof.
  unfold read. revert r. induction h as [|x h IH]; intros [|r]; simpl;
    try discriminate; auto.
Qed.

Lemma read_write_other (h : store) (r r' : ref) (df : DataFrame) :
  r <> r' -> read (write h r df) r' = read h r'.
Proof.
  unfold read. revert r r'.
  induction h as [|x h IH]; intros [|r] [|r'] H; simpl; auto; congruence.
Qed.

Lemma length_write (h : store) (r : ref) (df : DataFrame) :
  List.length (write h r df) = List.length h.
Proof.
  revert r. induction h as [|x h IH]; intros [|r]; simpl; auto.
Qed.

Lemma read_fresh (h : store) : read h (List.length h) = None.
Proof. unfold read. apply nth_error_None. lia. Qed.

Lemma lookup_set_column (df : DataFrame) (name : string) (cells : list pyval) :
  lookup name (set_column df name cells) = Some cells.
Proof.
  induction df as [|(n, c) rest IH]; simpl.
  - rewrite String.eqb_refl. reflexivity.
  - destruct (String.eqb name n) eqn:E; simpl; rewrite ?String.eqb_refl, ?E;
      auto.
Qed.

Lemma lookup_set_column_other (df : DataFrame) (name other : string)
    (cells : list pyval) :
  other <> name -> lookup other (set_column df name cells) = lookup other df.
Proof.
  intros H. apply String.eqb_neq in H.
  induction df as [|(n, c) rest IH]; simpl.
  - rewrite H. reflexivity.
  - destruct (String.eqb name n) eqn:E; simpl.
    + apply String.eqb_eq in E. subst n. rewrite H. reflexivity.
    + rewrite IH. reflexivity.
Qed.

(** A frame written at [df] and a new frame added: the store elsewhere. *)
Lemma write_alloc_frame (h : store) (df : ref) (frame frame' new : DataFrame) :
  read h df = Some frame ->
  read (write h df frame' ++ [new]) df = Some frame'
  /\ read (write h df frame' ++ [new]) (List.length h) = Some new
  /\ forall r, r <> df -> (r < List.length h)%nat ->
       read (write h df frame' ++ [new]) r = read h r.
Proof.
  intros H. split; [|split].
  - eapply read_alloc, read_write, H.
  - unfold read. rewrite nth_error_app2; rewrite length_write; [|lia].
    rewrite Nat.sub_diag. reflexivity.
  - intros r Hr Hlt. unfold read.
    rewrite nth_error_app1 by (rewrite length_write; exact Hlt).
    apply read_write_other. congruence.
Qed.

(** C6, as the code has it.  The country aggregator leaves the store as it
    is and adds its result as a new frame.  The daily aggregator assigns a
    [Date] column to its input frame, in place, and the category aggregator
    a [Category] column; each leaves the other columns of the input, and
    the other frames of the store, as they are, and adds its metrics as a
    new frame.  The category aggregator returns, besides the metrics, the
    input frame itself. *)
Theorem aggregators_frame (argsort : list Z -> list nat) (h : store)
    (df : ref) (frame : DataFrame) :
  read h df = Some frame ->
  (forall out h',
      get_country_metrics argsort df h = (Ok out, h') ->
      exists rows,
        h' = h ++ [country_frame rows] /\ out = List.length h
        /\ read h' df = Some frame)
  /\ (forall out h',
         get_daily_metrics df h = (Ok out, h') ->
         exists dates rows,
           out = List.length h
           /\ read h' df = Some (set_column frame "Date" dates)
           /\ read h' out = Some (daily_frame rows)
           /\ (forall name, name <> "Date" ->
                 lookup name (set_column frame "Date" dates)
                 = lookup name frame)
           /\ (forall r, r <> df -> (r < List.length h)%nat ->
                 read h' r = read h r))
  /\ (forall out h',
         get_category_metrics argsort df h = (Ok out, h') ->
         exists categories rows,
           out = (List.length h, df)
           /\ read h' df = Some (set_column frame "Category" categories)
           /\ read h' (List.length h) = Some (category_frame rows)
           /\ (forall name, name <> "Category" ->
                 lookup name (set_column frame "Category" categories)
                 = lookup name frame)
           /\ (forall r, r <> df -> (r < List.length h)%nat ->
                 read h' r = read h r)).
Proof.
  intros Hr. split; [|split]; intros out h' H.
  - unfold get_country_metrics in H. rewrite Hr in H.
    destruct (country_rows argsort frame) as [rows|e]; [|discriminate].
    simpl in H. inversion H; subst. exists rows.
    split; [reflexivity|]. split; [reflexivity|]. apply read_alloc. exact Hr.
  - unfold get_daily_metrics in H. rewrite Hr in H.
    destruct (bind (column frame "Asked at") _) as [dates|e]; [|discriminate].
    destruct (daily_rows _) as [rows|e]; [|discriminate].
    simpl in H. inversion H; subst. exists dates, rows.
    destruct (write_alloc_frame h df frame (set_column frame "Date" dates)
                (daily_frame rows) Hr) as (H1 & H2 & H3).
    rewrite length_write.
    split; [reflexivity|]. split; [exact H1|]. split; [exact H2|].
    split; [|exact H3].
    intros name Hn. apply lookup_set_column_other, Hn.
  - unfold get_category_metrics in H. rewrite Hr in H.
    destruct (column frame "User Question") as [questions|e]; [|discriminate].
    destruct (analyze_batch_questions questions 250) as (yields, [|e]);
      [|discriminate].
    destruct (category_rows argsort _) as [rows|e]; [|discriminate].
    simpl in H. inversion H; subst. eexists. exists rows.
    destruct (write_alloc_frame h df frame
                (set_column frame "Category"
                   match final_categories yields with
                   | Some categories => map PStr categories
                   | None => repeat PNone (List.length questions)
                   end)
                (category_frame rows) Hr) as (H1 & H2 & H3).
    rewrite length_write.
    split; [reflexivity|]. split; [exact H1|]. split; [exact H2|].
    split; [|exact H3].
    intros name Hn. apply lookup_set_column_other, Hn.
Qed.

Lemma aggregators_frame_witness :
  (forall out h',
      get_country_metrics Examples.stable_argsort 0%nat
        [Examples.one_row_table] = (Ok out, h') ->
      exists rows,
        h' = [Examples.one_row_table] ++ [country_frame rows]
        /\ out = 1%nat
        /\ read h' 0%nat = Some Examples.one_row_table)
  /\ (forall out h',
         get_daily_metrics 0%nat [Examples.one_row_table] = (Ok out, h') ->
         exists dates rows,
           out = 1%nat
           /\ read h' 0%nat
              = Some (set_column Examples.one_row_table "Date" dates)
           /\ read h' out = Some (daily_frame rows)
           /\ (forall name, name <> "Date" ->
                 lookup name (set_column Examples.one_row_table "Date" dates)
                 = lookup name Examples.one_row_table)
           /\ (forall r, r <> 0%nat -> (r < 1)%nat ->
                 read h' r = read [Examples.one_row_table] r))
  /\ (forall out h',
         get_category_metrics Examples.stable_argsort 0%nat
           [Examples.one_row_table] = (Ok out, h') ->
         exists categories rows,
           out = (1%nat, 0%nat)
           /\ read h' 0%nat
              = Some (set_column Examples.one_row_table "Category" categories)
           /\ read h' 1%nat = Some (category_frame rows)
           /\ (forall name, name <> "Category" ->
                 lookup name
                   (set_column Examples.one_row_table "Category" categories)
                 = lookup name Examples.one_row_table)
           /\ (forall r, r <> 0%nat -> (r < 1)%nat ->
                 read h' r = read [Examples.one_row_table] r)).
Proof.
  apply (aggregators_frame Examples.stable_argsort
           [Examples.one_row_table] 0%nat Examples.one_row_table).
  reflexivity.
Defined.

(** C6 as stated fails: after the daily aggregator the input frame has a
    [Date] column it did not have, after the category aggregator a
    [Category] column, and the second frame the category aggregator returns
    is the input frame, not a new one. *)
Lemma aggregators_write_their_input :
  (exists out h',
      get_daily_metrics 0%nat [Examples.one_row_table] = (Ok out, h')
      /\ read h' 0%nat
         = Some (Examples.one_row_table ++ [("Date", [PDate 2024 1 6])])
      /\ read h' 0%nat <> read [Examples.one_row_table] 0%nat)
  /\ (exists out h',
         get_category_metrics Examples.stable_argsort 0%nat
           [Examples.one_row_table] = (Ok out, h')
         /\ snd out = 0%nat
         /\ read h' 0%nat
            = Some (Examples.one_row_table ++ [("Category", [PStr "Others"])])
         /\ read h' 0%nat <> read [Examples.one_row_table] 0%nat).
Proof.
  split.
  - eexists. eexists. split; [vm_compute; reflexivity|].
    split; [reflexivity | discriminate].
  - eexists. eexists. split; [vm_compute; reflexivity|].
    split; [reflexivity|]. split; [reflexivity | discriminate].
Qed.

(** ** Groups *)

Lemma sum_cons (x : Z) (l : list Z) : sum (x :: l) = x + sum l.
Proof. reflexivity. Qed.

Section GroupFacts.
Context {K : Type} (cmp : K -> K -> comparison) (lt : K -> K -> Prop).
Hypothesis cmp_spec : forall x y, CompSpec eq lt x y (cmp x y).
Hypothesis lt_strict : StrictOrder lt.

Lemma insert_key_In (k0 : K) (ks : list K) (k : K) :
  In k (insert_key cmp k0 ks) <-> k = k0 \/ In k ks.
Proof.
  induction ks as [|k' rest IH]; simpl; [intuition|].
  destruct (cmp_spec k0 k'); simpl.
  - subst. intuition.
  - intuition.
  - rewrite IH. intuition.
Qed.

Lemma insert_key_sorted (k0 : K) (ks : list K) :
  StronglySorted lt ks -> StronglySorted lt (insert_key cmp k0 ks).
Proof.
  induction 1 as [|k' rest Hs IH Hall]; simpl.
  - repeat constructor.
  - destruct (cmp_spec k0 k') as [->|Hlt|Hgt].
    + constructor; assumption.
    + constructor; [constructor; assumption|].
      constructor; [exact Hlt|].
      eapply Forall_impl; [|exact Hall].
      intros a Ha. etransitivity; eassumption.
    + constructor; [exact IH|].
      apply Forall_forall. intros a Ha. apply insert_key_In in Ha.
      destruct Ha as [->|Ha]; [exact Hgt|].
      rewrite Forall_forall in Hall. auto.
Qed.

Lemma group_keys_In (keys : list (option K)) (k : K) :
  In k (group_keys cmp keys) <-> In (Some k) keys.
Proof.
  induction keys as [|[k'|] rest IH]; simpl.
  - tauto.
  - rewrite insert_key_In, IH. split.
    + intros [->|H]; auto.
    + intros [H|H]; [inversion H|]; auto.
  - rewrite IH. split; [auto|]. intros [H|H]; [discriminate | exact H].
Qed.

Lemma group_keys_sorted (keys : list (option K)) :
  StronglySorted lt (group_keys cmp keys).
Proof.
  induction keys as [|[k|] rest IH]; simpl.
  - constructor.
  - apply insert_key_sorted, IH.
  - exact IH.
Qed.

Lemma strictly_sorted_NoDup (l : list K) : StronglySorted lt l -> NoDup l.
Proof.
  induction 1 as [|k rest Hs IH Hall]; constructor; [|exact IH].
  intros Hin. rewrite Forall_forall in Hall.
  apply (irreflexivity (Hall k Hin)).
Qed.

Lemma group_keys_NoDup (keys : list (option K)) :
  NoDup (group_keys cmp keys).
Proof. apply strictly_sorted_NoDup, group_keys_sorted. Qed.

Lemma same_key_true (k k' : K) :
  same_key cmp k (Some k') = true <-> k = k'.
Proof.
  simpl. destruct (cmp_spec k k') as [->|H|H].
  - tauto.
  - split; [discriminate|]. intros ->. destruct (irreflexivity H).
  - split; [discriminate|]. intros ->. destruct (irreflexivity H).
Qed.

Lemma sum_no_indicator (ks : list K) (k0 : K) (c : Z) :
  ~ In k0 ks ->
  sum (map (fun k => if same_key cmp k (Some k0) then c else 0) ks) = 0.
Proof.
  induction ks as [|k rest IH]; intros Hnot; [reflexivity|].
  rewrite map_cons, sum_cons.
  destruct (same_key cmp k (Some k0)) eqn:E.
  - apply same_key_true in E. subst. destruct Hnot. left. reflexivity.
  - rewrite IH; [reflexivity|]. intros H. apply Hnot. right. exact H.
Qed.

Lemma sum_indicator (ks : list K) (k0 : K) (c : Z) :
  NoDup ks -> In k0 ks ->
  sum (map (fun k => if same_key cmp k (Some k0) then c else 0) ks) = c.
Proof.
  induction 1 as [|k rest Hnot Hnd IH]; [intros []|].
  rewrite map_cons, sum_cons. intros [->|Hin].
  - rewrite (proj2 (same_key_true k0 k0) eq_refl).
    rewrite sum_no_indicator by exact Hnot. lia.
  - destruct (same_key cmp k (Some k0)) eqn:E.
    + apply same_key_true in E. subst. tauto.
    + rewrite IH by exact Hin. lia.
Qed.

(** The counts of the groups add up to the number of rows whose key and
    whose counted cell are both present. *)
Lemma sum_group_counts (ks : list K) (rows : list (option K * pyval)) :
  NoDup ks ->
  (forall k v, In (Some k, v) rows -> In k ks) ->
  sum (map (fun k =>
              count (map snd (filter (fun kv => same_key cmp k (fst kv))
                                rows))) ks)
  = Z.of_nat (List.length
      (filter (fun kv => match fst kv with
                         | Some _ => negb (isna (snd kv))
                         | None => false
                         end) rows)).
Proof.
  intros Hnd. induction rows as [|(k0, v) rest IH]; intros Hin.
  - simpl. clear. induction ks; simpl; [reflexivity|]. rewrite IHks.
    reflexivity.
  - assert (IH' := IH (fun k v' H => Hin k v' (or_intror H))). clear IH.
    destruct k0 as [k0|]; cbn [filter fst snd].
    + assert (Hk0 : In k0 ks) by (apply (Hin k0 v); left; reflexivity).
      transitivity
        (sum (map (fun k => if same_key cmp k (Some k0)
                            then (if negb (isna v) then 1 else 0) else 0)
                ks)
         + sum (map (fun k =>
              count (map snd (filter (fun kv => same_key cmp k (fst kv))
                                rest))) ks)).
      * clear. induction ks as [|k ks IHks]; [reflexivity|].
        rewrite !map_cons, !sum_cons, IHks.
        cbn [filter fst]. unfold count.
        destruct (same_key cmp k (Some k0)); cbn [map snd filter];
          destruct (isna v); cbn [negb List.length]; lia.

      * rewrite (sum_indicator ks k0 _ Hnd Hk0), IH'.
        destruct (isna v); cbn [negb List.length]; lia.
    + exact IH'.
Qed.
End GroupFacts.

(** ** Sorting *)

Lemma sum_permutation (l l' : list Z) : Permutation l l' -> sum l = sum l'.
Proof.
  induction 1; simpl; lia.
Qed.

Lemma take_rows_seq {A} (before l : list A) :
  take_rows (seq (List.length before) (List.length l)) (before ++ l) = l.
Proof.
  revert before. induction l as [|x l IH]; intros before; [reflexivity|].
  cbn [List.length seq take_rows flat_map].
  rewrite nth_error_app2, Nat.sub_diag by lia. cbn [nth_error app].
  f_equal.
  replace (S (List.length before)) with (List.length (before ++ [x]))
    by (rewrite length_app; simpl; lia).
  replace (before ++ x :: l) with ((before ++ [x]) ++ l)
    by (rewrite <- app_assoc; reflexivity).
  apply IH.
Qed.

Lemma take_rows_nil {A} (indexer : list nat) :
  take_rows indexer (@nil A) = [].
Proof.
  induction indexer as [|i rest IH]; [reflexivity|].
  cbn [take_rows flat_map]. destruct i; exact IH.
Qed.

Lemma take_rows_permutation {A} (indexer : list nat) (l : list A) :
  Permutation indexer (seq 0 (List.length l)) ->
  Permutation (take_rows indexer l) l.
Proof.
  intros H. unfold take_rows.
  rewrite (Permutation_flat_map _ H).
  change (Permutation (take_rows (seq (List.length (@nil A)) (List.length l))
                         ([] ++ l)) l).
  rewrite take_rows_seq. reflexivity.
Qed.

Lemma In_take_rows {A} (indexer : list nat) (l : list A) (x : A) :
  In x (take_rows indexer l) ->
  exists i, In i indexer /\ nth_error l i = Some x.
Proof.
  unfold take_rows. rewrite in_flat_map. intros (i & Hi & Hx).
  exists i. split; [exact Hi|].
  destruct (nth_error l i) as [y|]; [|contradiction].
  destruct Hx as [->|[]]. reflexivity.
Qed.

Lemma nth_map_key {A} (key : A -> Z) (l : list A) (i : nat) (x : A) :
  nth_error l i = Some x -> nth i (map key l) 0 = key x.
Proof.
  intros H. apply nth_error_nth. rewrite nth_error_map, H. reflexivity.
Qed.

Lemma take_rows_sorted {A} (key : A -> Z) (indexer : list nat) (l : list A) :
  StronglySorted (fun i j => nth i (map key l) 0 <= nth j (map key l) 0)
    indexer ->
  StronglySorted (fun a b => key a <= key b) (take_rows indexer l).
Proof.
  induction 1 as [|i rest Hs IH Hall]; [constructor|].
  change (take_rows (i :: rest) l)
    with (match nth_error l i with
          | Some x => [x]
          | None => []
          end ++ take_rows rest l).
  destruct (nth_error l i) as [x|] eqn:Hx; [|exact IH].
  constructor; [exact IH|].
  apply Forall_forall. intros b Hb.
  apply In_take_rows in Hb. destruct Hb as (j & Hj & Hb).
  rewrite Forall_forall in Hall. specialize (Hall j Hj).
  rewrite (nth_map_key key l i x Hx), (nth_map_key key l j b Hb) in Hall.
  exact Hall.
Qed.

Lemma StronglySorted_app {A} (R : A -> A -> Prop) (l : list A) (x : A) :
  StronglySorted R l -> Forall (fun a => R a x) l ->
  StronglySorted R (l ++ [x]).
Proof.
  induction 1 as [|y rest Hs IH Hall]; intros Hx; simpl.
  - repeat constructor.
  - inversion Hx; subst. constructor; [apply IH; assumption|].
    apply Forall_app. split; [exact Hall|].
    constructor; [assumption | constructor].
Qed.

Lemma StronglySorted_rev {A} (R : A -> A -> Prop) (l : list A) :
  StronglySorted R l -> StronglySorted (fun a b => R b a) (rev l).
Proof.
  induction 1 as [|x rest Hs IH Hall]; simpl; [constructor|].
  apply StronglySorted_app; [exact IH|].
  apply Forall_forall. intros a Ha. apply in_rev in Ha.
  rewrite Forall_forall in Hall. auto.
Qed.

(** What a table sorted by [sort_values_desc] is, whatever [argsort] does
    with equal keys: the same rows, with keys that do not increase. *)
Lemma sort_values_desc_In {A} (argsort : list Z -> list nat) (key : A -> Z)
    (l : list A) (x : A) :
  In x (sort_values_desc argsort key l) -> In x l.
Proof.
  unfold sort_values_desc. rewrite <- in_rev. intros H.
  apply In_take_rows in H. destruct H as (i & _ & H).
  apply nth_error_In in H. apply in_rev. exact H.
Qed.

Section SortFacts.
Context {A : Type} (argsort : list Z -> list nat) (key : A -> Z).
Hypothesis argsort_sorts : sorts argsort.

Lemma sort_values_desc_permutation (l : list A) :
  Permutation (sort_values_desc argsort key l) l.
Proof.
  unfold sort_values_desc.
  rewrite <- Permutation_rev.
  rewrite take_rows_permutation.
  - symmetry. apply Permutation_rev.
  - destruct (argsort_sorts (map key (rev l))) as [Hperm _].
    rewrite length_map in Hperm. exact Hperm.
Qed.

Lemma sort_values_desc_sorted (l : list A) :
  StronglySorted (fun a b => key b <= key a) (sort_values_desc argsort key l).
Proof.
  unfold sort_values_desc.
  apply (StronglySorted_rev (fun a b => key a <= key b)).
  apply take_rows_sorted.
  apply (argsort_sorts (map key (rev l))).
Qed.
End SortFacts.

(** The insertion sort is one such [argsort]. *)
Lemma insert_position_permutation (keys : list Z) (i : nat) (l : list nat) :
  Permutation (Examples.insert_position keys i l) (i :: l).
Proof.
  induction l as [|j rest IH]; simpl; [reflexivity|].
  destruct (nth i keys 0 <=? nth j keys 0); [reflexivity|].
  rewrite IH. apply perm_swap.
Qed.

Lemma insert_position_sorted (keys : list Z) (i : nat) (l : list nat) :
  StronglySorted (fun i j => nth i keys 0 <= nth j keys 0) l ->
  StronglySorted (fun i j => nth i keys 0 <= nth j keys 0)
    (Examples.insert_position keys i l).
Proof.
  induction 1 as [|j rest Hs IH Hall]; simpl.
  - repeat constructor.
  - destruct (Z.leb_spec (nth i keys 0) (nth j keys 0)) as [Hle|Hgt].
    + constructor; [constructor; assumption|].
      constructor; [exact Hle|].
      apply Forall_forall. intros k Hk.
      rewrite Forall_forall in Hall. specialize (Hall k Hk). lia.
    + constructor; [exact IH|].
      apply Forall_forall. intros k Hk.
      apply (Permutation_in _ (insert_position_permutation keys i rest))
        in Hk.
      destruct Hk as [<-|Hk]; [lia|].
      rewrite Forall_forall in Hall. auto.
Qed.

Lemma stable_argsort_sorts : sorts Examples.stable_argsort.
Proof.
  intros keys. unfold Examples.stable_argsort.
  induction (seq 0 (List.length keys)) as [|i rest [IHp IHs]]; simpl.
  - split; constructor.
  - split.
    + rewrite insert_position_permutation, IHp. reflexivity.
    + apply insert_position_sorted. exact IHs.
Qed.

(** ** The country aggregator *)

Lemma forallb_is_str (cells : list pyval) :
  forallb is_str cells = true -> exists ss, cells = map PStr ss.
Proof.
  induction cells as [|v rest IH]; simpl; intros H.
  - exists []. reflexivity.
  - apply andb_true_iff in H. destruct H as (Hv & Hrest).
    destruct (IH Hrest) as (ss & ->). destruct v; try discriminate.
    exists (s :: ss). reflexivity.
Qed.

Lemma traverse_str_key (ss : list string) :
  traverse str_key (map PStr ss) = Ok (map Some ss).
Proof.
  induction ss as [|s rest IH]; simpl; [reflexivity|].
  rewrite IH. reflexivity.
Qed.

Lemma nunique_strs (cells : list pyval) :
  (forall v, In v cells -> is_str v = true) ->
  exists n, nunique cells = Ok n.
Proof.
  intros H. destruct (forallb_is_str cells) as (ss & ->).
  - apply forallb_forall. exact H.
  - unfold nunique. rewrite traverse_str_key. simpl. eauto.
Qed.

Lemma group_cells_In {K V} (cmp : K -> K -> comparison) (k : K)
    (keys : list (option K)) (cells : list V) (v : V) :
  In v (group_cells cmp k keys cells) -> In v cells.
Proof.
  unfold group_cells. intros H. apply in_map_iff in H.
  destruct H as ((k', v') & <- & H). apply filter_In in H.
  destruct H as (H & _). apply in_combine_r in H. exact H.
Qed.

Lemma StronglySorted_map {A B} (f : A -> B) (R : B -> B -> Prop)
    (l : list A) :
  StronglySorted R (map f l) -> StronglySorted (fun a b => R (f a) (f b)) l.
Proof.
  induction l as [|x rest IH]; simpl; intros H; [constructor|].
  inversion H as [|? ? Hs Hall]; subst. constructor; [auto|].
  rewrite Forall_map in Hall. exact Hall.
Qed.

Lemma StronglySorted_weaken {A} (R R' : A -> A -> Prop) (l : list A) :
  (forall a b, R a b -> R' a b) -> StronglySorted R l -> StronglySorted R' l.
Proof.
  intros H. induction 1 as [|x rest Hs IH Hall]; constructor; [exact IH|].
  eapply Forall_impl; [|exact Hall]. intros b. apply H.
Qed.

Lemma filter_all {A} (f : A -> bool) (l : list A) :
  (forall x, In x l -> f x = true) -> filter f l = l.
Proof.
  induction l as [|x rest IH]; simpl; intros H; [reflexivity|].
  rewrite (H x) by auto. rewrite IH by auto. reflexivity.
Qed.

(** The grouped table of [get_country_metrics], before it is sorted. *)
Lemma grouped_country_rows (keys : list (option string))
    (questions asked : list pyval) (ks : list string) :
  (forall v, In v asked -> is_str v = true) ->
  exists grouped,
    traverse
      (fun k =>
         users <- nunique (group_cells String_as_OT.compare k keys asked) ;;
         Ok (mkCountryMetric k
               (count (group_cells String_as_OT.compare k keys questions))
               users)) ks
    = Ok grouped
    /\ map cm_country grouped = ks
    /\ map cm_questions grouped
       = map (fun k =>
                count (group_cells String_as_OT.compare k keys questions)) ks.
Proof.
  intros Hasked. induction ks as [|k rest IH]; simpl.
  - exists []. repeat split.
  - destruct IH as (grouped & -> & Hc & Hq).
    destruct (nunique_strs (group_cells String_as_OT.compare k keys asked))
      as (n & ->).
    + intros v Hv. apply Hasked. eapply group_cells_In, Hv.
    + simpl. eexists. split; [reflexivity|]. simpl. rewrite Hc, Hq.
      split; reflexivity.
Qed.

Lemma country_rows_of_columns (argsort : list Z -> list nat)
    (df : DataFrame) (ss : list string) (questions asked : list pyval) :
  column df "Country" = Ok (map PStr ss) ->
  column df "User Question" = Ok questions ->
  column df "Asked at" = Ok asked ->
  (forall v, In v asked -> is_str v = true) ->
  exists grouped,
    country_rows argsort df
    = Ok (sort_values_desc argsort cm_questions grouped)
    /\ map cm_country grouped
       = group_keys String_as_OT.compare (map Some ss)
    /\ map cm_questions grouped
       = map (fun k => count (group_cells String_as_OT.compare k
                                (map Some ss) questions))
             (group_keys String_as_OT.compare (map Some ss)).
Proof.
  intros Hc Hq Ha Hasked. unfold country_rows.
  rewrite Hc, Hq, Ha. simpl. rewrite traverse_str_key. simpl.
  destruct (grouped_country_rows (map Some ss) questions asked
              (group_keys String_as_OT.compare (map Some ss)) Hasked)
    as (grouped & -> & H1 & H2).
  simpl. exists grouped. auto.
Qed.

(** The rows that a count by string keys counts: those whose counted cell
    is not missing. *)
Lemma counted_rows (ss : list string) (cells : list pyval) :
  List.length cells = List.length ss ->
  Z.of_nat (List.length
    (filter (fun kv : option string * pyval =>
               match fst kv with
               | Some _ => negb (isna (snd kv))
               | None => false
               end) (combine (map Some ss) cells)))
  = count cells.
Proof.
  unfold count. revert cells.
  induction ss as [|s ss IH]; intros [|v cells] Hlen; try discriminate;
    [reflexivity|].
  cbn [map combine filter fst snd].
  specialize (IH cells ltac:(simpl in Hlen; lia)).
  destruct (negb (isna v)); cbn [List.length]; lia.
Qed.

(** C5, as the code has it.  On a frame whose countries and timestamps are
    strings and whose three columns have the same length, whatever the
    order in which numpy's sort leaves equal keys, the country aggregator
    returns a new frame with one row per distinct country, the countries
    of the output being those of the input; the numbers of questions do
    not increase from a row to the next, and they add up to the number of
    rows whose question is not missing, which is the number of rows of the
    input when no question is missing.  Nothing is said of the order of
    rows with the same number of questions. *)
Theorem country_metrics_sorted_and_complete (argsort : list Z -> list nat)
    (h : store) (df : ref) (frame : DataFrame)
    (countries questions asked : list pyval) :
  sorts argsort ->
  read h df = Some frame ->
  column frame "Country" = Ok countries ->
  column frame "User Question" = Ok questions ->
  column frame "Asked at" = Ok asked ->
  List.length questions = List.length countries ->
  forallb is_str countries = true ->
  forallb is_str asked = true ->
  exists rows,
    get_country_metrics argsort df h
    = (Ok (List.length h), h ++ [country_frame rows])
    /\ NoDup (map cm_country rows)
    /\ (forall s, In s (map cm_country rows) <-> In (PStr s) countries)
    /\ StronglySorted (fun a b => cm_questions b <= cm_questions a) rows
    /\ sum (map cm_questions rows) = count questions
    /\ (forallb present questions = true ->
        sum (map cm_questions rows) = Z.of_nat (List.length countries)).
Proof.
  intros Hsorts Hr Hc Hq Ha Hlen Hcs Has.
  destruct (forallb_is_str _ Hcs) as (ss & ->).
  rewrite forallb_forall in Has.
  destruct (country_rows_of_columns argsort frame ss questions asked
              Hc Hq Ha Has)
    as (grouped & Hrows & Hk & Hn).
  pose proof (sort_values_desc_permutation argsort cm_questions Hsorts
                grouped) as Hperm.
  exists (sort_values_desc argsort cm_questions grouped).
  assert (Hsum : sum (map cm_questions
                        (sort_values_desc argsort cm_questions grouped))
                 = count questions).
  { rewrite (sum_permutation _ _ (Permutation_map cm_questions Hperm)), Hn.
    unfold group_cells.
    rewrite (sum_group_counts _ _ String_as_OT.compare_spec
               String_as_OT.lt_strorder).
    - apply counted_rows. rewrite length_map in Hlen. exact Hlen.
    - apply (group_keys_NoDup _ _ String_as_OT.compare_spec
               String_as_OT.lt_strorder).
    - intros k v Hin. apply in_combine_l in Hin.
      apply (group_keys_In _ _ String_as_OT.compare_spec). exact Hin. }
  split; [|split; [|split; [|split; [|split]]]].
  - unfold get_country_metrics. rewrite Hr, Hrows. reflexivity.
  - apply (Permutation_NoDup (l := map cm_country grouped)).
    + apply Permutation_map. symmetry. exact Hperm.
    + rewrite Hk.
      apply (group_keys_NoDup _ _ String_as_OT.compare_spec
               String_as_OT.lt_strorder).
  - intros s.
    assert (Hin : In s (map cm_country
                          (sort_values_desc argsort cm_questions grouped))
                  <-> In s (map cm_country grouped)).
    { split; apply Permutation_in, Permutation_map;
        [exact Hperm | symmetry; exact Hperm]. }
    rewrite Hin, Hk.
    rewrite (group_keys_In _ _ String_as_OT.compare_spec), !in_map_iff.
    split; intros (x & Hx & Hx'); exists x; split; congruence.
  - apply (sort_values_desc_sorted argsort cm_questions Hsorts).
  - exact Hsum.
  - intros Hqs. rewrite Hsum. unfold count. rewrite filter_all.
    + rewrite Hlen. reflexivity.
    + rewrite forallb_forall in Hqs. exact Hqs.
Qed.

Lemma country_metrics_sorted_and_complete_witness :
  exists rows,
    get_country_metrics Examples.stable_argsort 0%nat
      [Examples.table_of_document]
    = (Ok 1%nat, [Examples.table_of_document] ++ [country_frame rows])
    /\ NoDup (map cm_country rows)
    /\ (forall s, In s (map cm_country rows)
                  <-> In (PStr s) [PStr "US"; PStr "US"; PStr "IN"])
    /\ StronglySorted (fun a b => cm_questions b <= cm_questions a) rows
    /\ sum (map cm_questions rows)
       = count [PStr "What is Atlan?"; PStr "How to use Atlan connectors";
                PStr "hello"]
    /\ (forallb present
          [PStr "What is Atlan?"; PStr "How to use Atlan connectors";
           PStr "hello"] = true ->
        sum (map cm_questions rows) = Z.of_nat 3).
Proof.
  apply (country_metrics_sorted_and_complete Examples.stable_argsort
           [Examples.table_of_document] 0%nat Examples.table_of_document
           [PStr "US"; PStr "US"; PStr "IN"]
           [PStr "What is Atlan?"; PStr "How to use Atlan connectors";
            PStr "hello"]
           [PStr "January 05, 2024 10:20:30";
            PStr "January 05, 2024 10:20:30";
            PStr "January 06, 2024 08:00:00"]);
    [exact stable_argsort_sorts | reflexivity ..].
Defined.

(** C5 as stated fails, whatever the order in which the sort leaves equal
    keys.  On the table of three conversations from US, IN and FR, the
    last with a user message without content, the questions add up to
    two, not to the three rows of the input: a missing question is not
    counted.  And the two tables of one question from US and one from IN,
    in the one order and in the other, have the same grouped table, so
    they get their rows in the same order: in one of them the ties are not
    in the order of first appearance. *)
Lemma country_ties_and_missing_questions :
  process_conversations Examples.conversations_with_tie
  = Ok Examples.table_with_tie
  /\ (forall argsort, sorts argsort ->
      exists rows,
        country_rows argsort Examples.table_with_tie = Ok rows
        /\ sum (map cm_questions rows) = 2
        /\ column Examples.table_with_tie "Country"
           = Ok [PStr "US"; PStr "IN"; PStr "FR"])
  /\ (forall argsort, sorts argsort ->
      exists rows,
        country_rows argsort Examples.table_us_then_in = Ok rows
        /\ country_rows argsort Examples.table_in_then_us = Ok rows
        /\ ~ (ties_by_first_appearance [PStr "US"; PStr "IN"] rows
              /\ ties_by_first_appearance [PStr "IN"; PStr "US"] rows)).
Proof.
  split; [reflexivity|]. split.
  - intros argsort Hsorts.
    exists (sort_values_desc argsort cm_questions
              [mkCountryMetric "FR" 0 1; mkCountryMetric "IN" 1 1;
               mkCountryMetric "US" 1 1]).
    split; [reflexivity|]. split; [|reflexivity].
    rewrite (sum_permutation _ _
               (Permutation_map cm_questions
                  (sort_values_desc_permutation argsort cm_questions
                     Hsorts _))).
    reflexivity.
  - intros argsort Hsorts.
    exists (sort_values_desc argsort cm_questions
              [mkCountryMetric "IN" 1 1; mkCountryMetric "US" 1 1]).
    split; [reflexivity|]. split; [reflexivity|].
    pose proof (sort_values_desc_permutation argsort cm_questions Hsorts
                  [mkCountryMetric "IN" 1 1; mkCountryMetric "US" 1 1])
      as Hperm.
    symmetry in Hperm. apply Permutation_length_2_inv in Hperm.
    unfold ties_by_first_appearance.
    destruct Hperm as [-> | ->]; intros [H1 H2].
    + inversion H1 as [|? ? _ Hall]; subst.
      inversion Hall as [|? ? Hus _]; subst.
      simpl in Hus. specialize (Hus eq_refl). lia.
    + inversion H2 as [|? ? _ Hall]; subst.
      inversion Hall as [|? ? Hus _]; subst.
      simpl in Hus. specialize (Hus eq_refl). lia.
Qed.

(** ** The category aggregator *)

Lemma round_half_even_nearest (n d : Z) :
  0 < d -> 2 * Z.abs (round_half_even n d * d - n) <= d.
Proof.
  intros Hd. unfold round_half_even.
  pose proof (Z.div_mod n d ltac:(lia)) as Hn.
  pose proof (Z.mod_pos_bound n d Hd) as Hr.
  destruct (Z.ltb_spec (2 * (n mod d)) d);
    [|destruct (Z.ltb_spec d (2 * (n mod d))); [|destruct (Z.even (n / d))]];
    nia.
Qed.

(** *** binary64: how far a float is from the number it rounds *)

Lemma scaled_positive (n d e : Z) : 0 < d -> 0 < snd (scaled n d e).
Proof.
  intros Hd. unfold scaled.
  destruct (Z.leb_spec 0 e); cbn [fst snd]; [|exact Hd].
  pose proof (Z.pow_pos_nonneg 2 e). nia.
Qed.

Lemma scaled_pred (n d e : Z) :
  fst (scaled n d (e - 1)) * snd (scaled n d e)
  = 2 * fst (scaled n d e) * snd (scaled n d (e - 1)).
Proof.
  unfold scaled.
  destruct (Z.leb_spec 0 e) as [He|He];
    destruct (Z.leb_spec 0 (e - 1)) as [He'|He']; cbn [fst snd]; try lia.
  - replace (2 ^ e) with (2 * 2 ^ (e - 1)); [ring|].
    rewrite <- Z.pow_succ_r by lia. f_equal. lia.
  - replace e with 0 by lia. change (2 ^ 0) with 1.
    change (2 ^ (- (0 - 1))) with 2. ring.
  - replace (2 ^ (- (e - 1))) with (2 * 2 ^ (- e)); [ring|].
    rewrite <- Z.pow_succ_r by lia. f_equal. lia.
Qed.

Lemma scaled_lower (n d : Z) :
  0 < n -> 0 < d ->
  2 ^ 51 * snd (scaled n d (Z.log2 n - Z.log2 d - 52))
  < fst (scaled n d (Z.log2 n - Z.log2 d - 52)).
Proof.
  intros Hn Hd.
  pose proof (Z.log2_spec n Hn) as [Hn1 _].
  pose proof (Z.log2_spec d Hd) as [_ Hd2].
  pose proof (Z.log2_nonneg n) as Hln. pose proof (Z.log2_nonneg d) as Hld.
  set (ln := Z.log2 n) in *. set (ld := Z.log2 d) in *.
  unfold scaled.
  destruct (Z.leb_spec 0 (ln - ld - 52)) as [He|He]; cbn [fst snd].
  - assert (E : 2 ^ ln = 2 ^ 51 * (2 ^ Z.succ ld * 2 ^ (ln - ld - 52))).
    { rewrite <- !Z.pow_add_r by lia. f_equal. lia. }
    pose proof (Z.pow_pos_nonneg 2 (ln - ld - 52) ltac:(lia) He).
    pose proof (Z.pow_pos_nonneg 2 51 ltac:(lia) ltac:(lia)).
    nia.
  - assert (E : 2 ^ ln * 2 ^ (- (ln - ld - 52)) = 2 ^ 51 * 2 ^ Z.succ ld).
    { rewrite <- !Z.pow_add_r by lia. f_equal. lia. }
    pose proof (Z.pow_pos_nonneg 2 (- (ln - ld - 52)) ltac:(lia) ltac:(lia)).
    pose proof (Z.pow_pos_nonneg 2 51 ltac:(lia) ltac:(lia)).
    nia.
Qed.

(** The exponent [nearest_float] picks brings the quotient to [2^52] at
    least. *)
Lemma normalized (n d : Z) :
  0 < n -> 0 < d ->
  let e0 := Z.log2 n - Z.log2 d - 52 in
  let e := if fst (scaled n d e0) / snd (scaled n d e0) <? 2 ^ 52
           then e0 - 1 else e0 in
  2 ^ 52 * snd (scaled n d e) <= fst (scaled n d e).
Proof.
  intros Hn Hd e0 e. subst e.
  pose proof (scaled_lower n d Hn Hd) as Hlow. fold e0 in Hlow.
  pose proof (scaled_positive n d e0 Hd) as Hpos.
  pose proof (scaled_positive n d (e0 - 1) Hd) as Hpos'.
  pose proof (scaled_pred n d e0) as Hpred.
  destruct (Z.ltb_spec (fst (scaled n d e0) / snd (scaled n d e0)) (2 ^ 52))
    as [Hlt|Hge].
  - change (2 ^ 52) with (2 * 2 ^ 51). nia.
  - pose proof (Z.mul_div_le (fst (scaled n d e0)) (snd (scaled n d e0))
                  Hpos).
    nia.
Qed.

(** The float nearest to [n / d] is within [2^-53] of it, relatively. *)
Lemma nearest_float_error (n d : Z) :
  0 < n -> 0 < d ->
  let x := nearest_float n d in
  0 < fst (float_fraction x) /\ 0 < snd (float_fraction x)
  /\ 2 ^ 53 * Z.abs (fst (float_fraction x) * d - n * snd (float_fraction x))
     <= n * snd (float_fraction x).
Proof.
  intros Hn Hd. unfold nearest_float.
  destruct (Z.leb_spec n 0) as [|_]; [lia|].
  pose proof (normalized n d Hn Hd) as Hnorm. cbv zeta in Hnorm |- *.
  set (e := if _ <? _ then _ else _) in *.
  pose proof (scaled_positive n d e Hd) as Hpos.
  pose proof (round_half_even_nearest (fst (scaled n d e))
                (snd (scaled n d e)) Hpos) as Hnear.
  set (m := round_half_even _ _) in *.
  unfold float_fraction. cbn [mantissa exponent].
  unfold scaled in *.
  destruct (Z.leb_spec 0 e) as [He|He]; cbn [fst snd] in *.
  - pose proof (Z.pow_pos_nonneg 2 e ltac:(lia) He) as Hp.
    change (2 ^ 52) with (2 ^ 52) in Hnorm.
    change (2 ^ 53) with (2 * 2 ^ 52).
    pose proof (Z.pow_pos_nonneg 2 52 ltac:(lia) ltac:(lia)) as Hp52.
    split; [nia|]. split; [lia|].
    replace (m * 2 ^ e * d - n * 1) with (m * (d * 2 ^ e) - n) by ring.
    nia.
  - pose proof (Z.pow_pos_nonneg 2 (- e) ltac:(lia) ltac:(lia)) as Hp.
    change (2 ^ 53) with (2 * 2 ^ 52).
    pose proof (Z.pow_pos_nonneg 2 52 ltac:(lia) ltac:(lia)) as Hp52.
    split; [nia|]. split; [lia|]. nia.
Qed.

(** The same in rational numbers, where the steps of a computation
    compose by linear arithmetic. *)
Lemma relative_error_Q (n d n' d' : Z) :
  0 < d -> 0 < d' ->
  2 ^ 53 * Z.abs (n' * d - n * d') <= n * d' ->
  ((n # Z.to_pos d) * (9007199254740991 # 9007199254740992)
   <= (n' # Z.to_pos d'))%Q
  /\ ((n' # Z.to_pos d')
      <= (n # Z.to_pos d) * (9007199254740993 # 9007199254740992))%Q.
Proof.
  intros Hd Hd' H. change (2 ^ 53) with 9007199254740992 in H.
  unfold Qle, Qmult. cbn [Qnum Qden].
  rewrite !Pos2Z.inj_mul, !Z2Pos.id by lia.
  split; lia.
Qed.

Lemma Qmake_times_100 (n : Z) (d : positive) :
  (n * 100 # d == (n # d) * 100)%Q.
Proof.
  unfold Qeq, Qmult. cbn [Qnum Qden]. rewrite Pos.mul_1_r. reflexivity.
Qed.

(** [(count / total * 100).round(2)] is within half a hundredth, and the
    little the three roundings add to it, of the exact percentage. *)
Lemma percentage_hundredths_near (c t : Z) :
  0 < c <= t ->
  1000 * Z.abs (percentage_hundredths c t * t - 10000 * c) <= 501 * t.
Proof.
  intros Hc.
  unfold percentage_hundredths, float_rint, float_mul, float_div.
  destruct (nearest_float_error c t) as (Hn1 & Hd1 & He1); [lia|lia|].
  set (x1 := nearest_float c t) in *.
  set (n1 := fst (float_fraction x1)) in *.
  set (d1 := snd (float_fraction x1)) in *.
  destruct (nearest_float_error (n1 * 100) d1) as (Hn2 & Hd2 & He2);
    [lia|lia|].
  set (x2 := nearest_float (n1 * 100) d1) in *.
  set (n2 := fst (float_fraction x2)) in *.
  set (d2 := snd (float_fraction x2)) in *.
  destruct (nearest_float_error (n2 * 100) d2) as (Hn3 & Hd3 & He3);
    [lia|lia|].
  set (x3 := nearest_float (n2 * 100) d2) in *.
  set (n3 := fst (float_fraction x3)) in *.
  set (d3 := snd (float_fraction x3)) in *.
  pose proof (round_half_even_nearest n3 d3 Hd3) as Hh.
  set (h := round_half_even n3 d3) in *.
  apply relative_error_Q in He1, He2, He3; try lia.
  rewrite Qmake_times_100 in He2, He3.
  assert (Hq : (0 < (c # Z.to_pos t))%Q /\ ((c # Z.to_pos t) <= 1)%Q).
  { clear - Hc. unfold Qlt, Qle. cbn [Qnum Qden].
    rewrite Z2Pos.id by lia. lia. }
  assert (Hy : (inject_Z h - (1 # 2) <= (n3 # Z.to_pos d3))%Q
               /\ ((n3 # Z.to_pos d3) <= inject_Z h + (1 # 2))%Q).
  { clear - Hh Hd3. cbv [Qle Qplus Qminus Qopp inject_Z Qnum Qden].
    rewrite !Pos2Z.inj_mul, !Z2Pos.id by lia. lia. }
  assert (Hgoal : (inject_Z h - 10000 * (c # Z.to_pos t) <= (501 # 1000))%Q
                  /\ (- (501 # 1000)
                      <= inject_Z h - 10000 * (c # Z.to_pos t))%Q).
  { set (q := (c # Z.to_pos t)%Q) in *.
    set (v1 := (n1 # Z.to_pos d1)%Q) in *.
    set (v2 := (n2 # Z.to_pos d2)%Q) in *.
    set (y := (n3 # Z.to_pos d3)%Q) in *.
    split; lra. }
  destruct Hgoal as [Hup Hdown]. clear - Hup Hdown Hc.
  cbv [Qle Qplus Qminus Qopp Qmult inject_Z Qnum Qden] in Hup, Hdown.
  rewrite ?Pos2Z.inj_mul, ?Z2Pos.id in Hup, Hdown by lia.
  lia.
Qed.

Lemma percentage_hundredths_range (c t : Z) :
  0 <= c <= t -> 0 < t -> 0 <= percentage_hundredths c t <= 10000.
Proof.
  intros Hc Ht. destruct (Z.eq_dec c 0) as [->|Hne];
    [vm_compute; split; discriminate|].
  pose proof (percentage_hundredths_near c t ltac:(lia)). nia.
Qed.

Lemma percentage_hundredths_near_all (c t : Z) :
  0 <= c <= t -> 0 < t ->
  1000 * Z.abs (percentage_hundredths c t * t - 10000 * c) <= 501 * t.
Proof.
  intros Hc Ht. destruct (Z.eq_dec c 0) as [->|Hne].
  - change (percentage_hundredths 0 t) with 0. lia.
  - apply percentage_hundredths_near. lia.
Qed.

Lemma reads_back_all :
  forallb reads_back (map Z.of_nat (seq 0 (Z.to_nat 10001))) = true.
Proof. vm_compute. reflexivity. Qed.

Lemma parse_percentage_str (h : Z) :
  0 <= h <= 10000 ->
  parse_percentage (str_of_hundredths h ++ "%")%string = Some h.
Proof.
  intros Hh. pose proof reads_back_all as H.
  rewrite forallb_forall in H. specialize (H h).
  unfold reads_back in H.
  destruct (parse_percentage _) as [h'|].
  - f_equal. apply Z.eqb_eq. apply H. apply in_map_iff.
    exists (Z.to_nat h). split; [lia|]. apply in_seq. lia.
  - assert (false = true); [|discriminate]. apply H. apply in_map_iff.
    exists (Z.to_nat h). split; [lia|]. apply in_seq. lia.
Qed.

(** The rounded percentages of counts that add up to [t] add up to a
    hundred, to a little more than half a hundredth per count. *)
Lemma sum_percentages (t : Z) (counts : list Z) :
  0 < t ->
  Forall (fun c => 0 <= c <= t) counts ->
  1000 * Z.abs (t * sum (map (fun c => percentage_hundredths c t) counts)
                - 10000 * sum counts)
  <= 501 * Z.of_nat (List.length counts) * t.
Proof.
  intros Ht. induction 1 as [|c rest Hc Hrest IH].
  - change (1000 * Z.abs (t * 0 - 10000 * 0) <= 501 * 0 * t). lia.
  - rewrite map_cons, !sum_cons. cbn [List.length].
    pose proof (percentage_hundredths_near_all c t Hc Ht) as Hnear.
    rewrite Nat2Z.inj_succ. nia.
Qed.

Lemma sum_upper (x : Z) (l : list Z) :
  (forall y, In y l -> 0 <= y) -> In x l -> x <= sum l.
Proof.
  induction l as [|y rest IH]; intros Hpos []; rewrite sum_cons.
  - subst. assert (0 <= sum rest); [|lia].
    clear IH. induction rest as [|z rest IH]; [reflexivity|].
    rewrite sum_cons.
    assert (0 <= z) by (apply Hpos; right; left; reflexivity).
    assert (0 <= sum rest); [|lia].
    apply IH. intros w [->|Hw]; apply Hpos; simpl; auto.
  - assert (0 <= y) by (apply Hpos; left; reflexivity).
    assert (x <= sum rest); [|lia]. apply IH; [|assumption].
    intros w Hw. apply Hpos. right. exact Hw.
Qed.

Lemma count_nonnegative (cells : list pyval) : 0 <= count cells.
Proof. unfold count. lia. Qed.

Lemma category_rows_of_columns (argsort : list Z -> list nat)
    (df : DataFrame) (categories : list string) (questions : list pyval) :
  column df "Category" = Ok (map PStr categories) ->
  column df "User Question" = Ok questions ->
  category_rows argsort df
  = Ok (sort_values_desc argsort cat_count
          (map (fun kc =>
                  mkCategoryMetric (fst kc) (snd kc)
                    (percentage (snd kc)
                       (sum (map snd (category_counts categories questions)))))
               (category_counts categories questions))).
Proof.
  intros Hc Hq. unfold category_rows. rewrite Hc, Hq. simpl.
  rewrite traverse_str_key. reflexivity.
Qed.

Lemma category_counts_total (categories questions : list string) :
  List.length categories = List.length questions ->
  sum (map snd (category_counts categories (map PStr questions)))
  = Z.of_nat (List.length questions).
Proof.
  intros Hlen. unfold category_counts. rewrite map_map. simpl.
  unfold group_cells.
  rewrite (sum_group_counts _ _ String_as_OT.compare_spec
             String_as_OT.lt_strorder).
  - rewrite filter_all.
    + rewrite length_combine, !length_map. lia.
    + intros (k, v) Hin. pose proof (in_combine_l _ _ _ _ Hin) as Hk.
      apply in_combine_r in Hin. apply in_map_iff in Hk, Hin.
      destruct Hk as (s & <- & _). destruct Hin as (q & <- & _).
      reflexivity.
  - apply (group_keys_NoDup _ _ String_as_OT.compare_spec
             String_as_OT.lt_strorder).
  - intros k v Hin. apply in_combine_l in Hin.
    apply (group_keys_In _ _ String_as_OT.compare_spec). exact Hin.
Qed.

Lemma category_counts_keys (categories : list string)
    (questions : list pyval) :
  map fst (category_counts categories questions)
  = group_keys String_as_OT.compare (map Some categories).
Proof.
  unfold category_counts. rewrite map_map. simpl. apply map_id.
Qed.

Lemma category_counts_at_most_six (questions : list string)
    (cells : list pyval) :
  (List.length
     (category_counts (map analyze_question_category questions) cells)
   <= 6)%nat.
Proof.
  rewrite <- (length_map fst), category_counts_keys.
  change 6%nat with (List.length category_labels).
  apply NoDup_incl_length.
  - apply (group_keys_NoDup _ _ String_as_OT.compare_spec
             String_as_OT.lt_strorder).
  - intros k Hk.
    apply (group_keys_In _ _ String_as_OT.compare_spec) in Hk.
    apply in_map_iff in Hk. destruct Hk as (c & Hc & Hin).
    inversion Hc; subst. apply in_map_iff in Hin.
    destruct Hin as (q & <- & _). apply analyze_question_category_label.
Qed.

Lemma unsorted_category_rows_facts (questions : list string) :
  let t := Z.of_nat (List.length questions) in
  map cat_category (unsorted_category_rows questions)
  = group_keys String_as_OT.compare
      (map Some (map analyze_question_category questions))
  /\ sum (map cat_count (unsorted_category_rows questions)) = t
  /\ (List.length (unsorted_category_rows questions) <= 6)%nat
  /\ Forall (fun r => cat_percentage r = percentage (cat_count r) t
                      /\ 0 <= cat_count r <= t)
            (unsorted_category_rows questions).
Proof.
  intros t. unfold unsorted_category_rows.
  set (cc := category_counts (map analyze_question_category questions)
               (map PStr questions)).
  assert (Htotal : sum (map snd cc) = t).
  { apply category_counts_total. apply length_map. }
  split; [|split; [|split]].
  - rewrite map_map. simpl. apply category_counts_keys.
  - rewrite map_map. simpl. exact Htotal.
  - rewrite length_map. apply category_counts_at_most_six.
  - apply Forall_forall. intros r Hr. apply in_map_iff in Hr.
    destruct Hr as ((k, c) & <- & Hin). simpl. split; [reflexivity|].
    assert (Hc : In c (map snd cc)).
    { apply in_map_iff. exists (k, c). auto. }
    split.
    + unfold cc, category_counts in Hin. apply in_map_iff in Hin.
      destruct Hin as (k' & Hk' & _). inversion Hk'.
      apply count_nonnegative.
    + rewrite <- Htotal. apply sum_upper; [|exact Hc].
      intros y Hy. apply in_map_iff in Hy.
      destruct Hy as ((k', c') & <- & Hy). unfold cc, category_counts in Hy.
      apply in_map_iff in Hy. destruct Hy as (k'' & Hk'' & _).
      inversion Hk''. apply count_nonnegative.
Qed.

Lemma get_category_metrics_run (argsort : list Z -> list nat) (h : store)
    (df : ref) (frame : DataFrame) (questions : list string) :
  read h df = Some frame ->
  column frame "User Question" = Ok (map PStr questions) ->
  questions <> [] ->
  get_category_metrics argsort df h
  = (Ok (List.length h, df),
     write h df (set_column frame "Category"
                   (map PStr (map analyze_question_category questions)))
     ++ [category_frame
           (sort_values_desc argsort cat_count
              (unsorted_category_rows questions))]).
Proof.
  intros Hr Hq Hne. unfold get_category_metrics. rewrite Hr, Hq.
  assert (Hfloat : 250 < float_overflow * Z.of_nat (List.length questions)).
  { pose proof float_overflow_large.
    destruct questions; [congruence|]. cbn [List.length]. nia. }
  destruct (analyze_batch_questions_last questions 250 ltac:(lia) Hne Hfloat)
    as (earlier & y & -> & Hall & _ & _).
  rewrite final_categories_last, Hall.
  rewrite (category_rows_of_columns argsort _
             (map analyze_question_category questions) (map PStr questions)).
  - rewrite category_counts_total by apply length_map.
    unfold alloc. rewrite length_write. reflexivity.
  - unfold column. rewrite lookup_set_column. reflexivity.
  - unfold column in Hq |- *. rewrite lookup_set_column_other; [exact Hq|].
    discriminate.
Qed.

Lemma Forall2_map_right {A B} (P : A -> B -> Prop) (f : A -> B)
    (l : list A) :
  Forall (fun a => P a (f a)) l -> Forall2 P l (map f l).
Proof.
  induction 1; simpl; constructor; assumption.
Qed.

(** C7, as the code has it.  On a frame whose questions are strings, at
    least one, whatever the order in which numpy's sort leaves equal keys,
    the category aggregator writes the categories to the frame and returns
    a new table with one row per category present; the counts do not
    increase from a row to the next and add up to the number of questions;
    every percentage is a number of hundredths between 0 and 100.00,
    written as Python writes a float (one decimal when the second is a
    zero, two otherwise) and followed by a percent sign, so it reads back
    as that number; it is within 0.00501 of the count's exact share of the
    total, in percent; the percentages read back add up to a hundred to
    within 0.03. *)
Theorem category_metrics_counts_and_percentages
    (argsort : list Z -> list nat) (h : store) (df : ref)
    (frame : DataFrame) (questions : list string) :
  sorts argsort ->
  read h df = Some frame ->
  column frame "User Question" = Ok (map PStr questions) ->
  questions <> [] ->
  exists rows,
    get_category_metrics argsort df h
    = (Ok (List.length h, df),
       write h df (set_column frame "Category"
                     (map PStr (map analyze_question_category questions)))
       ++ [category_frame rows])
    /\ NoDup (map cat_category rows)
    /\ (forall c, In c (map cat_category rows)
                  <-> In c (map analyze_question_category questions))
    /\ StronglySorted (fun a b => cat_count b <= cat_count a) rows
    /\ sum (map cat_count rows) = Z.of_nat (List.length questions)
    /\ exists hundredths,
         map (fun r => parse_percentage (cat_percentage r)) rows
         = map Some hundredths
         /\ Forall2
              (fun r p =>
                 0 <= p <= 10000
                 /\ cat_percentage r = (str_of_hundredths p ++ "%")%string
                 /\ 1000 * Z.abs (p * Z.of_nat (List.length questions)
                                  - 10000 * cat_count r)
                    <= 501 * Z.of_nat (List.length questions))
              rows hundredths
         /\ Z.abs (sum hundredths - 10000) <= 3.
Proof.
  intros Hsorts Hr Hq Hne.
  set (t := Z.of_nat (List.length questions)).
  assert (Ht : 0 < t).
  { unfold t. destruct questions; [congruence | simpl; lia]. }
  destruct (unsorted_category_rows_facts questions)
    as (Hkeys & Hsum & Hsix & Hrows). fold t in Hsum, Hrows.
  pose proof (sort_values_desc_permutation argsort cat_count Hsorts
                (unsorted_category_rows questions)) as Hperm.
  set (rows := sort_values_desc argsort cat_count
                 (unsorted_category_rows questions)) in *.
  assert (Hrows' : Forall (fun r => cat_percentage r
                                    = percentage (cat_count r) t
                                    /\ 0 <= cat_count r <= t) rows).
  { apply Forall_forall. intros r Hin. rewrite Forall_forall in Hrows.
    apply Hrows. eapply Permutation_in; [exact Hperm | exact Hin]. }
  exists rows. split; [|split; [|split; [|split; [|split]]]].
  - apply get_category_metrics_run; assumption.
  - apply (Permutation_NoDup
             (l := map cat_category (unsorted_category_rows questions))).
    + apply Permutation_map. symmetry. exact Hperm.
    + rewrite Hkeys.
      apply (group_keys_NoDup _ _ String_as_OT.compare_spec
               String_as_OT.lt_strorder).
  - intros c.
    assert (Hin : In c (map cat_category rows)
                  <-> In c (map cat_category
                              (unsorted_category_rows questions))).
    { split; apply Permutation_in, Permutation_map;
        [exact Hperm | symmetry; exact Hperm]. }
    rewrite Hin, Hkeys.
    rewrite (group_keys_In _ _ String_as_OT.compare_spec).
    rewrite (in_map_iff Some). split.
    + intros (x & Hx & Hx'). inversion Hx. subst. exact Hx'.
    + intros Hc. exists c. auto.
  - apply (sort_values_desc_sorted argsort cat_count Hsorts).
  - rewrite (sum_permutation _ _ (Permutation_map cat_count Hperm)).
    exact Hsum.
  - exists (map (fun r => percentage_hundredths (cat_count r) t) rows).
    split; [|split].
    + rewrite map_map. apply map_ext_in. intros r Hin.
      rewrite Forall_forall in Hrows'. destruct (Hrows' r Hin) as (-> & Hc).
      apply parse_percentage_str, percentage_hundredths_range; assumption.
    + apply Forall2_map_right. apply Forall_forall. intros r Hin.
      rewrite Forall_forall in Hrows'. destruct (Hrows' r Hin) as (Hp & Hc).
      split; [apply percentage_hundredths_range; assumption|].
      split; [rewrite Hp; reflexivity|].
      apply percentage_hundredths_near_all; assumption.
    + rewrite <- (map_map cat_count (fun c => percentage_hundredths c t)).
      rewrite (sum_permutation _ _
                 (Permutation_map _ (Permutation_map cat_count Hperm))).
      pose proof (sum_percentages t
                    (map cat_count (unsorted_category_rows questions)) Ht)
        as Hbound.
      rewrite Hsum, length_map in Hbound.
      assert (Hall : Forall (fun c => 0 <= c <= t)
                       (map cat_count (unsorted_category_rows questions))).
      { apply Forall_map. eapply Forall_impl; [|exact Hrows].
        intros r (_ & Hc). exact Hc. }
      specialize (Hbound Hall). nia.
Qed.

Lemma category_metrics_counts_and_percentages_witness :
  exists rows,
    get_category_metrics Examples.stable_argsort 0%nat
      [Examples.table_of_document]
    = (Ok (1%nat, 0%nat),
       write [Examples.table_of_document] 0%nat
         (set_column Examples.table_of_document "Category"
            (map PStr (map analyze_question_category
                         ["What is Atlan?"; "How to use Atlan connectors";
                          "hello"])))
       ++ [category_frame rows])
    /\ NoDup (map cat_category rows)
    /\ (forall c, In c (map cat_category rows)
                  <-> In c (map analyze_question_category
                              ["What is Atlan?"; "How to use Atlan connectors";
                               "hello"]))
    /\ StronglySorted (fun a b => cat_count b <= cat_count a) rows
    /\ sum (map cat_count rows) = Z.of_nat 3
    /\ exists hundredths,
         map (fun r => parse_percentage (cat_percentage r)) rows
         = map Some hundredths
         /\ Forall2
              (fun r p =>
                 0 <= p <= 10000
                 /\ cat_percentage r = (str_of_hundredths p ++ "%")%string
                 /\ 1000 * Z.abs (p * Z.of_nat 3 - 10000 * cat_count r)
                    <= 501 * Z.of_nat 3)
              rows hundredths
         /\ Z.abs (sum hundredths - 10000) <= 3.
Proof.
  apply (category_metrics_counts_and_percentages Examples.stable_argsort
           [Examples.table_of_document] 0%nat Examples.table_of_document
           ["What is Atlan?"; "How to use Atlan connectors"; "hello"]).
  - exact stable_argsort_sorts.
  - reflexivity.
  - reflexivity.
  - discriminate.
Defined.

(** C7 as stated fails on the shape of the percentages: a table with one
    question has one category, whose percentage is written "100.0%", with
    one decimal. *)
Lemma percentage_with_one_decimal :
  exists out h',
    get_category_metrics Examples.stable_argsort 0%nat
      [Examples.one_row_table] = (Ok out, h')
    /\ read h' (fst out)
       = Some [("Category", [PStr "Others"]); ("Count", [PInt 1]);
               ("Percentage", [PStr "100.0%"])]
    /\ two_decimals "100.0%" = false
    /\ parse_percentage "100.0%" = Some 10000.
Proof.
  eexists. eexists. split; [vm_compute; reflexivity|].
  repeat split.
Qed.

(** The share of 46 questions in 320 is 14.375 percent; the floats of the
    computation are a little below it at every step, and the percentage is
    written 14.37. *)
Lemma percentage_of_46_in_320 : percentage 46 320 = "14.37%".
Proof. vm_compute. reflexivity. Qed.

(** ** Documents on which the flattener returns *)

Lemma collect_with_country (conversation : pyval) (fd : string)
    (resp score country : pyval) (messages : list pyval) :
  getitem conversation "country" = Ok country ->
  forallb is_dict messages = true ->
  forall details,
    exists out,
      collect_user_questions conversation fd resp score messages details
      = Ok out.
Proof.
  intros Hc. induction messages as [|m rest IH]; simpl; intros Hd details;
    [eauto|].
  apply andb_true_iff in Hd. destruct Hd as (Hm & Hrest).
  destruct m; try discriminate. simpl.
  destruct (lookup "role" entries) as [role|]; simpl; [|auto].
  destruct (eq_str role "user"); [|auto].
  destruct (lookup "content" entries); simpl; rewrite Hc; simpl; auto.
Qed.

Lemma well_formed_conversation_no_error (conversation : pyval) :
  well_formed_conversation conversation = true ->
  conversation_error conversation = None.
Proof.
  unfold well_formed_conversation, conversation_error, process_conversation.
  destruct conversation; try discriminate.
  destruct (lookup "created_at" entries) as [[| | | |s| | |]|] eqn:Hc;
    try discriminate.
  destruct (lookup "messages" entries) as [[| | | | |ms| |]|] eqn:Hm;
    try discriminate.
  destruct (lookup "country" entries) as [country|] eqn:Hco;
    try discriminate.
  intros H. apply andb_true_iff in H. destruct H as (Ht & Hd).
  unfold getitem at 1. rewrite Hc. simpl.
  destruct (strptime (before_plus s)) as [dt|]; [|discriminate]. simpl.
  rewrite Hm. simpl.
  destruct (find_last_assistant_dicts _ Hd (PNone, PStr "N/A"))
    as ((resp, score) & ->). simpl.
  destruct (collect_with_country (PDict entries) (strftime dt) resp score
              country ms) with (details := @nil QuestionRow) as (out & ->).
  - simpl. rewrite Hco. reflexivity.
  - exact Hd.
  - reflexivity.
Qed.

(** X1. A document whose conversations each have a timestamp that parses,
    a country and a list of dicts as messages is flattened without an
    exception. *)
Theorem well_formed_document_flattens (data : pyval) :
  well_formed_document data = true ->
  exists df, process_conversations data = Ok df.
Proof.
  unfold well_formed_document, process_conversations, flatten.
  destruct data; try discriminate. simpl.
  destruct (lookup "conversations" entries) as [[| | | | |cs| |]|];
    try discriminate.
  intros H. simpl.
  assert (Hnone : first_error cs = None).
  { induction cs as [|c rest IH]; simpl in *; [reflexivity|].
    apply andb_true_iff in H. destruct H as (Hc & Hrest).
    rewrite (well_formed_conversation_no_error c Hc). auto. }
  pose proof (process_loop_status cs []) as Hs. rewrite Hnone in Hs.
  destruct (process_loop cs []) as [rows|e]; [|discriminate].
  simpl. eauto.
Qed.

Lemma well_formed_document_flattens_witness :
  exists df, process_conversations Examples.document = Ok df.
Proof.
  apply (well_formed_document_flattens Examples.document).
  vm_compute. reflexivity.
Defined.

(** X2. The classifier returns one of the six labels on every string, and
    "Others" on the empty string. *)
Theorem classifier_returns_a_label :
  (forall question,
      In (analyze_question_category question) category_labels)
  /\ analyze_question_category "" = "Others".
Proof.
  split; [apply analyze_question_category_label | reflexivity].
Qed.

(** ** More on the flattener: what a row holds *)

(** X3. Whenever the flattener returns a table, the block of a conversation
    holds, in document order, the contents of its user messages ([None]
    for a user message without content) as questions, and every row of the
    block holds the value of the conversation's [country] key. *)
Theorem rows_carry_question_and_country (data : pyval) (df : DataFrame) :
  process_conversations data = Ok df ->
  exists blocks,
    df = DataFrame_of_records (List.concat blocks)
    /\ Forall2
         (fun conversation block =>
            map User_Question block
            = map (fun m => field m "content" PNone)
                  (filter is_user (messages_of conversation))
            /\ forall r, In r block ->
                 getitem conversation "country" = Ok (Country r))
         (conversations_of data) blocks.
Proof.
  intros H. apply process_conversations_spec in H.
  destruct H as (blocks & -> & _ & Hall).
  exists blocks. split; [reflexivity|].
  eapply Forall2_impl; [|exact Hall].
  intros c b (_ & Hq & dt & _ & Hrows). split; [exact Hq|].
  intros r Hr. rewrite Forall_forall in Hrows.
  destruct (Hrows r Hr) as (_ & _ & Hc). exact Hc.
Qed.

Lemma rows_carry_question_and_country_witness :
  exists blocks,
    Examples.table_of_document = DataFrame_of_records (List.concat blocks)
    /\ Forall2
         (fun conversation block =>
            map User_Question block
            = map (fun m => field m "content" PNone)
                  (filter is_user (messages_of conversation))
            /\ forall r, In r block ->
                 getitem conversation "country" = Ok (Country r))
         (conversations_of Examples.document) blocks.
Proof.
  apply (rows_carry_question_and_country Examples.document).
  vm_compute. reflexivity.
Defined.

(** ** More on the batch driver: every tuple, and failures *)

Lemma nth_error_map_seq {A} (f : nat -> A) (n k : nat) (y : A) :
  nth_error (map f (seq 0 n)) k = Some y -> (k < n)%nat /\ y = f k.
Proof.
  intros H.
  assert (Hk : (k < n)%nat).
  { assert (Hl : (k < List.length (map f (seq 0 n)))%nat)
      by (apply nth_error_Some; congruence).
    rewrite length_map, length_seq in Hl. exact Hl. }
  split; [exact Hk|].
  rewrite nth_error_map, nth_error_seq in H.
  destruct (Nat.ltb_spec k n); [|lia]. simpl in H. congruence.
Qed.

(** X4. For a list of question strings and a batch size of at least one,
    the tuple number [k] (from zero) that the driver yields carries the
    classification of the first [min ((k + 1) * batch_size) len]
    questions, and its count of processed items is that number, which is
    the length of its list of categories. *)
Theorem every_tuple_is_a_prefix (questions : list string) (batch_size : Z)
    (k : nat) (y : Progress) :
  1 <= batch_size ->
  nth_error (fst (analyze_batch_questions (map PStr questions) batch_size)) k
    = Some y ->
  all_categories_so_far y
  = map analyze_question_category
      (firstn (S k * Z.to_nat batch_size) questions)
  /\ items_processed y
     = Z.min (Z.of_nat (S k) * batch_size)
             (Z.of_nat (List.length questions))
  /\ items_processed y = Z.of_nat (List.length (all_categories_so_far y)).
Proof.
  intros Hb Hy.
  assert (Hcases :
            (questions <> [] ->
             batch_size < float_overflow * Z.of_nat (List.length questions))
            \/ (questions <> []
                /\ float_overflow * Z.of_nat (List.length questions)
                   <= batch_size)).
  { destruct questions as [|q rest]; [left; congruence|].
    destruct (Z.lt_ge_cases batch_size
                (float_overflow * Z.of_nat (List.length (q :: rest))));
      [left; auto | right; split; [discriminate | assumption]]. }
  destruct Hcases as [Hfloat|[Hne Hfloat]];
    [|rewrite analyze_batch_questions_overflows in Hy by assumption;
      destruct k; discriminate].
  rewrite analyze_batch_questions_closed_form in Hy by assumption.
  simpl in Hy. apply nth_error_map_seq in Hy. destruct Hy as (Hk & ->).
  set (b := Z.to_nat batch_size) in *.
  assert (Hb' : (0 < b)%nat) by (unfold b; lia).
  pose proof (chunk_starts_inside _ _ _ Hb' Hk) as Hin.
  unfold nth_progress. simpl all_categories_so_far. simpl items_processed.
  fold b. split; [reflexivity|].
  rewrite length_map, length_firstn.
  replace batch_size with (Z.of_nat b) by (unfold b; lia).
  split; nia.
Qed.

Lemma every_tuple_is_a_prefix_witness :
  all_categories_so_far
    (mkProgress (2 # 3) 2 ["What is / Define (Branded)"; "Others"])
  = map analyze_question_category
      (firstn (1 * Z.to_nat 2) ["What is Atlan?"; "hello"; "Atlan pricing"])
  /\ items_processed
       (mkProgress (2 # 3) 2 ["What is / Define (Branded)"; "Others"])
     = Z.min (Z.of_nat 1 * 2) (Z.of_nat 3)
  /\ items_processed
       (mkProgress (2 # 3) 2 ["What is / Define (Branded)"; "Others"])
     = Z.of_nat (List.length
         (all_categories_so_far
            (mkProgress (2 # 3) 2 ["What is / Define (Branded)"; "Others"]))).
Proof.
  apply (every_tuple_is_a_prefix
           ["What is Atlan?"; "hello"; "Atlan pricing"] 2 0%nat).
  - lia.
  - vm_compute. reflexivity.
Defined.

Lemma traverse_classify_outcome (questions : list pyval) :
  match traverse classify questions with
  | Ok _ => forallb is_str questions = true
  | Raise e => e = RetryError
  end.
Proof.
  induction questions as [|q rest IH]; simpl; [reflexivity|].
  destruct q; simpl; try reflexivity.
  destruct (traverse classify rest); simpl; exact IH.
Qed.

Lemma In_slice {A} (l : list A) (i start size : nat) (x : A) :
  nth_error l i = Some x -> (start <= i < start + size)%nat ->
  In x (slice l start (start + size)).
Proof.
  intros Hx Hi. unfold slice.
  replace (start + size - start)%nat with size by lia.
  apply (nth_error_In _ (i - start)).
  rewrite nth_error_firstn.
  destruct (Nat.ltb_spec (i - start) size); [|lia].
  rewrite nth_error_skipn.
  replace (start + (i - start))%nat with i by lia. exact Hx.
Qed.

Lemma batch_loop_raises (questions : list pyval) (batch_size : nat) :
  (0 < batch_size)%nat ->
  forall chunks first all_categories,
    (exists i q,
        (first * batch_size <= i < (first + chunks) * batch_size)%nat
        /\ nth_error questions i = Some q /\ is_str q = false) ->
    snd (batch_loop questions batch_size
           (map (fun k => (k * batch_size)%nat) (seq first chunks))
           all_categories)
    = Raised RetryError.
Proof.
  intros Hb. induction chunks as [|chunks IH];
    intros first acc (i & q & Hi & Hq & Hs).
  - lia.
  - simpl.
    pose proof (traverse_classify_outcome
                  (slice questions (first * batch_size)
                     (first * batch_size + batch_size))) as Hout.
    destruct (traverse classify _) as [cats|e]; [|subst e; reflexivity].
    rewrite forallb_forall in Hout.
    assert (Hnext : (S first * batch_size <= i)%nat).
    { destruct (Nat.le_gt_cases (S first * batch_size) i) as [|Hlt];
        [assumption|].
      assert (Hin : In q (slice questions (first * batch_size)
                            (first * batch_size + batch_size))).
      { eapply In_slice; [exact Hq|]. simpl in Hlt. lia. }
      apply Hout in Hin. congruence. }
    assert (Hfloat : true_divide_overflows
                       (Z.of_nat (first * batch_size + batch_size))
                       (Z.of_nat (List.length questions)) = false).
    { assert (Hlt : (i < List.length questions)%nat)
        by (apply nth_error_Some; congruence).
      pose proof float_overflow_large.
      unfold true_divide_overflows. apply Z.leb_gt. simpl in Hnext. nia. }
    rewrite Hfloat.
    specialize (IH (S first) (acc ++ cats)).
    destruct (batch_loop questions batch_size _ (acc ++ cats)) as (ys, e).
    simpl in IH |- *. apply IH. exists i, q.
    split; [|auto]. simpl in *. lia.
Qed.

(** X5. When some cell of the question column is not a string (as for a
    user message without content), the batch driver, for any batch size of
    at least one, ends with the [RetryError] of the [retry] decorator and
    never completes; the category aggregator then raises that error, and
    the store, its input frame included, is as it was. *)
Theorem question_without_text_fails_categories
    (argsort : list Z -> list nat) (h : store) (df : ref)
    (frame : DataFrame) (questions : list pyval) (batch_size : Z) :
  read h df = Some frame ->
  column frame "User Question" = Ok questions ->
  existsb (fun q => negb (is_str q)) questions = true ->
  1 <= batch_size ->
  snd (analyze_batch_questions questions batch_size) = Raised RetryError
  /\ get_category_metrics argsort df h = (Raise RetryError, h).
Proof.
  intros Hr Hq Hbad Hb.
  assert (Hdriver : forall b, 1 <= b ->
            snd (analyze_batch_questions questions b) = Raised RetryError).
  { intros b Hb'. unfold analyze_batch_questions.
    destruct (Z.eqb_spec b 0); [lia|].
    destruct (Z.ltb_spec b 0); [lia|].
    unfold py_range. apply batch_loop_raises; [lia|].
    apply existsb_exists in Hbad. destruct Hbad as (q & Hin & Hs).
    apply In_nth_error in Hin. destruct Hin as (i & Hi).
    exists i, q. split; [|split; [exact Hi|]].
    - assert (Hlt : (i < List.length questions)%nat)
        by (apply nth_error_Some; congruence).
      pose proof (chunks_cover (List.length questions) (Z.to_nat b)
                    ltac:(lia)).
      simpl. lia.
    - destruct (is_str q); [discriminate | reflexivity]. }
  split; [apply Hdriver, Hb|].
  unfold get_category_metrics. rewrite Hr, Hq.
  specialize (Hdriver 250 ltac:(lia)).
  destruct (analyze_batch_questions questions 250) as (yields, e).
  simpl in Hdriver. subst e. reflexivity.
Qed.

Lemma question_without_text_fails_categories_witness :
  snd (analyze_batch_questions [PStr "hello"; PStr "hello"; PNone] 2)
  = Raised RetryError
  /\ get_category_metrics Examples.stable_argsort 0%nat
       [Examples.table_with_tie]
     = (Raise RetryError, [Examples.table_with_tie]).
Proof.
  apply (question_without_text_fails_categories Examples.stable_argsort
           [Examples.table_with_tie] 0%nat Examples.table_with_tie
           [PStr "hello"; PStr "hello"; PNone] 2).
  - reflexivity.
  - reflexivity.
  - reflexivity.
  - lia.
Defined.

(** X6. On a frame without a [User Question] column the category
    aggregator raises [KeyError] and changes nothing.  On a frame whose
    [User Question] column has no row the driver yields nothing, the frame
    gets a [Category] column without a row, and the metrics returned are a
    new table without a row. *)
Theorem category_metrics_without_questions (argsort : list Z -> list nat)
    (h : store) (df : ref) (frame : DataFrame) :
  read h df = Some frame ->
  (lookup "User Question" frame = None ->
   get_category_metrics argsort df h = (Raise (KeyError "User Question"), h))
  /\ (lookup "User Question" frame = Some [] ->
      get_category_metrics argsort df h
      = (Ok (List.length h, df),
         write h df (set_column frame "Category" [])
         ++ [category_frame []])).
Proof.
  intros Hr. split; intros Hq; unfold get_category_metrics, column;
    rewrite Hr, Hq; [reflexivity|].
  change (analyze_batch_questions [] 250) with (@nil Progress, Exhausted).
  cbn [final_categories map last repeat List.length].
  unfold category_rows, column.
  rewrite lookup_set_column.
  rewrite lookup_set_column_other by discriminate. rewrite Hq.
  cbn [bind traverse map group_keys fold_right sum].
  unfold sort_values_desc. cbn [rev map]. rewrite take_rows_nil.
  cbn [rev alloc]. unfold alloc. rewrite length_write. reflexivity.
Qed.

Lemma category_metrics_without_questions_witness :
  (lookup "User Question" Examples.table_without_rows = None ->
   get_category_metrics Examples.stable_argsort 0%nat
     [Examples.table_without_rows]
   = (Raise (KeyError "User Question"), [Examples.table_without_rows]))
  /\ (lookup "User Question" Examples.table_without_rows = Some [] ->
      get_category_metrics Examples.stable_argsort 0%nat
        [Examples.table_without_rows]
      = (Ok (1%nat, 0%nat),
         write [Examples.table_without_rows] 0%nat
           (set_column Examples.table_without_rows "Category" [])
         ++ [category_frame []])).
Proof.
  apply (category_metrics_without_questions Examples.stable_argsort
           [Examples.table_without_rows] 0%nat Examples.table_without_rows).
  reflexivity.
Defined.

(** ** More on the classifier *)

Lemma lower_upper_char (c : ascii) :
  lower_char (upper_char c) = lower_char c.
Proof.
  destruct c as [[] [] [] [] [] [] [] []]; reflexivity.
Qed.

Lemma lower_lower_char (c : ascii) :
  lower_char (lower_char c) = lower_char c.
Proof.
  destruct c as [[] [] [] [] [] [] [] []]; reflexivity.
Qed.

Lemma lower_upper (s : string) : lower (upper s) = lower s.
Proof.
  induction s as [|c rest IH]; simpl; [reflexivity|].
  rewrite lower_upper_char, IH. reflexivity.
Qed.

Lemma lower_lower (s : string) : lower (lower s) = lower s.
Proof.
  induction s as [|c rest IH]; simpl; [reflexivity|].
  rewrite lower_lower_char, IH. reflexivity.
Qed.

(** X7. The label depends on three tests of the lowered question, in this
    order of precedence: it is one of the three branded labels exactly
    when the question contains "atlan"; it is a "What is / Define" label
    exactly when the question contains one of the five definition words,
    whatever else it contains; and, when it contains none of these, it is
    a "FAQ / How to" label exactly when it contains one of the five how-to
    words. *)
Theorem classifier_precedence (question : string) :
  (contains "atlan" (lower question) = true
   <-> In (analyze_question_category question)
          ["What is / Define (Branded)"; "FAQ / How to (Branded)";
           "Branded"])
  /\ (any_word_in define_words (lower question) = true
      <-> In (analyze_question_category question)
             ["What is / Define (Branded)";
              "What is / Define (Non branded)"])
  /\ (any_word_in define_words (lower question) = false ->
      (any_word_in howto_words (lower question) = true
       <-> In (analyze_question_category question)
              ["FAQ / How to (Branded)";
               "FAQ / How to Type (Non branded)"])).
Proof.
  unfold analyze_question_category.
  destruct (contains "atlan" (lower question));
    destruct (any_word_in define_words (lower question));
    destruct (any_word_in howto_words (lower question));
    simpl; repeat split; intros; try discriminate; auto;
    repeat match goal with
           | H : _ \/ _ |- _ => destruct H
           | H : False |- _ => destruct H
           | H : _ = _ |- _ => discriminate H
           end.
Qed.

(** X8. On a question made of ASCII characters the label does not depend
    on the case of the letters: the question in upper case and the
    question in lower case get the label of the question itself. *)
Theorem classifier_ignores_case (question : string) :
  is_ascii question = true ->
  analyze_question_category (upper question)
  = analyze_question_category question
  /\ analyze_question_category (lower question)
     = analyze_question_category question.
Proof.
  intros _. unfold analyze_question_category.
  rewrite lower_upper, lower_lower. split; reflexivity.
Qed.

Lemma classifier_ignores_case_witness :
  analyze_question_category (upper "How do I set up Atlan?")
  = analyze_question_category "How do I set up Atlan?"
  /\ analyze_question_category (lower "How do I set up Atlan?")
     = analyze_question_category "How do I set up Atlan?".
Proof.
  apply (classifier_ignores_case "How do I set up Atlan?").
  reflexivity.
Defined.

(** ** Timestamps: the display format read back, and what follows the
    seconds *)

Lemma digit_digit_char (d : Z) : digit (digit_char d) = Some (d mod 10).
Proof.
  unfold digit, digit_char.
  pose proof (Z.mod_pos_bound d 10 ltac:(lia)) as Hd.
  rewrite N_ascii_embedding by lia.
  rewrite Z2N.id by lia.
  destruct (Z.leb_spec 48 (48 + d mod 10)); [|lia].
  destruct (Z.leb_spec (48 + d mod 10) 57); [|lia].
  cbn [andb]. f_equal. lia.
Qed.

Lemma two_digits_pad2 (n : Z) (rest : string) :
  0 <= n < 100 -> two_digits (pad2 n ++ rest)%string = Some (n, rest).
Proof.
  intros Hn. unfold pad2, two_digits. cbn [append].
  rewrite !digit_digit_char.
  rewrite (Z.mod_small (n / 10) 10)
    by (split; [apply Z.div_pos | apply Z.div_lt_upper_bound]; lia).
  pose proof (Z.div_mod n 10 ltac:(lia)) as Hdiv.
  replace (10 * (n / 10) + n mod 10) with n by lia. reflexivity.
Qed.

Lemma directive_Y_str_of_int (y : Z) (rest : string) :
  1000 <= y <= 9999 ->
  directive_Y (str_of_int y ++ rest)%string = Some (y, rest).
Proof.
  intros Hy. rewrite str_of_int_four by exact Hy.
  unfold directive_Y. cbn [append].
  rewrite !digit_digit_char.
  replace (1000 * ((y / 1000) mod 10) + 100 * ((y / 100) mod 10)
           + 10 * ((y / 10) mod 10) + y mod 10) with y; [reflexivity|].
  pose proof (Z.div_mod y 10 ltac:(lia)).
  pose proof (Z.div_mod (y / 10) 10 ltac:(lia)).
  pose proof (Z.div_mod (y / 10 / 10) 10 ltac:(lia)).
  assert (y / 10 / 10 / 10 < 10)
    by (rewrite !Z.div_div by lia; apply Z.div_lt_upper_bound; lia).
  assert (0 <= y / 10 / 10 / 10)
    by (rewrite !Z.div_div by lia; apply Z.div_pos; lia).
  replace (y / 1000) with (y / 10 / 10 / 10)
    by (rewrite !Z.div_div by lia; reflexivity).
  replace (y / 100) with (y / 10 / 10)
    by (rewrite !Z.div_div by lia; reflexivity).
  rewrite (Z.mod_small (y / 10 / 10 / 10) 10) by lia. lia.
Qed.

Lemma directive_B_month_name (m : Z) (rest : string) :
  1 <= m <= 12 ->
  directive_B_from 1 month_names (month_name m ++ rest)%string
  = Some (m, rest).
Proof.
  intros Hm.
  assert (H : m = 1 \/ m = 2 \/ m = 3 \/ m = 4 \/ m = 5 \/ m = 6 \/ m = 7
              \/ m = 8 \/ m = 9 \/ m = 10 \/ m = 11 \/ m = 12) by lia.
  repeat (destruct H as [->|H]; [reflexivity|]). subst. reflexivity.
Qed.

Lemma literal_same (c : ascii) (rest : string) :
  literal c (String c rest) = Some (tt, rest).
Proof. unfold literal. rewrite Ascii.eqb_refl. reflexivity. Qed.

Lemma strptime_valid (s : string) (dt : datetime) :
  strptime s = Ok dt ->
  valid_date (dt_year dt) (dt_month dt) (dt_day dt) = true
  /\ valid_time (dt_hour dt) (dt_minute dt) (dt_second dt) = true.
Proof.
  unfold strptime. intros H.
  match type of H with
  | context [match ?x with _ => _ end] => destruct x as [[dt' [|]]|]
  end; try discriminate.
  destruct (valid_date _ _ _ && valid_time _ _ _) eqn:E; [|discriminate].
  inversion H; subst dt'. apply andb_true_iff in E. exact E.
Qed.

(** What the fields of a timestamp that exists are between. *)
Lemma valid_fields (dt : datetime) :
  valid_date (dt_year dt) (dt_month dt) (dt_day dt) = true ->
  valid_time (dt_hour dt) (dt_minute dt) (dt_second dt) = true ->
  1 <= dt_year dt <= 9999 /\ 1 <= dt_month dt <= 12
  /\ 1 <= dt_day dt <= 31 /\ 0 <= dt_hour dt <= 23
  /\ 0 <= dt_minute dt <= 59 /\ 0 <= dt_second dt <= 59.
Proof.
  intros Hd Ht. unfold valid_date, valid_time in Hd, Ht.
  repeat match goal with
         | H : _ && _ = true |- _ => apply andb_true_iff in H; destruct H
         | H : (_ <=? _) = true |- _ => apply Z.leb_le in H
         end.
  assert (dt_day dt <= 31).
  { unfold days_in_month in *.
    repeat match goal with
           | H : context [if ?b then _ else _] |- _ => destruct b
           end; lia. }
  lia.
Qed.

(** The timestamps pandas holds are of the years 1677 to 2262. *)
Lemma in_bounds_year (dt : datetime) :
  valid_date (dt_year dt) (dt_month dt) (dt_day dt) = true ->
  valid_time (dt_hour dt) (dt_minute dt) (dt_second dt) = true ->
  in_bounds dt = true -> 1677 <= dt_year dt <= 2262.
Proof.
  intros Hd Ht Hb. pose proof (valid_fields dt Hd Ht) as Hf.
  unfold in_bounds in Hb. apply andb_true_iff in Hb. destruct Hb as [H1 H2].
  apply Z.leb_le in H1, H2. unfold timestamp_key in H1, H2.
  cbn [Timestamp_min Timestamp_max dt_year dt_month dt_day dt_hour
       dt_minute dt_second] in H1, H2.
  lia.
Qed.

Lemma parse_display_datetime_strftime (dt : datetime) :
  valid_date (dt_year dt) (dt_month dt) (dt_day dt) = true ->
  valid_time (dt_hour dt) (dt_minute dt) (dt_second dt) = true ->
  1000 <= dt_year dt ->
  parse_display_datetime (strftime dt)
  = Some (mkDatetime (dt_year dt) (dt_month dt) (dt_day dt)
            (dt_hour dt) (dt_minute dt) (dt_second dt) 0).
Proof.
  intros Hd Ht Hy. pose proof (valid_fields dt Hd Ht) as Hf.
  change (strftime dt)
    with (month_name (dt_month dt) ++ String " " (pad2 (dt_day dt)
          ++ String "," (String " " (str_of_int (dt_year dt)
          ++ String " " (pad2 (dt_hour dt)
          ++ String ":" (pad2 (dt_minute dt)
          ++ String ":" (pad2 (dt_second dt) ++ "")))))))%string.
  unfold parse_display_datetime, pthen.
  rewrite directive_B_month_name by lia. cbv beta iota.
  rewrite literal_same. cbv beta iota.
  rewrite two_digits_pad2 by lia. cbv beta iota.
  rewrite !literal_same. cbv beta iota.
  rewrite directive_Y_str_of_int by lia. cbv beta iota.
  rewrite literal_same. cbv beta iota.
  rewrite two_digits_pad2 by lia. cbv beta iota.
  rewrite literal_same. cbv beta iota.
  rewrite two_digits_pad2 by lia. cbv beta iota.
  rewrite literal_same. cbv beta iota.
  rewrite two_digits_pad2 by lia. cbv beta iota.
  simpl dt_year. simpl dt_month. simpl dt_day. simpl dt_hour.
  simpl dt_minute. simpl dt_second.
  rewrite Hd, Ht. reflexivity.
Qed.

(** [pd.to_datetime] on what the flattener writes for a timestamp of the
    year 1000 or later: the timestamp to the second when pandas can hold
    it, [OutOfBoundsDatetime] otherwise. *)
Lemma to_datetime_strftime (dt : datetime) :
  valid_date (dt_year dt) (dt_month dt) (dt_day dt) = true ->
  valid_time (dt_hour dt) (dt_minute dt) (dt_second dt) = true ->
  1000 <= dt_year dt ->
  to_datetime (PStr (strftime dt))
  = if in_bounds dt
    then Ok (mkDatetime (dt_year dt) (dt_month dt) (dt_day dt)
               (dt_hour dt) (dt_minute dt) (dt_second dt) 0)
    else Raise OutOfBoundsDatetime.
Proof.
  intros Hd Ht Hy. unfold to_datetime.
  rewrite (parse_display_datetime_strftime dt Hd Ht Hy). reflexivity.
Qed.

(** X9. Whenever the flattener returns a table, the [Asked at] of every row
    of a conversation whose [created_at] is a timestamp pandas can hold
    (from 1677-09-21 00:12:44 to 2262-04-11 23:47:16) is read back by the
    daily aggregator's conversion to the calendar date of that
    [created_at]: the display loses the microseconds and nothing of the
    date.  For a [created_at] of the year 1000 or later outside these
    bounds the conversion raises [OutOfBoundsDatetime]. *)
Theorem asked_at_reads_back_to_the_date (data : pyval) (df : DataFrame) :
  process_conversations data = Ok df ->
  exists blocks,
    df = DataFrame_of_records (List.concat blocks)
    /\ Forall2
         (fun conversation block =>
            exists dt,
              created_at_of conversation = Ok dt
              /\ forall r, In r block ->
                   (in_bounds dt = true ->
                    to_date (PStr (Asked_at r))
                    = Ok (PDate (dt_year dt) (dt_month dt) (dt_day dt)))
                   /\ (in_bounds dt = false -> 1000 <= dt_year dt ->
                       to_date (PStr (Asked_at r))
                       = Raise OutOfBoundsDatetime))
         (conversations_of data) blocks.
Proof.
  intros H. apply process_conversations_spec in H.
  destruct H as (blocks & -> & _ & Hall).
  exists blocks. split; [reflexivity|].
  eapply Forall2_impl; [|exact Hall].
  intros c b (_ & _ & dt & Hdt & Hrows). exists dt. split; [exact Hdt|].
  intros r Hr. rewrite Forall_forall in Hrows.
  destruct (Hrows r Hr) as (-> & _).
  unfold created_at_of in Hdt. bind_inv Hdt. bind_inv Hdt.
  destruct (strptime_valid _ _ Hdt) as (Hd & Ht).
  unfold to_date. split.
  - intros Hb. pose proof (in_bounds_year dt Hd Ht Hb) as Hy.
    rewrite (to_datetime_strftime dt Hd Ht) by lia. rewrite Hb. reflexivity.
  - intros Hb Hy.
    rewrite (to_datetime_strftime dt Hd Ht Hy). rewrite Hb. reflexivity.
Qed.

Lemma asked_at_reads_back_to_the_date_witness :
  exists blocks,
    Examples.table_of_document = DataFrame_of_records (List.concat blocks)
    /\ Forall2
         (fun conversation block =>
            exists dt,
              created_at_of conversation = Ok dt
              /\ forall r, In r block ->
                   (in_bounds dt = true ->
                    to_date (PStr (Asked_at r))
                    = Ok (PDate (dt_year dt) (dt_month dt) (dt_day dt)))
                   /\ (in_bounds dt = false -> 1000 <= dt_year dt ->
                       to_date (PStr (Asked_at r))
                       = Raise OutOfBoundsDatetime))
         (conversations_of Examples.document) blocks.
Proof.
  apply (asked_at_reads_back_to_the_date Examples.document).
  vm_compute. reflexivity.
Defined.

Lemma chain_step {A} (p : parser A) (k : A -> parser datetime) :
  extends p ->
  (forall a, needs_input (k a)) ->
  (forall a, stops_at_suffix (k a)) ->
  stops_at_suffix (pthen p k).
Proof.
  intros Hp Hn Hk s dt c rest H Hc. unfold pthen in *.
  destruct (p s) as [(a, r)|] eqn:E; [|discriminate].
  assert (Hr : r <> EmptyString).
  { intros ->. rewrite (Hn a) in H. discriminate. }
  rewrite (Hp s a r _ E Hr). apply Hk; assumption.
Qed.

Lemma needs_input_pthen {A B} (p : parser A) (k : A -> parser B) :
  needs_input p -> needs_input (pthen p k).
Proof. unfold needs_input, pthen. intros ->. reflexivity. Qed.

Lemma extends_directive_Y : extends directive_Y.
Proof.
  intros s v r t H _. unfold directive_Y in *.
  destruct s as [|a [|b [|c [|d rest]]]]; try discriminate. cbn [append].
  destruct (digit a), (digit b), (digit c), (digit d); try discriminate.
  inversion H. reflexivity.
Qed.

Lemma extends_literal (c : ascii) : extends (literal c).
Proof.
  intros s v r t H _. unfold literal in *.
  destruct s as [|a rest]; [discriminate|]. cbn [append].
  destruct (Ascii.eqb a c); [|discriminate]. inversion H. reflexivity.
Qed.

Lemma extends_literal_T : extends literal_T.
Proof.
  intros s v r t H _. unfold literal_T in *.
  destruct s as [|a rest]; [discriminate|]. cbn [append].
  destruct (Ascii.eqb a "T" || Ascii.eqb a "t"); [|discriminate].
  inversion H. reflexivity.
Qed.

Lemma extends_directive2 (two : Z -> Z -> bool) (one : Z -> bool) :
  extends (directive2 two one).
Proof.
  intros s v r t H Hr. unfold directive2 in *.
  destruct s as [|a [|b rest]]; [discriminate| |]; cbn [append] in *.
  - destruct (digit a) as [x|]; [|discriminate].
    destruct (one x); [|discriminate]. inversion H. congruence.
  - destruct (digit a) as [x|]; [|discriminate].
    destruct (digit b) as [y|].
    + destruct (two x y).
      * inversion H. reflexivity.
      * destruct (one x); [|discriminate]. inversion H. reflexivity.
    + destruct (one x); [|discriminate]. inversion H. reflexivity.
Qed.

Lemma directive2_starts_with_digit (two : Z -> Z -> bool) (one : Z -> bool)
    (a : ascii) (rest : string) :
  digit a = None -> directive2 two one (String a rest) = None.
Proof.
  intros H. unfold directive2. rewrite H. destruct rest; reflexivity.
Qed.

Lemma extends_directive_d : extends directive_d.
Proof.
  intros s v r t H Hr. unfold directive_d in *.
  destruct (directive2 _ _ s) as [(v', r')|] eqn:E.
  - inversion H; subst. rewrite (extends_directive2 _ _ _ _ _ t E Hr).
    reflexivity.
  - destruct s as [|a [|b rest]]; try discriminate;
      [destruct a as [[] [] [] [] [] [] [] []]; discriminate|].
    cbn [append].
    destruct (digit a) eqn:Da.
    + destruct a as [[] [] [] [] [] [] [] []]; try discriminate;
        simpl in Da; discriminate.
    + rewrite directive2_starts_with_digit by exact Da.
      destruct a as [[] [] [] [] [] [] [] []]; try discriminate.
      destruct (digit b) as [y|]; [|discriminate].
      destruct (1 <=? y); [|discriminate]. inversion H. reflexivity.
Qed.

Lemma fraction_digits_suffix (fuel : nat) :
  forall acc s v c rest,
    fraction_digits fuel acc s = (v, EmptyString) -> digit c = None ->
    fraction_digits fuel acc (s ++ String c rest)%string
    = (v, String c rest).
Proof.
  induction fuel as [|fuel IH]; intros acc s v c rest H Hc; simpl in *.
  - inversion H. reflexivity.
  - destruct s as [|a r]; cbn [append].
    + inversion H. rewrite Hc. reflexivity.
    + destruct (digit a) as [x|]; [|discriminate]. apply IH; assumption.
Qed.

Lemma stops_at_suffix_directive_f (build : Z -> datetime) :
  stops_at_suffix
    (pthen directive_f (fun us rest => Some (build us, rest))).
Proof.
  intros s dt c rest H Hc. unfold pthen, directive_f in *.
  destruct s as [|a r]; [discriminate|]. cbn [append].
  destruct (digit a) as [x|]; [|discriminate].
  destruct (fraction_digits 6 0 (String a r)) as (us, r') eqn:E.
  inversion H; subst.
  change (String a (r ++ String c rest))%string
    with (String a r ++ String c rest)%string.
  rewrite (fraction_digits_suffix _ _ _ _ _ rest E Hc). reflexivity.
Qed.

(** What [strptime] does with a string it accepts when something that does
    not start with a digit is added at its end. *)
Lemma strptime_suffix (s : string) (dt : datetime) (c : ascii)
    (rest : string) :
  strptime s = Ok dt -> digit c = None ->
  strptime (s ++ String c rest) = Raise ValueError.
Proof.
  unfold strptime. intros H Hc.
  match goal with
  | |- context [match ?k (s ++ _)%string with _ => _ end] =>
      set (chain := k) in *
  end.
  assert (Hstop : stops_at_suffix chain).
  { unfold chain, directive_m, directive_H, directive_M, directive_S.
    repeat (apply chain_step;
            [first [ apply extends_directive_Y | apply extends_literal
                   | apply extends_literal_T | apply extends_directive2
                   | apply extends_directive_d ]
            | intros; reflexivity
            | intros ]).
    apply (stops_at_suffix_directive_f
             (fun us => mkDatetime _ _ _ _ _ _ us)). }
  destruct (chain s) as [(dt', [|a r])|] eqn:E; try discriminate.
  rewrite (Hstop s dt' c rest E Hc). reflexivity.
Qed.

Lemma before_plus_suffix (s : string) (c : ascii) (rest : string) :
  before_plus s = s ->
  before_plus (s ++ String c rest)
  = if Ascii.eqb c "+" then s else (s ++ String c (before_plus rest))%string.
Proof.
  induction s as [|a r IH]; simpl; intros H.
  - destruct (Ascii.eqb c "+"); reflexivity.
  - destruct (Ascii.eqb a "+"); [discriminate|].
    inversion H as [H']. rewrite H'. rewrite (IH H').
    destruct (Ascii.eqb c "+"); reflexivity.
Qed.

(** X10. For a timestamp [s] without a [+] that [strptime] accepts: a
    conversation whose [created_at] is [s] followed by a [+] and anything
    gets the timestamp of [s], the offset being cut off and not applied;
    a conversation whose [created_at] is [s] followed by anything else
    that does not start with a digit (a [Z], a negative offset) raises
    the [ValueError] of [strptime]. *)
Theorem only_a_plus_offset_is_cut (s : string) (dt : datetime) :
  strptime s = Ok dt ->
  before_plus s = s ->
  (forall offset entries,
      lookup "created_at" entries = Some (PStr (s ++ String "+" offset)) ->
      created_at_of (PDict entries) = Ok dt)
  /\ (forall c rest entries,
         digit c = None -> c <> "+"%char ->
         lookup "created_at" entries = Some (PStr (s ++ String c rest)) ->
         conversation_error (PDict entries) = Some ValueError).
Proof.
  intros Hs Hplus. split.
  - intros offset entries Hc. unfold created_at_of, getitem. rewrite Hc.
    simpl. rewrite (before_plus_suffix s "+" offset Hplus). exact Hs.
  - intros c rest entries Hd Hne Hc.
    unfold conversation_error, process_conversation, getitem.
    rewrite Hc. simpl. rewrite (before_plus_suffix s c rest Hplus).
    apply Ascii.eqb_neq in Hne. rewrite Hne.
    rewrite (strptime_suffix s dt c _ Hs Hd). reflexivity.
Qed.

Lemma only_a_plus_offset_is_cut_witness :
  (forall offset entries,
      lookup "created_at" entries
      = Some (PStr ("2024-01-05T10:20:30.123456" ++ String "+" offset)) ->
      created_at_of (PDict entries)
      = Ok (mkDatetime 2024 1 5 10 20 30 123456))
  /\ (forall c rest entries,
         digit c = None -> c <> "+"%char ->
         lookup "created_at" entries
         = Some (PStr ("2024-01-05T10:20:30.123456" ++ String c rest)) ->
         conversation_error (PDict entries) = Some ValueError).
Proof.
  apply (only_a_plus_offset_is_cut "2024-01-05T10:20:30.123456"
           (mkDatetime 2024 1 5 10 20 30 123456)); reflexivity.
Defined.

(** ** More on groups: sizes, distinct values, dates *)

Section GroupSizes.
Context {K : Type} (cmp : K -> K -> comparison) (lt : K -> K -> Prop).
Hypothesis cmp_spec : forall x y, CompSpec eq lt x y (cmp x y).
Hypothesis lt_strict : StrictOrder lt.

Lemma insert_key_length (k : K) (ks : list K) :
  (List.length (insert_key cmp k ks) <= S (List.length ks))%nat.
Proof.
  induction ks as [|k' rest IH]; simpl; [lia|].
  destruct (cmp k k'); simpl; lia.
Qed.

Lemma group_keys_length (keys : list (option K)) :
  (List.length (group_keys cmp keys) <= List.length keys)%nat.
Proof.
  induction keys as [|[k|] rest IH]; simpl; [lia| |lia].
  pose proof (insert_key_length k (group_keys cmp rest)). lia.
Qed.

Lemma group_keys_nonempty (keys : list (option K)) (k : K) :
  In (Some k) keys -> (1 <= List.length (group_keys cmp keys))%nat.
Proof.
  intros H. apply (group_keys_In cmp lt cmp_spec) in H.
  destruct (group_keys cmp keys); [destruct H | simpl; lia].
Qed.

Lemma group_keys_incl (keys keys' : list (option K)) :
  (forall k, In (Some k) keys -> In (Some k) keys') ->
  (List.length (group_keys cmp keys) <= List.length (group_keys cmp keys'))%nat.
Proof.
  intros H. apply NoDup_incl_length.
  - apply (group_keys_NoDup cmp lt cmp_spec lt_strict).
  - intros k Hk. apply (group_keys_In cmp lt cmp_spec).
    apply H. apply (group_keys_In cmp lt cmp_spec). exact Hk.
Qed.

Lemma length_group_cells {V} (k : K) (keys : list (option K))
    (cells : list V) :
  List.length cells = List.length keys ->
  List.length (group_cells cmp k keys cells)
  = List.length (filter (same_key cmp k) keys).
Proof.
  unfold group_cells. rewrite length_map. revert cells.
  induction keys as [|k' rest IH]; intros [|v cells] H; simpl in *;
    try discriminate; [reflexivity|].
  destruct (same_key cmp k k'); simpl; rewrite IH by lia; reflexivity.
Qed.

Lemma group_cells_nonempty {V} (k : K) (keys : list (option K))
    (cells : list V) :
  List.length cells = List.length keys ->
  In (Some k) keys ->
  (1 <= List.length (group_cells cmp k keys cells))%nat.
Proof.
  intros Hlen Hin. rewrite length_group_cells by exact Hlen.
  assert (Hf : In (Some k) (filter (same_key cmp k) keys)).
  { apply filter_In. split; [exact Hin|].
    apply (same_key_true cmp lt cmp_spec lt_strict). reflexivity. }
  destruct (filter (same_key cmp k) keys); [destruct Hf | simpl; lia].
Qed.
End GroupSizes.

Lemma nunique_value (ss : list string) :
  nunique (map PStr ss)
  = Ok (Z.of_nat (List.length
                    (group_keys String_as_OT.compare (map Some ss)))).
Proof. unfold nunique. rewrite traverse_str_key. reflexivity. Qed.

(** The distinct values of a part of a column of strings: at least one
    when the part is not empty, at most as many as its cells, and at most
    as many as in the whole column. *)
Lemma nunique_bounds (cells whole : list pyval) :
  forallb is_str whole = true ->
  (forall v, In v cells -> In v whole) ->
  exists n total,
    nunique cells = Ok n /\ nunique whole = Ok total
    /\ n <= Z.of_nat (List.length cells) /\ n <= total
    /\ (cells <> [] -> 1 <= n).
Proof.
  intros Hw Hincl.
  destruct (forallb_is_str whole Hw) as (ws & ->).
  destruct (forallb_is_str cells) as (cs & ->).
  { apply forallb_forall. intros v Hv. rewrite forallb_forall in Hw.
    apply Hw, Hincl, Hv. }
  rewrite !nunique_value. eexists. eexists.
  split; [reflexivity|]. split; [reflexivity|]. split; [|split].
  - pose proof (group_keys_length String_as_OT.compare (map Some cs)) as H.
    rewrite !length_map in *. lia.
  - apply inj_le.
    apply (group_keys_incl _ _ String_as_OT.compare_spec
             String_as_OT.lt_strorder).
    intros k Hk. apply in_map_iff in Hk. destruct Hk as (x & Hx & Hin).
    inversion Hx; subst x.
    assert (In (PStr k) (map PStr ws))
      by (apply Hincl, in_map, Hin).
    apply in_map_iff in H. destruct H as (y & Hy & Hin').
    inversion Hy; subst. apply in_map. exact Hin'.
  - intros Hne. destruct cs as [|c cs]; [simpl in Hne; congruence|].
    pose proof (group_keys_nonempty _ _ String_as_OT.compare_spec
                  (map Some (c :: cs)) c (or_introl eq_refl)).
    lia.
Qed.

Lemma date_compare_spec (x y : date) :
  CompSpec eq date_lt x y (date_compare x y).
Proof.
  destruct x as ((y1, m1), d1), y as ((y2, m2), d2).
  unfold date_lt, date_compare.
  destruct (Z.compare_spec y1 y2); subst;
    [destruct (Z.compare_spec m1 m2); subst;
       [destruct (Z.compare_spec d1 d2); subst|..]|..];
    constructor; try reflexivity;
    repeat match goal with
           | |- context [?a ?= ?b] =>
               destruct (Z.compare_spec a b); try lia
           end; reflexivity.
Qed.

Lemma date_lt_strorder : StrictOrder date_lt.
Proof.
  split.
  - intros ((y, m), d) H. unfold date_lt, date_compare in H.
    rewrite !Z.compare_refl in H. discriminate.
  - intros ((y1, m1), d1) ((y2, m2), d2) ((y3, m3), d3).
    unfold date_lt, date_compare. intros H12 H23.
    repeat match goal with
           | H : context [?a ?= ?b] |- _ =>
               destruct (Z.compare_spec a b); try discriminate
           end;
    repeat match goal with
           | |- context [?a ?= ?b] =>
               destruct (Z.compare_spec a b); try lia
           end; reflexivity.
Qed.

Lemma count_present (cells : list pyval) :
  (forall v, In v cells -> present v = true) ->
  count cells = Z.of_nat (List.length cells).
Proof.
  intros H. unfold count. rewrite filter_all; [reflexivity|]. exact H.
Qed.

(** ** More on the country aggregator: the [Users] column *)

Lemma grouped_country_rows_users (keys : list (option string))
    (questions asked : list pyval) (ks : list string) :
  forall grouped,
    traverse
      (fun k =>
         users <- nunique (group_cells String_as_OT.compare k keys asked) ;;
         Ok (mkCountryMetric k
               (count (group_cells String_as_OT.compare k keys questions))
               users)) ks
    = Ok grouped ->
    Forall (fun r =>
              In (cm_country r) ks
              /\ nunique (group_cells String_as_OT.compare (cm_country r)
                            keys asked) = Ok (cm_users r)
              /\ cm_questions r
                 = count (group_cells String_as_OT.compare (cm_country r)
                            keys questions))
           grouped.
Proof.
  induction ks as [|k rest IH]; intros grouped H; simpl in H.
  - inversion H. constructor.
  - bind_inv H. bind_inv H. inversion H; subst grouped.
    bind_inv E. inversion E; subst a. simpl.
    constructor; [simpl; auto|].
    eapply Forall_impl; [|apply IH; exact E0].
    intros r (Hin & Hrest). split; [right; exact Hin | exact Hrest].
Qed.

(** X11. On a frame whose countries and timestamps are strings, whose
    questions are present and whose three columns have the same length,
    every row of the country metrics counts at least one question, and at
    least one and at most that many distinct timestamps as [Users]. *)
Theorem country_users_between_one_and_questions
    (argsort : list Z -> list nat) (h : store) (df : ref)
    (frame : DataFrame) (countries questions asked : list pyval) :
  read h df = Some frame ->
  column frame "Country" = Ok countries ->
  column frame "User Question" = Ok questions ->
  column frame "Asked at" = Ok asked ->
  List.length questions = List.length countries ->
  List.length asked = List.length countries ->
  forallb is_str countries = true ->
  forallb present questions = true ->
  forallb is_str asked = true ->
  exists rows,
    get_country_metrics argsort df h
    = (Ok (List.length h), h ++ [country_frame rows])
    /\ Forall (fun r => 1 <= cm_users r <= cm_questions r) rows.
Proof.
  intros Hr Hc Hq Ha Hlq Hla Hcs Hqs Has.
  destruct (forallb_is_str _ Hcs) as (ss & ->).
  rewrite forallb_forall in Hqs. pose proof Has as Has'.
  rewrite forallb_forall in Has'.
  set (keys := map Some ss).
  destruct (grouped_country_rows keys questions asked
              (group_keys String_as_OT.compare keys) Has')
    as (grouped & Htrav & _ & _).
  pose proof (grouped_country_rows_users _ _ _ _ _ Htrav) as Hrows.
  exists (sort_values_desc argsort cm_questions grouped). split.
  - unfold get_country_metrics, country_rows.
    rewrite Hr, Hc, Hq, Ha. simpl. rewrite traverse_str_key. simpl.
    fold keys. rewrite Htrav. reflexivity.
  - apply Forall_forall. intros r Hin.
    apply sort_values_desc_In in Hin.
    rewrite Forall_forall in Hrows.
    destruct (Hrows r Hin) as (Hk & Hu & Hn).
    apply (group_keys_In _ _ String_as_OT.compare_spec) in Hk.
    assert (Hlk : List.length keys = List.length ss)
      by (unfold keys; apply length_map).
    rewrite length_map in Hlq, Hla.
    destruct (nunique_bounds
                (group_cells String_as_OT.compare (cm_country r) keys asked)
                asked Has)
      as (n & total & Hn' & _ & Hle & _ & Hone).
    { intros v. apply group_cells_In. }
    rewrite Hu in Hn'. inversion Hn'; subst n.
    pose proof (group_cells_nonempty _ _ String_as_OT.compare_spec
                  String_as_OT.lt_strorder (cm_country r) keys asked
                  ltac:(lia) Hk) as Hne.
    rewrite Hn, count_present.
    + rewrite (length_group_cells String_as_OT.compare _ keys questions)
        by lia.
      split.
      * apply Hone. intros Hnil. rewrite Hnil in Hne. simpl in Hne. lia.
      * rewrite (length_group_cells String_as_OT.compare _ keys asked) in Hle
          by lia.
        exact Hle.
    + intros v Hv. apply Hqs. eapply group_cells_In, Hv.
Qed.

Lemma country_users_between_one_and_questions_witness :
  exists rows,
    get_country_metrics Examples.stable_argsort 0%nat
      [Examples.table_of_document]
    = (Ok 1%nat, [Examples.table_of_document] ++ [country_frame rows])
    /\ Forall (fun r => 1 <= cm_users r <= cm_questions r) rows.
Proof.
  apply (country_users_between_one_and_questions Examples.stable_argsort
           [Examples.table_of_document] 0%nat Examples.table_of_document
           [PStr "US"; PStr "US"; PStr "IN"]
           [PStr "What is Atlan?"; PStr "How to use Atlan connectors";
            PStr "hello"]
           [PStr "January 05, 2024 10:20:30";
            PStr "January 05, 2024 10:20:30";
            PStr "January 06, 2024 08:00:00"]);
    reflexivity.
Defined.

(** ** More on the daily aggregator: its metrics *)

Lemma to_date_strs (asked : list pyval) :
  forallb is_str asked = true ->
  forall dates,
    traverse to_date asked = Ok dates ->
    exists ds, dates = map pdate ds /\ List.length ds = List.length asked.
Proof.
  induction asked as [|v rest IH]; simpl; intros Hs dates H.
  - inversion H. exists []. split; reflexivity.
  - apply andb_true_iff in Hs. destruct Hs as (Hv & Hrest).
    destruct v; try discriminate. cbn [traverse] in H.
    bind_inv H. bind_inv H. inversion H; subst dates.
    unfold to_date in E. bind_inv E. inversion E; subst a.
    destruct (IH Hrest a0 E0) as (ds & -> & Hl).
    exists ((dt_year a1, dt_month a1, dt_day a1) :: ds). simpl.
    split; [reflexivity | lia].
Qed.

Lemma traverse_date_key (ds : list date) :
  traverse date_key (map pdate ds) = Ok (map Some ds).
Proof.
  induction ds as [|((y, m), d) rest IH]; simpl; [reflexivity|].
  rewrite IH. reflexivity.
Qed.

Lemma pdate_injective (a b : date) : pdate a = pdate b -> a = b.
Proof.
  destruct a as ((y1, m1), d1), b as ((y2, m2), d2). simpl.
  intros H. inversion H. reflexivity.
Qed.

Lemma date_compare_eq (a b : date) :
  match date_compare a b with Eq => true | _ => false end = true <-> a = b.
Proof.
  destruct (date_compare_spec a b) as [->|H|H].
  - tauto.
  - split; [discriminate|]. intros ->.
    destruct (StrictOrder_Irreflexive (StrictOrder := date_lt_strorder) _ H).
  - split; [discriminate|]. intros ->.
    destruct (StrictOrder_Irreflexive (StrictOrder := date_lt_strorder) _ H).
Qed.

Lemma filter_unique_date (right : list (date * Z)) (ku : date * Z) :
  NoDup (map fst right) -> In ku right ->
  filter (fun r => match date_compare (fst ku) (fst r) with
                   | Eq => true
                   | _ => false
                   end) right
  = [ku].
Proof.
  induction right as [|r0 rest IH]; simpl; intros Hnd Hin; [destruct Hin|].
  inversion Hnd as [|? ? Hnot Hnd']; subst.
  assert (Hnone : forall x : date * Z,
             ~ In (fst x) (map fst rest) ->
             filter (fun r => match date_compare (fst x) (fst r) with
                              | Eq => true
                              | _ => false
                              end) rest = []).
  { intros x Hx. clear -Hx. induction rest as [|r rest IH]; [reflexivity|].
    simpl in *.
    destruct (match date_compare (fst x) (fst r) with
              | Eq => true | _ => false end) eqn:E.
    - apply date_compare_eq in E. destruct Hx. left. symmetry. exact E.
    - apply IH. intros H. apply Hx. right. exact H. }
  destruct Hin as [->|Hin].
  - rewrite (proj2 (date_compare_eq (fst ku) (fst ku)) eq_refl).
    rewrite (Hnone ku Hnot). reflexivity.
  - destruct (match date_compare (fst ku) (fst r0) with
              | Eq => true | _ => false end) eqn:E.
    + apply date_compare_eq in E. destruct Hnot. rewrite <- E.
      apply in_map. exact Hin.
    + apply IH; assumption.
Qed.

(** The merge of two tables with the same distinct dates has one row per
    date. *)
Lemma merge_same_dates (c : date -> Z) (right : list (date * Z)) :
  NoDup (map fst right) ->
  forall left,
    incl left right ->
    merge_on_date (map (fun ku => (fst ku, c (fst ku))) left) right
    = map (fun ku => mkDailyMetric (fst ku) (c (fst ku)) (snd ku)) left.
Proof.
  intros Hnd. unfold merge_on_date.
  induction left as [|ku rest IH]; intros Hincl; [reflexivity|].
  simpl. rewrite (filter_unique_date right ku Hnd)
    by (apply Hincl; left; reflexivity).
  simpl. rewrite IH; [reflexivity|].
  intros x Hx. apply Hincl. right. exact Hx.
Qed.

Lemma daily_users_rows (keys : list (option date)) (countries : list pyval)
    (ks : list date) :
  (forall v, In v countries -> is_str v = true) ->
  exists daily_users,
    traverse
      (fun k =>
         users <- nunique (group_cells date_compare k keys countries) ;;
         Ok (k, users)) ks
    = Ok daily_users
    /\ map fst daily_users = ks
    /\ Forall (fun ku =>
                 nunique (group_cells date_compare (fst ku) keys countries)
                 = Ok (snd ku)) daily_users.
Proof.
  intros Hc. induction ks as [|k rest IH]; simpl.
  - exists []. repeat split. constructor.
  - destruct IH as (dus & -> & Hk & Hall).
    destruct (nunique_strs (group_cells date_compare k keys countries))
      as (n & Hn).
    + intros v Hv. apply Hc. eapply group_cells_In, Hv.
    + rewrite Hn. simpl. exists ((k, n) :: dus). simpl. rewrite Hk.
      repeat split. constructor; [exact Hn | exact Hall].
Qed.

(** The metrics of the daily aggregator on a frame of strings. *)
Lemma daily_metrics_facts (h : store) (df : ref) (frame : DataFrame)
    (asked questions countries dates : list pyval) :
  read h df = Some frame ->
  column frame "Asked at" = Ok asked ->
  column frame "User Question" = Ok questions ->
  column frame "Country" = Ok countries ->
  traverse to_date asked = Ok dates ->
  List.length questions = List.length asked ->
  List.length countries = List.length asked ->
  forallb is_str asked = true ->
  forallb present questions = true ->
  forallb is_str countries = true ->
  exists rows total,
    get_daily_metrics df h
    = (Ok (List.length h),
       write h df (set_column frame "Date" dates) ++ [daily_frame rows])
    /\ StronglySorted date_lt (map dm_date rows)
    /\ (forall d, In d (map dm_date rows) <-> In (pdate d) dates)
    /\ sum (map dm_questions rows) = Z.of_nat (List.length asked)
    /\ nunique countries = Ok total
    /\ Forall (fun r => 1 <= dm_users r <= dm_questions r
                        /\ dm_users r <= total) rows.
Proof.
  intros Hr Ha Hq Hc Hd Hlq Hlc Has Hqs Hcs.
  destruct (to_date_strs asked Has dates Hd) as (ds & -> & Hlds).
  set (keys := map Some ds).
  set (ks := group_keys date_compare keys).
  set (c := fun k => count (group_cells date_compare k keys questions)).
  pose proof Hcs as Hcs'. rewrite forallb_forall in Hcs'.
  rewrite forallb_forall in Hqs.
  destruct (daily_users_rows keys countries ks Hcs')
    as (dus & Htrav & Hfst & Husers).
  assert (Hnd : NoDup ks).
  { apply (group_keys_NoDup _ _ date_compare_spec date_lt_strorder). }
  assert (Hlk : List.length keys = List.length asked).
  { unfold keys. rewrite length_map. exact Hlds. }
  set (rows := map (fun ku => mkDailyMetric (fst ku) (c (fst ku)) (snd ku))
                   dus).
  assert (Hdates : map dm_date rows = ks).
  { unfold rows. rewrite map_map. simpl. exact Hfst. }
  destruct (nunique_bounds countries countries Hcs (fun v H => H))
    as (total & _ & Htotal & _).
  exists rows, total. split; [|split; [|split; [|split; [|split]]]].
  - unfold get_daily_metrics. rewrite Hr, Ha. simpl. rewrite Hd.
    unfold daily_rows, column.
    rewrite lookup_set_column.
    rewrite !lookup_set_column_other by discriminate.
    unfold column in Hq, Hc.
    destruct (lookup "User Question" frame); [|discriminate].
    inversion Hq; subst l.
    destruct (lookup "Country" frame); [|discriminate].
    inversion Hc; subst l. simpl.
    rewrite traverse_date_key. simpl. fold keys. fold ks.
    rewrite Htrav. simpl.
    replace (map (fun k => (k, count (group_cells date_compare k keys
                                        questions))) ks)
      with (map (fun ku : date * Z => (fst ku, c (fst ku))) dus)
      by (rewrite <- Hfst, map_map; reflexivity).
    rewrite merge_same_dates;
      [|rewrite Hfst; exact Hnd | apply incl_refl].
    unfold alloc. rewrite length_write. reflexivity.
  - rewrite Hdates.
    apply (group_keys_sorted _ _ date_compare_spec date_lt_strorder).
  - intros d. rewrite Hdates. unfold ks.
    rewrite (group_keys_In _ _ date_compare_spec). unfold keys.
    rewrite !in_map_iff. split; intros (x & Hx & Hin); exists x.
    + inversion Hx; subst. split; [reflexivity | exact Hin].
    + apply pdate_injective in Hx. subst. split; [reflexivity | exact Hin].
  - unfold rows. rewrite map_map. simpl.
    rewrite <- (map_map fst c), Hfst. unfold c, ks, group_cells.
    rewrite (sum_group_counts _ _ date_compare_spec date_lt_strorder).
    + rewrite filter_all.
      * rewrite length_combine. lia.
      * intros (k, v) Hin. pose proof (in_combine_l _ _ _ _ Hin) as Hk.
        apply in_combine_r in Hin. unfold keys in Hk.
        apply in_map_iff in Hk. destruct Hk as (x & <- & _). simpl.
        apply (Hqs v Hin).
    + exact Hnd.
    + intros k v Hin. apply in_combine_l in Hin.
      apply (group_keys_In _ _ date_compare_spec). exact Hin.
  - exact Htotal.
  - apply Forall_forall. intros r Hin. unfold rows in Hin.
    apply in_map_iff in Hin. destruct Hin as ((k, u) & <- & Hin). simpl.
    rewrite Forall_forall in Husers. pose proof (Husers _ Hin) as Hu.
    simpl in Hu.
    assert (Hk : In (Some k) keys).
    { apply (group_keys_In _ _ date_compare_spec). fold ks.
      rewrite <- Hfst. apply (in_map fst _ _ Hin). }
    destruct (nunique_bounds (group_cells date_compare k keys countries)
                countries Hcs)
      as (n & total' & Hn & Ht & Hle & Hlt & Hone).
    { intros v. apply group_cells_In. }
    rewrite Hu in Hn. inversion Hn; subst n.
    rewrite Htotal in Ht. inversion Ht; subst total'.
    pose proof (group_cells_nonempty _ _ date_compare_spec
                  date_lt_strorder k keys countries ltac:(lia) Hk) as Hne.
    unfold c. rewrite count_present.
    + rewrite (length_group_cells date_compare k keys questions) by lia.
      rewrite (length_group_cells date_compare k keys countries) in Hle
        by lia.
      split; [split; [|exact Hle] | exact Hlt].
      apply Hone. intros Hnil. rewrite Hnil in Hne. simpl in Hne. lia.
    + intros v Hv. apply Hqs. eapply group_cells_In, Hv.
Qed.

(** X12. On a frame whose timestamps are strings in the display format,
    whose countries are strings, whose questions are present and whose
    three columns have the same length, the daily aggregator writes the
    dates to the frame and returns a new table with one row per distinct
    date, in ascending order of the dates; the dates of the table are
    those of the frame; the numbers of questions add up to the number of
    rows of the frame; and the [Users] of a date, its number of distinct
    countries, is at least one, at most the questions of the date and at
    most the number of distinct countries of the whole frame. *)
Theorem daily_metrics_complete (h : store) (df : ref) (frame : DataFrame)
    (asked questions countries dates : list pyval) :
  read h df = Some frame ->
  column frame "Asked at" = Ok asked ->
  column frame "User Question" = Ok questions ->
  column frame "Country" = Ok countries ->
  traverse to_date asked = Ok dates ->
  List.length questions = List.length asked ->
  List.length countries = List.length asked ->
  forallb is_str asked = true ->
  forallb present questions = true ->
  forallb is_str countries = true ->
  exists rows total,
    get_daily_metrics df h
    = (Ok (List.length h),
       write h df (set_column frame "Date" dates) ++ [daily_frame rows])
    /\ StronglySorted date_lt (map dm_date rows)
    /\ (forall d, In d (map dm_date rows) <-> In (pdate d) dates)
    /\ sum (map dm_questions rows) = Z.of_nat (List.length asked)
    /\ nunique countries = Ok total
    /\ Forall (fun r => 1 <= dm_users r <= dm_questions r
                        /\ dm_users r <= total) rows.
Proof.
  exact (daily_metrics_facts h df frame asked questions countries dates).
Qed.

Lemma daily_metrics_complete_witness :
  exists rows total,
    get_daily_metrics 0%nat [Examples.table_of_document]
    = (Ok 1%nat,
       write [Examples.table_of_document] 0%nat
         (set_column Examples.table_of_document "Date"
            [PDate 2024 1 5; PDate 2024 1 5; PDate 2024 1 6])
       ++ [daily_frame rows])
    /\ StronglySorted date_lt (map dm_date rows)
    /\ (forall d, In d (map dm_date rows)
                  <-> In (pdate d)
                        [PDate 2024 1 5; PDate 2024 1 5; PDate 2024 1 6])
    /\ sum (map dm_questions rows) = Z.of_nat 3
    /\ nunique [PStr "US"; PStr "US"; PStr "IN"] = Ok total
    /\ Forall (fun r => 1 <= dm_users r <= dm_questions r
                        /\ dm_users r <= total) rows.
Proof.
  apply (daily_metrics_complete
           [Examples.table_of_document] 0%nat Examples.table_of_document
           [PStr "January 05, 2024 10:20:30";
            PStr "January 05, 2024 10:20:30";
            PStr "January 06, 2024 08:00:00"]
           [PStr "What is Atlan?"; PStr "How to use Atlan connectors";
            PStr "hello"]
           [PStr "US"; PStr "US"; PStr "IN"]); reflexivity.
Defined.


(** ** The table of the first tab *)

Lemma rows_of_conversation_rows (data conversation : pyval)
    (block : list QuestionRow) :
  In conversation (conversations_of data) ->
  rows_of_conversation conversation block ->
  Forall (flattened_row data) block.
Proof.
  intros Hin (_ & Hq & dt & Hdt & Hrows).
  assert (Hm : Forall (fun q => exists m,
                         In m (messages_of conversation)
                         /\ is_user m = true
                         /\ q = field m "content" PNone)
                      (map User_Question block)).
  { rewrite Hq. apply Forall_forall. intros q Hq'.
    apply in_map_iff in Hq'. destruct Hq' as (m & <- & Hm).
    apply filter_In in Hm. exists m. tauto. }
  rewrite Forall_map in Hm.
  rewrite Forall_forall in Hrows, Hm. apply Forall_forall. intros r Hr.
  destruct (Hrows r Hr) as (Ha & _ & Hc).
  destruct (Hm r Hr) as (m & Hm1 & Hm2 & Hm3).
  exists conversation, dt, m. auto 10.
Qed.

Lemma flattened_rows (data : pyval) (df : DataFrame) :
  process_conversations data = Ok df ->
  exists rows,
    df = DataFrame_of_records rows
    /\ List.length rows
       = list_sum (map user_messages (conversations_of data))
    /\ Forall (flattened_row data) rows.
Proof.
  intros H. apply process_conversations_spec in H.
  destruct H as (blocks & -> & _ & Hall).
  exists (List.concat blocks). split; [reflexivity|].
  split; [apply blocks_length, Hall|].
  assert (Hgen : forall convs,
             incl convs (conversations_of data) ->
             Forall2 rows_of_conversation convs blocks ->
             Forall (flattened_row data) (List.concat blocks)).
  { clear Hall. intros convs Hincl Hall.
    induction Hall as [|c b cs bs Hcb _ IH]; simpl; [constructor|].
    apply Forall_app. split.
    - apply (rows_of_conversation_rows data c b); [|exact Hcb].
      apply Hincl. left. reflexivity.
    - apply IH. intros x Hx. apply Hincl. right. exact Hx. }
  apply (Hgen _ (incl_refl _) Hall).
Qed.

Lemma strftime_to_the_second (dt : datetime) :
  strftime (mkDatetime (dt_year dt) (dt_month dt) (dt_day dt)
              (dt_hour dt) (dt_minute dt) (dt_second dt) 0)
  = strftime dt.
Proof. reflexivity. Qed.

(** The display of a row of a document whose timestamps pandas can hold,
    read back. *)
Lemma to_datetime_row (data : pyval) (r : QuestionRow) :
  timestamps_in_bounds data ->
  flattened_row data r ->
  exists st,
    to_datetime (PStr (Asked_at r)) = Ok st
    /\ strftime st = Asked_at r
    /\ to_date (PStr (Asked_at r))
       = Ok (PDate (dt_year st) (dt_month st) (dt_day st)).
Proof.
  intros Hbounds (c & dt & m & Hc & Hdt & Ha & _).
  pose proof (Hbounds c dt Hc Hdt) as Hb.
  unfold created_at_of in Hdt. bind_inv Hdt. bind_inv Hdt.
  destruct (strptime_valid _ _ Hdt) as (Hd & Ht).
  pose proof (in_bounds_year dt Hd Ht Hb) as Hy.
  assert (Hst : to_datetime (PStr (Asked_at r))
                = Ok (mkDatetime (dt_year dt) (dt_month dt) (dt_day dt)
                        (dt_hour dt) (dt_minute dt) (dt_second dt) 0)).
  { rewrite Ha, (to_datetime_strftime dt Hd Ht) by lia.
    rewrite Hb. reflexivity. }
  eexists. split; [exact Hst|]. split.
  - rewrite strftime_to_the_second. symmetry. exact Ha.
  - unfold to_date. rewrite Hst. reflexivity.
Qed.

Lemma to_datetime_flattened (data : pyval) (rows : list QuestionRow) :
  timestamps_in_bounds data ->
  Forall (flattened_row data) rows ->
  exists stamps,
    traverse to_datetime (map (fun r => PStr (Asked_at r)) rows) = Ok stamps
    /\ map (fun st => PStr (strftime st)) stamps
       = map (fun r => PStr (Asked_at r)) rows.
Proof.
  intros Hbounds. induction 1 as [|r rest Hr _ (stamps & IH & Hs)].
  - exists []. split; reflexivity.
  - destruct (to_datetime_row data r Hbounds Hr) as (st & Hst & Hfmt & _).
    cbn [map traverse]. rewrite Hst. cbn [bind]. rewrite IH. cbn [bind].
    eexists. split; [reflexivity|]. cbn [map]. rewrite Hfmt, Hs.
    reflexivity.
Qed.

Lemma In_combine_seq {A} (l : list A) :
  forall first i x,
    In (i, x) (combine (seq first (List.length l)) l) ->
    (first <= i)%nat /\ nth_error l (i - first) = Some x.
Proof.
  induction l as [|y rest IH]; simpl; intros first i x H; [destruct H|].
  destruct H as [H|H].
  - inversion H; subst. rewrite Nat.sub_diag. split; [lia | reflexivity].
  - apply IH in H. destruct H as (Hle & Hn). split; [lia|].
    replace (i - first)%nat with (S (i - S first)) by lia. exact Hn.
Qed.

Lemma map_fst_combine_seq {A} (l : list A) (first : nat) :
  map fst (combine (seq first (List.length l)) l)
  = seq first (List.length l).
Proof.
  revert first. induction l as [|y rest IH]; intros first; simpl;
    [reflexivity|].
  rewrite IH. reflexivity.
Qed.

Lemma StronglySorted_map_In {A B} (f : A -> B) (R : A -> A -> Prop)
    (R' : B -> B -> Prop) (l : list A) :
  (forall a b, In a l -> In b l -> R a b -> R' (f a) (f b)) ->
  StronglySorted R l -> StronglySorted R' (map f l).
Proof.
  intros H Hs. induction Hs as [|x rest Hs IH Hall]; simpl; constructor.
  - apply IH. intros a b Ha Hb. apply H; right; assumption.
  - rewrite Forall_map. rewrite Forall_forall in *. intros b Hb.
    apply H; [left; reflexivity | right; exact Hb | apply Hall, Hb].
Qed.

(** The first tab on the rows of a flattened table. *)
Lemma full_data_view_flattened (argsort : list Z -> list nat)
    (data : pyval) (rows : list QuestionRow) :
  sorts argsort ->
  timestamps_in_bounds data ->
  Forall (flattened_row data) rows ->
  rows <> [] ->
  exists stamps indexer,
    traverse to_datetime (map (fun r => PStr (Asked_at r)) rows) = Ok stamps
    /\ Permutation indexer (seq 0 (List.length rows))
    /\ StronglySorted (newest_first stamps) indexer
    /\ full_data_view argsort (DataFrame_of_records rows)
       = Ok (viewed_frame rows indexer).
Proof.
  intros Hsorts Hbounds Hrows Hne.
  destruct (to_datetime_flattened data rows Hbounds Hrows)
    as (stamps & Htrav & Hs).
  assert (Hlen : List.length stamps = List.length rows).
  { rewrite <- (length_map (fun st => PStr (strftime st))), Hs.
    apply length_map. }
  set (order := sort_values_desc argsort
                  (fun p : nat * datetime => timestamp_key (snd p))
                  (combine (seq 0 (List.length stamps)) stamps)).
  pose proof (sort_values_desc_permutation argsort
                (fun p : nat * datetime => timestamp_key (snd p)) Hsorts
                (combine (seq 0 (List.length stamps)) stamps)) as Hperm.
  fold order in Hperm.
  assert (Hin : forall p, In p order ->
                  nth_error stamps (fst p) = Some (snd p)).
  { intros (i, x) Hp. apply (Permutation_in _ Hperm) in Hp.
    apply In_combine_seq in Hp. destruct Hp as (_ & Hp).
    rewrite Nat.sub_0_r in Hp. exact Hp. }
  exists stamps, (map fst order). split; [exact Htrav|].
  split; [|split].
  - rewrite <- Hlen, <- (map_fst_combine_seq stamps 0).
    apply Permutation_map. exact Hperm.
  - apply (StronglySorted_map_In fst
             (fun a b => timestamp_key (snd b) <= timestamp_key (snd a))).
    + intros a b Ha Hb Hab. unfold newest_first.
      rewrite (nth_error_nth _ _ _ (Hin a Ha)).
      rewrite (nth_error_nth _ _ _ (Hin b Hb)). exact Hab.
    + apply (sort_values_desc_sorted argsort
               (fun p : nat * datetime => timestamp_key (snd p)) Hsorts).
  - destruct rows as [|r0 rest]; [congruence|].
    unfold full_data_view, DataFrame_of_records, column.
    cbn [lookup String.eqb Ascii.eqb Bool.eqb bind].
    rewrite Htrav. cbn [bind]. fold order.
    assert (Hfmt : map (fun p : nat * datetime => PStr (strftime (snd p)))
                       order
                   = take (map fst order)
                       (map (fun r => PStr (Asked_at r)) (r0 :: rest))).
    { unfold take. rewrite map_map. apply map_ext_in. intros p Hp.
      rewrite <- Hs. pose proof (Hin p Hp) as Hn.
      apply (map_nth_error (fun st => PStr (strftime st))) in Hn.
      symmetry. apply nth_error_nth. exact Hn. }
    rewrite Hfmt. unfold viewed_frame.
    rewrite length_map.
    rewrite (Permutation_length Hperm), length_combine, length_seq.
    rewrite Nat.min_id, Hlen. reflexivity.
Qed.

(** X13. For a document whose timestamps pandas can hold (from 1677-09-21
    00:12:44 to 2262-04-11 23:47:16) and on which the flattener returns a
    table with at least one row, whatever the order in which numpy's sort
    leaves equal keys, the four statements that open the first tab replace
    the table by one with the same columns and the same rows in another
    order: every column but [S.No] is the flattener's column taken by one
    indexer, a permutation of the row positions along which the timestamps
    do not increase, the display strings of [Asked at] being written back
    as they were; and [S.No] is numbered anew, 1, 2, ... in the new
    order. *)
Theorem first_tab_reorders_and_renumbers (argsort : list Z -> list nat)
    (data : pyval) (df : DataFrame) :
  sorts argsort ->
  timestamps_in_bounds data ->
  process_conversations data = Ok df ->
  df <> [] ->
  exists asked stamps indexer view,
    column df "Asked at" = Ok asked
    /\ traverse to_datetime asked = Ok stamps
    /\ full_data_view argsort df = Ok view
    /\ Permutation indexer
         (seq 0 (list_sum (map user_messages (conversations_of data))))
    /\ StronglySorted (newest_first stamps) indexer
    /\ column_names view = column_names df
    /\ column view "S.No"
       = Ok (map PInt (numbers_from 1
               (list_sum (map user_messages (conversations_of data)))))
    /\ forall name cells,
         name <> "S.No" -> column df name = Ok cells ->
         column view name = Ok (take indexer cells).
Proof.
  intros Hsorts Hbounds H Hne.
  destruct (flattened_rows data df H) as (rows & -> & Hl & Hr).
  assert (Hrows : rows <> []) by (intros ->; apply Hne; reflexivity).
  destruct (full_data_view_flattened argsort data rows Hsorts Hbounds Hr
              Hrows)
    as (stamps & indexer & Htrav & Hperm & Hsorted & Hview).
  destruct rows as [|r0 rest]; [congruence|].
  exists (map (fun r => PStr (Asked_at r)) (r0 :: rest)), stamps, indexer,
    (viewed_frame (r0 :: rest) indexer).
  rewrite <- Hl.
  split; [reflexivity|]. split; [exact Htrav|]. split; [exact Hview|].
  split; [exact Hperm|]. split; [exact Hsorted|].
  split; [reflexivity|]. split; [reflexivity|].
  intros name cells Hname. apply String.eqb_neq in Hname.
  unfold column, DataFrame_of_records, viewed_frame. cbn [lookup].
  rewrite Hname.
  repeat match goal with
         | |- context [String.eqb name ?k] => destruct (String.eqb name k)
         end; intros Hc; inversion Hc; reflexivity.
Qed.

(** The timestamps of the example documents are of January 2024. *)
Lemma document_in_bounds : timestamps_in_bounds Examples.document.
Proof.
  intros c dt Hc Hdt. simpl in Hc.
  destruct Hc as [<-|[<-|[]]]; vm_compute in Hdt; inversion Hdt;
    reflexivity.
Qed.

Lemma answered_document_in_bounds :
  timestamps_in_bounds Examples.answered_document.
Proof.
  intros c dt Hc Hdt. simpl in Hc.
  destruct Hc as [<-|[<-|[]]]; vm_compute in Hdt; inversion Hdt;
    reflexivity.
Qed.

Lemma first_tab_reorders_and_renumbers_witness :
  exists asked stamps indexer view,
    column Examples.table_of_document "Asked at" = Ok asked
    /\ traverse to_datetime asked = Ok stamps
    /\ full_data_view Examples.stable_argsort Examples.table_of_document
       = Ok view
    /\ Permutation indexer
         (seq 0 (list_sum (map user_messages
                             (conversations_of Examples.document))))
    /\ StronglySorted (newest_first stamps) indexer
    /\ column_names view = column_names Examples.table_of_document
    /\ column view "S.No"
       = Ok (map PInt (numbers_from 1
               (list_sum (map user_messages
                            (conversations_of Examples.document)))))
    /\ forall name cells,
         name <> "S.No" ->
         column Examples.table_of_document name = Ok cells ->
         column view name = Ok (take indexer cells).
Proof.
  apply (first_tab_reorders_and_renumbers Examples.stable_argsort
           Examples.document).
  - exact stable_argsort_sorts.
  - exact document_in_bounds.
  - vm_compute. reflexivity.
  - discriminate.
Defined.

(** X14. A document without any user message is flattened to the table
    without columns, on which the first tab raises [KeyError('Asked at')]:
    such an export is reported as an error, not shown as an empty
    table. *)
Theorem no_user_message_no_first_tab (argsort : list Z -> list nat)
    (data : pyval) (df : DataFrame) :
  process_conversations data = Ok df ->
  list_sum (map user_messages (conversations_of data)) = 0%nat ->
  df = [] /\ full_data_view argsort df = Raise (KeyError "Asked at").
Proof.
  intros H Hn. destruct (flattened_rows data df H) as (rows & -> & Hl & _).
  rewrite Hn in Hl. destruct rows; [|discriminate]. split; reflexivity.
Qed.

Lemma no_user_message_no_first_tab_witness :
  (@nil (string * list pyval)) = [] /\
  full_data_view Examples.stable_argsort [] = Raise (KeyError "Asked at").
Proof.
  apply (no_user_message_no_first_tab Examples.stable_argsort
           Examples.document_without_country);
    reflexivity.
Defined.

(** ** From the document to the metrics, through the first tab *)

Lemma take_In (indexer : list nat) (cells : list pyval) (v : pyval) :
  Permutation indexer (seq 0 (List.length cells)) ->
  In v (take indexer cells) -> In v cells.
Proof.
  intros Hperm Hv. unfold take in Hv. apply in_map_iff in Hv.
  destruct Hv as (i & <- & Hi). apply (Permutation_in _ Hperm) in Hi.
  apply in_seq in Hi. apply nth_In. lia.
Qed.

Lemma length_take (indexer : list nat) (cells : list pyval) :
  List.length (take indexer cells) = List.length indexer.
Proof. apply length_map. Qed.

Lemma traverse_total {A B} (f : A -> result B) (l : list A) :
  (forall x, In x l -> exists y, f x = Ok y) ->
  exists out, traverse f l = Ok out.
Proof.
  induction l as [|x rest IH]; simpl; intros H; [eauto|].
  destruct (H x (or_introl eq_refl)) as (y & ->).
  destruct IH as (ys & ->); [intros z Hz; apply H; right; exact Hz|].
  simpl. eauto.
Qed.

(** The total of the [Questions] of the country aggregator. *)
Lemma country_questions_total (argsort : list Z -> list nat) (h : store)
    (df : ref) (frame : DataFrame)
    (countries questions asked : list pyval) :
  sorts argsort ->
  read h df = Some frame ->
  column frame "Country" = Ok countries ->
  column frame "User Question" = Ok questions ->
  column frame "Asked at" = Ok asked ->
  List.length questions = List.length countries ->
  forallb is_str countries = true ->
  forallb present questions = true ->
  forallb is_str asked = true ->
  exists rows,
    get_country_metrics argsort df h
    = (Ok (List.length h), h ++ [country_frame rows])
    /\ sum (map cm_questions rows) = Z.of_nat (List.length countries).
Proof.
  intros Hsorts Hr Hc Hq Ha Hlen Hcs Hqs Has.
  destruct (forallb_is_str _ Hcs) as (ss & ->).
  rewrite forallb_forall in Has, Hqs.
  destruct (country_rows_of_columns argsort frame ss questions asked
              Hc Hq Ha Has)
    as (grouped & Hrows & Hk & Hn).
  exists (sort_values_desc argsort cm_questions grouped). split.
  - unfold get_country_metrics. rewrite Hr, Hrows. reflexivity.
  - rewrite (sum_permutation _ _
               (Permutation_map cm_questions
                  (sort_values_desc_permutation argsort cm_questions
                     Hsorts grouped))), Hn.
    unfold group_cells.
    rewrite (sum_group_counts _ _ String_as_OT.compare_spec
               String_as_OT.lt_strorder).
    + rewrite filter_all.
      * rewrite length_combine, !length_map. rewrite length_map in Hlen.
        lia.
      * intros (k, v) Hin. pose proof (in_combine_l _ _ _ _ Hin) as Hk'.
        apply in_combine_r in Hin. apply in_map_iff in Hk'.
        destruct Hk' as (s & <- & _). simpl. apply (Hqs v Hin).
    + apply (group_keys_NoDup _ _ String_as_OT.compare_spec
               String_as_OT.lt_strorder).
    + intros k v Hin. apply in_combine_l in Hin.
      apply (group_keys_In _ _ String_as_OT.compare_spec). exact Hin.
Qed.

(** X15. For a document whose timestamps pandas can hold, whose countries
    are strings, whose user messages all have a content, at least one
    user message in all, and whose table has a number as the score of
    every row: the first tab builds its table and the computations of its
    quick statistics raise nothing, and on that table, which [main] hands
    to the next tabs, the country aggregator and the daily aggregator
    both return metrics whose numbers of questions add up to the number
    of user messages of the document. *)
Theorem every_user_message_is_counted (argsort : list Z -> list nat)
    (data : pyval) (df : DataFrame) :
  sorts argsort ->
  timestamps_in_bounds data ->
  process_conversations data = Ok df ->
  df <> [] ->
  (forall conversation,
      In conversation (conversations_of data) ->
      exists s, getitem conversation "country" = Ok (PStr s)) ->
  (forall conversation message,
      In conversation (conversations_of data) ->
      In message (messages_of conversation) ->
      is_user message = true ->
      present (field message "content" PNone) = true) ->
  (forall scores,
      column df "Score" = Ok scores -> forallb is_number scores = true) ->
  exists view,
    first_tab argsort df = Ok view
    /\ forall (h : store) (r : ref),
         read h r = Some view ->
         exists by_country by_day dates,
           get_country_metrics argsort r h
           = (Ok (List.length h), h ++ [country_frame by_country])
           /\ sum (map cm_questions by_country)
              = Z.of_nat (list_sum (map user_messages
                                      (conversations_of data)))
           /\ get_daily_metrics r h
              = (Ok (List.length h),
                 write h r (set_column view "Date" dates)
                 ++ [daily_frame by_day])
           /\ sum (map dm_questions by_day)
              = Z.of_nat (list_sum (map user_messages
                                      (conversations_of data))).
Proof.
  intros Hsorts Hbounds H Hne Hcountry Hcontent Hscores.
  destruct (flattened_rows data df H) as (rows & -> & Hl & Hrows).
  assert (Hnil : rows <> []) by (intros ->; apply Hne; reflexivity).
  destruct (full_data_view_flattened argsort data rows Hsorts Hbounds Hrows
              Hnil)
    as (stamps & indexer & _ & Hperm & _ & Hview).
  assert (Hin : forall (f : QuestionRow -> pyval) v,
             In v (take indexer (map f rows)) ->
             exists x, In x rows /\ v = f x).
  { intros f v Hv. apply take_In in Hv; [|rewrite length_map; exact Hperm].
    apply in_map_iff in Hv. destruct Hv as (x & <- & Hx). eauto. }
  exists (viewed_frame rows indexer). split.
  { unfold first_tab. rewrite Hview. cbn [bind].
    unfold unique_countries, score_mean.
    change (column (viewed_frame rows indexer) "Country")
      with (Ok (take indexer (map Country rows))).
    change (column (viewed_frame rows indexer) "Score")
      with (Ok (take indexer (map Score rows))).
    cbn [bind].
    assert (Hhash : forallb hashable (take indexer (map Country rows))
                    = true).
    { apply forallb_forall. intros v Hv. apply Hin in Hv.
      destruct Hv as (x & Hx & ->). rewrite Forall_forall in Hrows.
      destruct (Hrows x Hx) as (c & dt & m & Hc & _ & _ & Hg & _).
      destruct (Hcountry c Hc) as (s & Hs). rewrite Hs in Hg.
      inversion Hg. reflexivity. }
    assert (Hnum : forallb is_number (take indexer (map Score rows)) = true).
    { apply forallb_forall. intros v Hv. apply Hin in Hv.
      destruct Hv as (x & Hx & ->).
      destruct rows as [|r0 rest]; [congruence|].
      specialize (Hscores _ eq_refl). rewrite forallb_forall in Hscores.
      apply Hscores. apply in_map. exact Hx. }
    rewrite Hhash, Hnum. reflexivity. }
  intros h r Hr. rewrite <- Hl.
  assert (Hli : List.length indexer = List.length rows).
  { rewrite (Permutation_length Hperm). apply length_seq. }
  rewrite Forall_forall in Hrows.
  set (asked := take indexer (map (fun x => PStr (Asked_at x)) rows)).
  set (countries := take indexer (map Country rows)).
  set (questions := take indexer (map User_Question rows)).
  assert (Has : forallb is_str asked = true).
  { apply forallb_forall. intros v Hv. apply Hin in Hv.
    destruct Hv as (x & _ & ->). reflexivity. }
  assert (Hcs : forallb is_str countries = true).
  { apply forallb_forall. intros v Hv. apply Hin in Hv.
    destruct Hv as (x & Hx & ->).
    destruct (Hrows x Hx) as (c & dt & m & Hc & _ & _ & Hg & _).
    destruct (Hcountry c Hc) as (s & Hs). rewrite Hs in Hg.
    inversion Hg. reflexivity. }
  assert (Hqs : forallb present questions = true).
  { apply forallb_forall. intros v Hv. apply Hin in Hv.
    destruct Hv as (x & Hx & ->).
    destruct (Hrows x Hx) as (c & dt & m & Hc & _ & _ & _ & Hm & Hu & ->).
    apply (Hcontent c m Hc Hm Hu). }
  destruct (traverse_total to_date asked) as (dates & Hdates).
  { intros v Hv. apply Hin in Hv. destruct Hv as (x & Hx & ->).
    destruct (to_datetime_row data x Hbounds (Hrows x Hx))
      as (st & _ & _ & Hdate).
    eauto. }
  destruct (country_questions_total argsort h r (viewed_frame rows indexer)
              countries questions asked Hsorts Hr eq_refl eq_refl eq_refl)
    as (by_country & Hrun & Hsum); auto.
  { unfold questions, countries. rewrite !length_take. reflexivity. }
  destruct (daily_metrics_facts h r (viewed_frame rows indexer)
              asked questions countries dates Hr eq_refl eq_refl eq_refl
              Hdates)
    as (by_day & total & Hrun' & _ & _ & Hsum' & _); auto.
  { unfold questions, asked. rewrite !length_take. reflexivity. }
  { unfold countries, asked. rewrite !length_take. reflexivity. }
  exists by_country, by_day, dates.
  unfold countries in Hsum. unfold asked in Hsum'.
  rewrite length_take, Hli in Hsum, Hsum'.
  split; [exact Hrun|]. split; [exact Hsum|]. split; [exact Hrun'|].
  exact Hsum'.
Qed.

Lemma every_user_message_is_counted_witness :
  exists view,
    first_tab Examples.stable_argsort Examples.table_of_answered_document
    = Ok view
    /\ forall (h : store) (r : ref),
         read h r = Some view ->
         exists by_country by_day dates,
           get_country_metrics Examples.stable_argsort r h
           = (Ok (List.length h), h ++ [country_frame by_country])
           /\ sum (map cm_questions by_country)
              = Z.of_nat (list_sum (map user_messages
                                      (conversations_of
                                         Examples.answered_document)))
           /\ get_daily_metrics r h
              = (Ok (List.length h),
                 write h r (set_column view "Date" dates)
                 ++ [daily_frame by_day])
           /\ sum (map dm_questions by_day)
              = Z.of_nat (list_sum (map user_messages
                                      (conversations_of
                                         Examples.answered_document))).
Proof.
  apply (every_user_message_is_counted Examples.stable_argsort
           Examples.answered_document).
  - exact stable_argsort_sorts.
  - exact answered_document_in_bounds.
  - vm_compute. reflexivity.
  - discriminate.
  - intros c Hc. simpl in Hc.
    destruct Hc as [<-|[<-|[]]]; eexists; reflexivity.
  - intros c m Hc Hm _. simpl in Hc.
    destruct Hc as [<-|[<-|[]]]; simpl in Hm;
      repeat (destruct Hm as [<-|Hm]; [reflexivity|]); destruct Hm.
  - intros scores Hs. inversion Hs. reflexivity.
Defined.

(** ** Messages the flattener does not consult *)

Lemma find_last_assistant_consulted (messages : list pyval) :
  forallb is_dict messages = true ->
  forall last,
    find_last_assistant (filter consulted messages) last
    = find_last_assistant messages last.
Proof.
  induction messages as [|m rest IH]; simpl; intros Hd last; [reflexivity|].
  apply andb_true_iff in Hd. destruct Hd as (Hm & Hrest).
  destruct m; try discriminate.
  unfold consulted, is_user, is_assistant_text, field. simpl.
  destruct (lookup "role" entries) as [role|] eqn:Erole; simpl.
  - destruct (eq_str role "user") eqn:Eu; simpl.
    + rewrite Erole. simpl.
      assert (Ea : eq_str role "assistant" = false).
      { destruct role; try reflexivity. simpl in *.
        apply String.eqb_eq in Eu. subst. reflexivity. }
      rewrite Ea. apply IH, Hrest.
    + destruct (eq_str role "assistant") eqn:Ea; simpl; [|apply IH, Hrest].
      destruct (lookup "type" entries) as [type|] eqn:Etype; simpl.
      * destruct (eq_str type "text") eqn:Et; simpl; [|apply IH, Hrest].
        rewrite Erole. simpl. rewrite Ea, Etype. simpl. rewrite Et.
        destruct (lookup "content" entries), (lookup "score" entries);
          simpl; apply IH, Hrest.
      * apply IH, Hrest.
  - apply IH, Hrest.
Qed.

Lemma collect_user_questions_consulted (conversation : pyval) (fd : string)
    (resp score : pyval) (messages : list pyval) :
  forallb is_dict messages = true ->
  forall details,
    collect_user_questions conversation fd resp score
      (filter consulted messages) details
    = collect_user_questions conversation fd resp score messages details.
Proof.
  induction messages as [|m rest IH]; simpl; intros Hd details;
    [reflexivity|].
  apply andb_true_iff in Hd. destruct Hd as (Hm & Hrest).
  destruct m; try discriminate.
  unfold consulted, is_user, is_assistant_text, field. simpl.
  destruct (lookup "role" entries) as [role|] eqn:Erole; simpl.
  - destruct (eq_str role "user") eqn:Eu; simpl.
    + rewrite Erole. simpl. rewrite Eu.
      destruct (lookup "content" entries); simpl;
        destruct (getitem conversation "country"); simpl;
        try reflexivity; apply IH, Hrest.
    + destruct (eq_str role "assistant") eqn:Ea; simpl; [|apply IH, Hrest].
      destruct (lookup "type" entries) as [type|] eqn:Etype; simpl.
      * destruct (eq_str type "text") eqn:Et; simpl; [|apply IH, Hrest].
        rewrite Erole. simpl. rewrite Eu. apply IH, Hrest.
      * apply IH, Hrest.
  - apply IH, Hrest.
Qed.

(** X16. The rows of a conversation depend on its user messages and on the
    text messages of its assistant only: two conversations with the same
    timestamp and country, the messages of the second being the consulted
    messages of the first (a list of dicts), add the same rows, or raise
    the same exception. *)
Theorem other_messages_are_ignored (entries entries' : list (string * pyval))
    (messages : list pyval) (details : list QuestionRow) :
  lookup "created_at" entries' = lookup "created_at" entries ->
  lookup "country" entries' = lookup "country" entries ->
  lookup "messages" entries = Some (PList messages) ->
  lookup "messages" entries' = Some (PList (filter consulted messages)) ->
  forallb is_dict messages = true ->
  process_conversation (PDict entries') details
  = process_conversation (PDict entries) details.
Proof.
  intros Hc Hk Hm Hm' Hd. unfold process_conversation, getitem.
  rewrite Hc, Hm, Hm'.
  destruct (lookup "created_at" entries) as [created|]; simpl; [|reflexivity].
  destruct (split_plus_first created) as [text|]; simpl; [|reflexivity].
  destruct (strptime text) as [dt|]; simpl; [|reflexivity].
  rewrite (find_last_assistant_consulted messages Hd).
  destruct (find_last_assistant messages (PNone, PStr "N/A"))
    as [(resp, score)|]; simpl; [|reflexivity].
  rewrite (collect_user_questions_consulted _ _ _ _ messages Hd).
  clear - Hk. revert details.
  induction messages as [|m rest IH]; intros details; simpl; [reflexivity|].
  destruct (method_get m "role" PNone) as [role|]; simpl; [|reflexivity].
  destruct (eq_str role "user"); [|apply IH].
  destruct (method_get m "content" PNone); simpl; [|reflexivity].
  unfold getitem. rewrite Hk.
  destruct (lookup "country" entries); simpl; [apply IH | reflexivity].
Qed.

Lemma other_messages_are_ignored_witness :
  process_conversation
    (PDict [("created_at", PStr "2024-01-05T10:20:30.123456");
            ("country", PStr "US");
            ("messages", PList (filter consulted
               [Examples.user "hello";
                PDict [("role", PStr "system"); ("content", PStr "x")];
                Examples.assistant "Hi." 5]))]) []
  = process_conversation
      (PDict [("country", PStr "US");
              ("messages", PList
                 [Examples.user "hello";
                  PDict [("role", PStr "system"); ("content", PStr "x")];
                  Examples.assistant "Hi." 5]);
              ("created_at", PStr "2024-01-05T10:20:30.123456")]) [].
Proof.
  apply (other_messages_are_ignored
           [("country", PStr "US");
            ("messages", PList
               [Examples.user "hello";
                PDict [("role", PStr "system"); ("content", PStr "x")];
                Examples.assistant "Hi." 5]);
            ("created_at", PStr "2024-01-05T10:20:30.123456")]
           [("created_at", PStr "2024-01-05T10:20:30.123456");
            ("country", PStr "US");
            ("messages", PList (filter consulted
               [Examples.user "hello";
                PDict [("role", PStr "system"); ("content", PStr "x")];
                Examples.assistant "Hi." 5]))]
           [Examples.user "hello";
            PDict [("role", PStr "system"); ("content", PStr "x")];
            Examples.assistant "Hi." 5]); reflexivity.
Defined.

(** ** The count of each group *)

Lemma same_key_eq_str (k k' : string) :
  same_key String_as_OT.compare k (Some k') = eq_str (PStr k') k.
Proof.
  simpl eq_str.
  destruct (same_key String_as_OT.compare k (Some k')) eqn:E.
  - apply (same_key_true _ _ String_as_OT.compare_spec
             String_as_OT.lt_strorder) in E.
    subst. symmetry. apply String.eqb_refl.
  - destruct (String.eqb_spec k' k) as [->|]; [|reflexivity].
    rewrite (proj2 (same_key_true _ _ String_as_OT.compare_spec
                      String_as_OT.lt_strorder k k) eq_refl) in E.
    discriminate.
Qed.

Lemma count_group_strs (k : string) (ks : list string)
    (cells : list pyval) :
  List.length cells = List.length ks ->
  (forall v, In v cells -> present v = true) ->
  count (group_cells String_as_OT.compare k (map Some ks) cells)
  = occurrences k (map PStr ks).
Proof.
  intros Hlen Hp. rewrite count_present.
  - rewrite length_group_cells by (rewrite length_map; exact Hlen).
    unfold occurrences. f_equal. clear.
    induction ks as [|k' rest IH]; [reflexivity|].
    cbn [map filter]. rewrite same_key_eq_str.
    destruct (eq_str (PStr k') k); simpl; rewrite IH; reflexivity.
  - intros v Hv. apply Hp. eapply group_cells_In, Hv.
Qed.

(** X17. On a frame whose questions are strings, at least one, the count
    of every row of the category metrics is the number of questions that
    the classifier gives the category of the row, and is at least one. *)
Theorem category_count_is_the_number_of_questions
    (argsort : list Z -> list nat) (h : store) (df : ref)
    (frame : DataFrame) (questions : list string) :
  read h df = Some frame ->
  column frame "User Question" = Ok (map PStr questions) ->
  questions <> [] ->
  exists rows h',
    get_category_metrics argsort df h = (Ok (List.length h, df), h')
    /\ read h' (List.length h) = Some (category_frame rows)
    /\ Forall (fun r =>
                 cat_count r
                 = occurrences (cat_category r)
                     (map PStr (map analyze_question_category questions))
                 /\ 1 <= cat_count r) rows.
Proof.
  intros Hr Hq Hne.
  exists (sort_values_desc argsort cat_count
            (unsorted_category_rows questions)).
  eexists.
  split; [exact (get_category_metrics_run argsort h df frame questions
                   Hr Hq Hne)|].
  split.
  - apply (write_alloc_frame h df frame _ _ Hr).
  - apply Forall_forall. intros r Hin.
    apply sort_values_desc_In in Hin.
    unfold unsorted_category_rows, category_counts in Hin.
    rewrite map_map in Hin. apply in_map_iff in Hin.
    destruct Hin as (k & <- & Hk). simpl.
    rewrite count_group_strs.
    + split; [reflexivity|].
      apply (group_keys_In _ _ String_as_OT.compare_spec) in Hk.
      apply in_map_iff in Hk. destruct Hk as (x & Hx & Hin).
      inversion Hx; subst x. unfold occurrences.
      assert (Hf : In (PStr k)
                     (filter (fun v => eq_str v k)
                        (map PStr (map analyze_question_category
                                     questions)))).
      { apply filter_In. split; [apply in_map, Hin|].
        simpl. apply String.eqb_refl. }
      destruct (filter _ _); [destruct Hf | simpl; lia].
    + rewrite !length_map. reflexivity.
    + intros v Hv. apply in_map_iff in Hv. destruct Hv as (q & <- & _).
      reflexivity.
Qed.

Lemma category_count_is_the_number_of_questions_witness :
  exists rows h',
    get_category_metrics Examples.stable_argsort 0%nat
      [Examples.table_of_document]
    = (Ok (1%nat, 0%nat), h')
    /\ read h' 1%nat = Some (category_frame rows)
    /\ Forall (fun r =>
                 cat_count r
                 = occurrences (cat_category r)
                     (map PStr (map analyze_question_category
                        ["What is Atlan?"; "How to use Atlan connectors";
                         "hello"]))
                 /\ 1 <= cat_count r) rows.
Proof.
  apply (category_count_is_the_number_of_questions Examples.stable_argsort
           [Examples.table_of_document] 0%nat Examples.table_of_document
           ["What is Atlan?"; "How to use Atlan connectors"; "hello"]).
  - reflexivity.
  - reflexivity.
  - discriminate.
Defined.

(** X18. On a frame whose countries and timestamps are strings, whose
    questions are present and whose columns have the same length, the
    [Questions] of every row of the country metrics is the number of rows
    of the frame with the country of the row. *)
Theorem country_questions_is_the_number_of_rows
    (argsort : list Z -> list nat) (h : store) (df : ref)
    (frame : DataFrame) (countries questions asked : list pyval) :
  read h df = Some frame ->
  column frame "Country" = Ok countries ->
  column frame "User Question" = Ok questions ->
  column frame "Asked at" = Ok asked ->
  List.length questions = List.length countries ->
  forallb is_str countries = true ->
  forallb present questions = true ->
  forallb is_str asked = true ->
  exists rows,
    get_country_metrics argsort df h
    = (Ok (List.length h), h ++ [country_frame rows])
    /\ Forall (fun r =>
                 cm_questions r = occurrences (cm_country r) countries)
              rows.
Proof.
  intros Hr Hc Hq Ha Hlq Hcs Hqs Has.
  destruct (forallb_is_str _ Hcs) as (ss & ->).
  rewrite forallb_forall in Hqs, Has.
  destruct (grouped_country_rows (map Some ss) questions asked
              (group_keys String_as_OT.compare (map Some ss)) Has)
    as (grouped & Htrav & _ & _).
  pose proof (grouped_country_rows_users _ _ _ _ _ Htrav) as Hrows.
  exists (sort_values_desc argsort cm_questions grouped). split.
  - unfold get_country_metrics, country_rows.
    rewrite Hr, Hc, Hq, Ha. simpl. rewrite traverse_str_key. simpl.
    rewrite Htrav. reflexivity.
  - apply Forall_forall. intros r Hin.
    apply sort_values_desc_In in Hin.
    rewrite Forall_forall in Hrows.
    destruct (Hrows r Hin) as (_ & _ & ->).
    apply count_group_strs; [|exact Hqs].
    rewrite length_map in Hlq. exact Hlq.
Qed.

Lemma country_questions_is_the_number_of_rows_witness :
  exists rows,
    get_country_metrics Examples.stable_argsort 0%nat
      [Examples.table_of_document]
    = (Ok 1%nat, [Examples.table_of_document] ++ [country_frame rows])
    /\ Forall (fun r =>
                 cm_questions r
                 = occurrences (cm_country r)
                     [PStr "US"; PStr "US"; PStr "IN"])
              rows.
Proof.
  apply (country_questions_is_the_number_of_rows Examples.stable_argsort
           [Examples.table_of_document] 0%nat Examples.table_of_document
           [PStr "US"; PStr "US"; PStr "IN"]
           [PStr "What is Atlan?"; PStr "How to use Atlan connectors";
            PStr "hello"]
           [PStr "January 05, 2024 10:20:30";
            PStr "January 05, 2024 10:20:30";
            PStr "January 06, 2024 08:00:00"]);
    reflexivity.
Defined.
